(** * TurnosPeluqueria: the appointment manager of [TurnosPeluqueria.py]

    A shallow embedding of the classes [Cliente], [Turno] and
    [GestorTurnos], followed by the properties of the manager that the
    specification states.

    Conventions of the embedding.
    - A Python [str] is a [string]; a character is a code point below 256.
    - Dataclass annotations are not enforced at run time: [load_from_csv]
      stores [None] in the fields a short row lacks.  A field therefore
      holds a [value]: [None] or a [str].
    - A [dict] is an association list in insertion order (Python keeps
      that order, and [listar_turnos], [dump_to_csv] and [load_from_csv]
      observe it).
    - A method is a computation of the monad [M]: it runs on the state of
      the manager and of its two files, and either returns or raises;
      the state survives a raise, as the attributes of a Python object do.
    - The standard library is taken by contract: [datetime.strptime] and
      [strftime] are the methods of the class [DateTimeLib],
      [uuid.uuid4] is an argument of [solicitar_turno], the [json] module
      writes and reads back the structured value it is given, and the
      [csv] module writes and reads rows of cells.
    - The menu is a computation of the monad [IO], which adds to the
      manager the lines typed and what [print] has shown.
    - Writing a file succeeds, and the two files are those named when
      the manager was constructed: the state holds their contents and
      not [self.csv_path], which changes only in
      [exportar_csv_personalizado].  That method is not embedded, and a
      manager whose export has failed and left the path changed is not
      a state of this development.  What is stated of a call that raises
      is stated of the errors the manager raises itself. *)

From Stdlib Require Import List String Ascii Bool Arith ZArith Lia.
From Stdlib Require Import Permutation Sorted.
Import ListNotations.
Open Scope string_scope.
Open Scope list_scope.

(** ** Strings *)

Module Str.

(** [str.isspace] on one character (code points below 256). *)
Definition isspace (c : ascii) : bool :=
  let n := nat_of_ascii c in
  (((9 <=? n) && (n <=? 13)) || ((28 <=? n) && (n <=? 32))
   || (n =? 133) || (n =? 160))%nat.

Fixpoint lstrip_chars (l : list ascii) : list ascii :=
  match l with
  | c :: l' => if isspace c then lstrip_chars l' else l
  | [] => []
  end.

Definition rstrip_chars (l : list ascii) : list ascii :=
  rev (lstrip_chars (rev l)).

(** [s.strip()] *)
Definition strip (s : string) : string :=
  string_of_list_ascii
    (rstrip_chars (lstrip_chars (list_ascii_of_string s))).

(** Truth value of a [str] in a condition: the empty string is false. *)
Definition truthy (s : string) : bool :=
  match s with EmptyString => false | _ => true end.

Definition CR : ascii := ascii_of_nat 13.
Definition LF : ascii := ascii_of_nat 10.

(** Text read from a file opened without [newline=""]: the two-character
    sequence CR LF and a lone CR both arrive as LF. *)
Fixpoint universal_newlines (s : string) : string :=
  match s with
  | EmptyString => EmptyString
  | String c s' =>
      if Ascii.eqb c CR then
        match s' with
        | String c' s'' =>
            if Ascii.eqb c' LF then String LF (universal_newlines s'')
            else String LF (universal_newlines s')
        | EmptyString => String LF EmptyString
        end
      else String c (universal_newlines s')
  end.

Fixpoint sin_cr (s : string) : bool :=
  match s with
  | EmptyString => true
  | String c s' => negb (Ascii.eqb c CR) && sin_cr s'
  end.

End Str.

(** ** Values held by a field: [None] or a [str] *)

Inductive value : Type :=
| VNone
| VStr (s : string).

Definition value_eqb (a b : value) : bool :=
  match a, b with
  | VNone, VNone => true
  | VStr s, VStr s' => String.eqb s s'
  | _, _ => false
  end.

(** ** Dictionaries in insertion order *)

Module Dict.

Definition t (V : Type) : Type := list (string * V).

Definition empty {V} : t V := [].

(** [d.get(k)] *)
Fixpoint get {V} (k : string) (d : t V) : option V :=
  match d with
  | [] => None
  | (k', v) :: d' => if String.eqb k k' then Some v else get k d'
  end.

(** [k in d] *)
Definition mem {V} (k : string) (d : t V) : bool :=
  match get k d with Some _ => true | None => false end.

(** [d[k] = v]: an existing key keeps its place, a new one goes last. *)
Fixpoint set {V} (k : string) (v : V) (d : t V) : t V :=
  match d with
  | [] => [(k, v)]
  | (k', v') :: d' =>
      if String.eqb k k' then (k', v) :: d' else (k', v') :: set k v d'
  end.

(** [d.keys()], [d.values()] and [d.items()] *)
Definition keys {V} (d : t V) : list string := map fst d.
Definition values {V} (d : t V) : list V := map snd d.
Definition items {V} (d : t V) : list (string * V) := d.

(** [dict(pairs)], and a dict comprehension over [pairs]. *)
Definition of_items {V} (l : list (string * V)) : t V :=
  fold_left (fun d kv => set (fst kv) (snd kv) d) l empty.

(** No key occurs twice: what every Python dict satisfies. *)
Definition wf {V} (d : t V) : Prop := NoDup (keys d).

End Dict.

(** ** Dates and times *)

(** What [datetime.strptime] builds from the two formats of the program:
    seconds and smaller units are always zero. *)
Record datetime : Type := mkDatetime {
  year : nat;
  month : nat;
  day : nat;
  hour : nat;
  minute : nat
}.

(** [dt.date()] *)
Definition date (dt : datetime) : nat * nat * nat :=
  (year dt, month dt, day dt).

Definition date_eqb (a b : nat * nat * nat) : bool :=
  let '(y, m, d) := a in
  let '(y', m', d') := b in
  (y =? y')%nat && (m =? m')%nat && (d =? d')%nat.

(** [a < b] on naive datetimes: chronological order. *)
Definition datetime_ltb (a b : datetime) : bool :=
  ((year a <? year b)
   || ((year a =? year b)
       && ((month a <? month b)
           || ((month a =? month b)
               && ((day a <? day b)
                   || ((day a =? day b)
                       && ((hour a <? hour b)
                           || ((hour a =? hour b)
                               && (minute a <? minute b)))))))))%nat.

Definition datetime_lt (a b : datetime) : Prop := datetime_ltb a b = true.
Definition datetime_le (a b : datetime) : Prop := datetime_ltb b a = false.

Definition CSV_FILE := "turnos.csv".
Definition DICT_FILE := "turnos_db.json".
Definition DATE_FORMAT := "%Y-%m-%d".
Definition DATETIME_FORMAT := "%Y-%m-%d %H:%M".

(** The two library calls on dates.  [strptime data format] is [None]
    where [datetime.strptime(data, format)] raises [ValueError]. *)
Class DateTimeLib : Type := {
  strptime : string -> string -> option datetime;
  strftime : datetime -> string -> string
}.

(** ** The data classes *)

Record Cliente : Type := mkCliente {
  dni : value;
  nombre : value;
  telefono : value
}.

Record Turno : Type := mkTurno {
  id : value;
  cliente_dni : value;
  datetime_str : value;
  servicio : value;
  estado : value;
  notas : value
}.

Definition activo := VStr "activo".
Definition cancelado := VStr "cancelado".
Definition realizado := VStr "realizado".

(** ** The two files *)

(** A JSON object whose members are strings or nulls: what [asdict]
    gives for a [Cliente] or a [Turno]. *)
Definition campos : Type := Dict.t value.

(** The structured snapshot: a JSON object of objects of such objects. *)
Definition snapshot : Type := Dict.t (Dict.t campos).

(** The header of the row export. *)
Definition fieldnames : list string :=
  ["turno_id"; "cliente_dni"; "cliente_nombre"; "cliente_telefono";
   "datetime_str"; "servicio"; "estado"; "notas"].

(** The row export: the rows of cells below the header line that
    [dump_to_csv] writes, as [csv.writer] is given them and as
    [csv.reader] parses them. *)
Definition csv_rows : Type := list (list string).

(** ** The manager *)

(** The attributes [clientes] and [turnos], and the content of the files
    at [csv_path] and [dict_path] ([None] while a file does not exist).
    The two paths are those given to [__init__]: the record does not hold
    them, and a manager in which [exportar_csv_personalizado] has left
    another [csv_path] is not a value of it. *)
Record GestorTurnos : Type := mkGestor {
  clientes : Dict.t Cliente;
  turnos : Dict.t Turno;
  csv_file : option csv_rows;
  dict_file : option snapshot
}.

(** ** Exceptions *)

(** The first six are the [raise] statements of the manager, under the
    names the specification gives them; the others come from the library
    or the interpreter. *)
Inductive exn : Type :=
| DuplicateClient      (* ValueError: Cliente con DNI ... ya registrado. *)
| UnknownClient        (* ValueError: Cliente no registrado. ... *)
| InvalidTimestamp     (* ValueError: Formato de fecha/hora invalido. ... *)
| InvalidDate          (* ValueError: Formato de fecha invalido. ... *)
| SlotConflict         (* ValueError: ... turno activo en ese horario. *)
| NotFound             (* KeyError: Turno no encontrado. *)
| ValueError           (* strptime on a stored datetime_str *)
| TypeError            (* strptime on None *)
| AttributeError       (* None.strip() *)
| KeyError (k : string)
| FileNotFoundError
| CsvError.            (* _csv.Error: field larger than field limit *)

(** ** The monad of methods *)

Inductive outcome (A : Type) : Type :=
| Returned (a : A) (g : GestorTurnos)
| Raised (e : exn) (g : GestorTurnos).

Arguments Returned {A} a g.
Arguments Raised {A} e g.

Definition M (A : Type) : Type := GestorTurnos -> outcome A.

Definition ret {A} (a : A) : M A := fun g => Returned a g.

Definition raise {A} (e : exn) : M A := fun g => Raised e g.

Definition bind {A B} (m : M A) (k : A -> M B) : M B :=
  fun g =>
    match m g with
    | Returned a g' => k a g'
    | Raised e g' => Raised e g'
    end.

Definition self : M GestorTurnos := fun g => Returned g g.

Definition assign (f : GestorTurnos -> GestorTurnos) : M unit :=
  fun g => Returned tt (f g).

Declare Scope py_scope.
Delimit Scope py_scope with py.
Notation "x <- m ;; k" := (bind m (fun x => k))
  (at level 61, m at next level, right associativity) : py_scope.
Notation "m ;; k" := (bind m (fun _ => k))
  (at level 61, right associativity) : py_scope.
Open Scope py_scope.

(** State after a call, whether it returned or raised. *)
Definition state_of {A} (o : outcome A) : GestorTurnos :=
  match o with Returned _ g => g | Raised _ g => g end.

(** [for x in l: body(x)] *)
Fixpoint for_each {A} (l : list A) (body : A -> M unit) : M unit :=
  match l with
  | [] => ret tt
  | x :: l' => body x ;; for_each l' body
  end.

(** [for x in it: body(x)] over an iterator whose next item may raise. *)
Fixpoint for_each_next {A} (it : list (M A)) (body : A -> M unit) : M unit :=
  match it with
  | [] => ret tt
  | next :: it' => x <- next ;; body x ;; for_each_next it' body
  end.

(** A list or dict comprehension whose element expression may raise. *)
Fixpoint comprehension {A B} (f : A -> M B) (l : list A) : M (list B) :=
  match l with
  | [] => ret []
  | x :: l' => y <- f x ;; ys <- comprehension f l' ;; ret (y :: ys)
  end.

Definition set_clientes (c : Dict.t Cliente) (g : GestorTurnos) :=
  mkGestor c (turnos g) (csv_file g) (dict_file g).
Definition set_turnos (t : Dict.t Turno) (g : GestorTurnos) :=
  mkGestor (clientes g) t (csv_file g) (dict_file g).
Definition set_csv_file (f : option csv_rows) (g : GestorTurnos) :=
  mkGestor (clientes g) (turnos g) f (dict_file g).
Definition set_dict_file (f : option snapshot) (g : GestorTurnos) :=
  mkGestor (clientes g) (turnos g) (csv_file g) f.

(** ** Serialisation of the data classes *)

(** [str.strip] applied to a field: [None] has no such method. *)
Definition strip_value (v : value) : M string :=
  match v with
  | VStr s => ret (Str.strip s)
  | VNone => raise AttributeError
  end.

(** [d[k]] *)
Definition subscript {V} (d : Dict.t V) (k : string) : M V :=
  match Dict.get k d with
  | Some v => ret v
  | None => raise (KeyError k)
  end.

(** [d.get(k, default)] *)
Definition get_default {V} (d : Dict.t V) (k : string) (default : V) : V :=
  match Dict.get k d with
  | Some v => v
  | None => default
  end.

Definition Cliente_to_dict (c : Cliente) : campos :=
  [("dni", dni c); ("nombre", nombre c); ("telefono", telefono c)].

Definition Cliente_from_dict (d : campos) : M Cliente :=
  dni <- subscript d "dni" ;;
  nombre <- subscript d "nombre" ;;
  ret (mkCliente dni nombre (get_default d "telefono" (VStr ""))).

Definition Turno_to_dict (t : Turno) : campos :=
  [("id", id t); ("cliente_dni", cliente_dni t);
   ("datetime_str", datetime_str t); ("servicio", servicio t);
   ("estado", estado t); ("notas", notas t)].

Definition Turno_from_dict (d : campos) : M Turno :=
  id <- subscript d "id" ;;
  cliente_dni <- subscript d "cliente_dni" ;;
  datetime_str <- subscript d "datetime_str" ;;
  servicio <- subscript d "servicio" ;;
  ret (mkTurno id cliente_dni datetime_str servicio
         (get_default d "estado" activo)
         (get_default d "notas" (VStr ""))).

(** ** Persistence *)

(** [open] for writing is taken to succeed, here and in [dump_to_csv]:
    no computation below raises for a file that cannot be written. *)
Definition dump_to_dict : M unit :=
  g <- self ;;
  let data : snapshot :=
    [("clientes",
      Dict.of_items
        (map (fun '(dni, cli) => (dni, Cliente_to_dict cli))
           (Dict.items (clientes g))));
     ("turnos",
      Dict.of_items
        (map (fun '(tid, t) => (tid, Turno_to_dict t))
           (Dict.items (turnos g))))] in
  assign (set_dict_file (Some data)).

Definition load_from_dict : M unit :=
  g <- self ;;
  match dict_file g with
  | None => raise FileNotFoundError
  | Some data =>
      cs <- comprehension
              (fun '(dni, cd) => c <- Cliente_from_dict cd ;; ret (dni, c))
              (Dict.items (get_default data "clientes" Dict.empty)) ;;
      assign (set_clientes (Dict.of_items cs)) ;;
      ts <- comprehension
              (fun '(tid, td) => t <- Turno_from_dict td ;; ret (tid, t))
              (Dict.items (get_default data "turnos" Dict.empty)) ;;
      assign (set_turnos (Dict.of_items ts))
  end.

(** The text [csv.writer] puts in a cell: [None] is written empty. *)
Definition cell_text (v : value) : string :=
  match v with
  | VStr s => s
  | VNone => ""
  end.

(** [DictWriter.writerow(rowdict)]: one cell per field name, in order. *)
Definition writerow (rowdict : Dict.t value) : list string :=
  map (fun key => cell_text (get_default rowdict key (VStr ""))) fieldnames.

(** [self.clientes.get(t.cliente_dni)]: no key of the dict is [None]. *)
Definition clientes_get (g : GestorTurnos) (k : value) : option Cliente :=
  match k with
  | VStr s => Dict.get s (clientes g)
  | VNone => None
  end.

(** The dict [dump_to_csv] hands to [writer.writerow] for the
    appointment [t]. *)
Definition fila (g : GestorTurnos) (t : Turno) : Dict.t value :=
  let cli := clientes_get g (cliente_dni t) in
  [("turno_id", id t);
   ("cliente_dni", cliente_dni t);
   ("cliente_nombre",
    match cli with Some c => nombre c | None => VStr "" end);
   ("cliente_telefono",
    match cli with Some c => telefono c | None => VStr "" end);
   ("datetime_str", datetime_str t);
   ("servicio", servicio t);
   ("estado", estado t);
   ("notas", notas t)].

(** The [except] branch, which prints and raises again what [open] or
    the writer raised, is not taken: see [dump_to_dict]. *)
Definition dump_to_csv : M unit :=
  g <- self ;;
  let rows := map (fun t => writerow (fila g t)) (Dict.values (turnos g)) in
  assign (set_csv_file (Some rows)) ;;
  dump_to_dict.

(** One row as [csv.DictReader] yields it under the header [fieldnames].
    The file is read in universal-newlines mode ([open] without
    [newline=""]); a field name beyond the last cell gets [None].  Cells
    beyond the last field name go under the key [None], which the program
    never reads. *)
Definition DictReader_row (row : list string) : Dict.t value :=
  fold_left (fun d key => Dict.set key VNone d)
    (skipn (List.length row) fieldnames)
    (Dict.of_items
       (combine fieldnames
          (map (fun c => VStr (Str.universal_newlines c)) row))).

(** [csv.field_size_limit()]: the reader of the [csv] module raises
    [_csv.Error] on a field of more characters. *)
Definition field_size_limit : Z := 131072.

(** The cell, as it is read, is within the limit. *)
Definition cabe (c : string) : bool :=
  (Z.of_nat (String.length (Str.universal_newlines c))
   <=? field_size_limit)%Z.

(** A row that has a cell; rows without cells are blank lines. *)
Definition con_celdas (row : list string) : bool :=
  match row with [] => false | _ => true end.

(** [next(reader)] on a row that has a cell. *)
Definition DictReader_next (row : list string) : M (Dict.t value) :=
  if forallb cabe row then ret (DictReader_row row) else raise CsvError.

(** The iterator [csv.DictReader(f)]: rows without cells (blank lines) are
    skipped, and a row is parsed when the loop asks for it. *)
Definition DictReader (rows : csv_rows) : list (M (Dict.t value)) :=
  map DictReader_next (filter con_celdas rows).

(** What the iterator yields where every cell is within the limit. *)
Definition leidas (rows : csv_rows) : list (Dict.t value) :=
  map DictReader_row (filter con_celdas rows).

(** Every cell of the rows is within the limit of the reader. *)
Definition en_limite (rows : csv_rows) : Prop :=
  Forall (fun row => forallb cabe row = true) rows.

(** The body of the loop of [load_from_csv].  A [Turno] whose id were
    [None] would go under the key [None]; the last branch stands for that
    and is never taken ([turno_id] is the first column and a yielded row
    has a cell: lemma [DictReader_row_turno_id]). *)
Definition load_row (row : Dict.t value) : M unit :=
  cell <- subscript row "cliente_dni" ;;
  dni <- strip_value cell ;;
  g <- self ;;
  (if Str.truthy dni && negb (Dict.mem dni (clientes g)) then
     nombre <- strip_value (get_default row "cliente_nombre" (VStr "")) ;;
     telefono <- strip_value (get_default row "cliente_telefono" (VStr "")) ;;
     assign (fun g =>
       set_clientes
         (Dict.set dni (mkCliente (VStr dni) (VStr nombre) (VStr telefono))
            (clientes g)) g)
   else ret tt) ;;
  turno_id <- subscript row "turno_id" ;;
  datetime_str <- subscript row "datetime_str" ;;
  let t := mkTurno turno_id (VStr dni) datetime_str
             (get_default row "servicio" (VStr ""))
             (get_default row "estado" activo)
             (get_default row "notas" (VStr "")) in
  match id t with
  | VStr k => assign (fun g => set_turnos (Dict.set k t (turnos g)) g)
  | VNone => raise TypeError
  end.

Definition load_from_csv : M unit :=
  g <- self ;;
  match csv_file g with
  | None => ret tt
  | Some rows =>
      assign (set_clientes Dict.empty) ;;
      assign (set_turnos Dict.empty) ;;
      for_each_next (DictReader rows) load_row
  end.

(** ** [list.sort(key=...)] *)

(** A stable sort is determined by its input: the result below is the
    list [list.sort] produces, with the keys compared by [<] only. *)
Fixpoint insert_by_key {A} (x : datetime * A) (l : list (datetime * A))
  : list (datetime * A) :=
  match l with
  | [] => [x]
  | y :: l' =>
      if datetime_ltb (fst x) (fst y) then x :: y :: l'
      else y :: insert_by_key x l'
  end.

Definition sort_by_key {A} (l : list (datetime * A)) : list (datetime * A) :=
  fold_left (fun sorted x => insert_by_key x sorted) l [].

(** The key of [x] is not after the key of [y]. *)
Definition key_le {A} (x y : datetime * A) : Prop :=
  datetime_le (fst x) (fst y).

(** ** Operations *)

(** [t.estado == "activo" and t.datetime_str == slot] *)
Definition activo_en (slot : string) (t : Turno) : bool :=
  value_eqb (estado t) activo && value_eqb (datetime_str t) (VStr slot).

(** [filtro and v != filtro], for an optional [str] argument: [None] and
    the empty string are false. *)
Definition excluye (filtro : option string) (v : value) : bool :=
  match filtro with
  | Some s => Str.truthy s && negb (value_eqb v (VStr s))
  | None => false
  end.

Section Operaciones.

Context `{DateTimeLib}.

(** [Turno.datetime_obj] *)
Definition datetime_obj (t : Turno) : M datetime :=
  match datetime_str t with
  | VNone => raise TypeError
  | VStr s =>
      match strptime s DATETIME_FORMAT with
      | Some dt => ret dt
      | None => raise ValueError
      end
  end.

Definition registrar_cliente (dni nombre telefono : string) : M Cliente :=
  let dni := Str.strip dni in
  g <- self ;;
  if Dict.mem dni (clientes g) then raise DuplicateClient
  else
    let cliente :=
      mkCliente (VStr dni) (VStr (Str.strip nombre))
        (VStr (Str.strip telefono)) in
    assign (fun g => set_clientes (Dict.set dni cliente (clientes g)) g) ;;
    dump_to_dict ;;
    ret cliente.

(** [uuid4] is the string [str(uuid.uuid4())] of this call. *)
Definition solicitar_turno
  (cliente_dni datetime_str servicio notas : string) (uuid4 : string)
  : M Turno :=
  g <- self ;;
  if negb (Dict.mem cliente_dni (clientes g)) then raise UnknownClient
  else
    match strptime datetime_str DATETIME_FORMAT with
    | None => raise InvalidTimestamp
    | Some dt =>
        if existsb (activo_en (strftime dt DATETIME_FORMAT))
             (Dict.values (turnos g))
        then raise SlotConflict
        else
          let turno_id := uuid4 in
          let t :=
            mkTurno (VStr turno_id) (VStr cliente_dni)
              (VStr (strftime dt DATETIME_FORMAT))
              (VStr (Str.strip servicio)) activo
              (VStr (Str.strip notas)) in
          assign (fun g => set_turnos (Dict.set turno_id t (turnos g)) g) ;;
          dump_to_dict ;;
          dump_to_csv ;;
          ret t
    end.

(** The loop of [listar_turnos] over the appointments still to visit;
    it returns [results]. *)
Fixpoint listar_loop
  (filtro_cliente_dni filtro_fecha estado_ : option string)
  (ts : list Turno) : M (list Turno) :=
  match ts with
  | [] => ret []
  | t :: ts' =>
      let continue_ :=
        listar_loop filtro_cliente_dni filtro_fecha estado_ ts' in
      let append :=
        results <- continue_ ;; ret (t :: results) in
      if excluye estado_ (estado t) then continue_
      else if excluye filtro_cliente_dni (cliente_dni t) then continue_
      else
        match filtro_fecha with
        | Some f =>
            if Str.truthy f then
              match strptime f DATE_FORMAT with
              | None => raise InvalidDate
              | Some d =>
                  dt <- datetime_obj t ;;
                  if negb (date_eqb (date dt) (date d)) then continue_
                  else append
              end
            else append
        | None => append
        end
  end.

Definition listar_turnos
  (filtro_cliente_dni filtro_fecha estado_ : option string)
  : M (list Turno) :=
  g <- self ;;
  results <- listar_loop filtro_cliente_dni filtro_fecha estado_
               (Dict.values (turnos g)) ;;
  keyed <- comprehension (fun x => k <- datetime_obj x ;; ret (k, x))
             results ;;
  ret (map snd (sort_by_key keyed)).

(** The first block of [modificar_turno]: the appointment [t] with its
    new [datetime_str], when one is given. *)
Definition mover (g : GestorTurnos) (t : Turno)
  (nuevo_datetime_str : option string) : M Turno :=
  match nuevo_datetime_str with
  | Some s =>
      if Str.truthy s then
        match strptime s DATETIME_FORMAT with
        | None => raise InvalidTimestamp
        | Some dt =>
            if existsb
                 (fun other =>
                    negb (value_eqb (id other) (id t))
                    && activo_en (strftime dt DATETIME_FORMAT) other)
                 (Dict.values (turnos g))
            then raise SlotConflict
            else
              ret (mkTurno (id t) (cliente_dni t)
                     (VStr (strftime dt DATETIME_FORMAT))
                     (servicio t) (estado t) (notas t))
        end
      else ret t
  | None => ret t
  end.

Definition modificar_turno
  (turno_id : string)
  (nuevo_datetime_str nuevo_servicio nuevas_notas : option string)
  : M Turno :=
  g <- self ;;
  match Dict.get turno_id (turnos g) with
  | None => raise NotFound
  | Some t =>
      t1 <- mover g t nuevo_datetime_str ;;
      let t2 :=
        match nuevo_servicio with
        | Some s =>
            mkTurno (id t1) (cliente_dni t1) (datetime_str t1)
              (VStr (Str.strip s)) (estado t1) (notas t1)
        | None => t1
        end in
      let t3 :=
        match nuevas_notas with
        | Some s =>
            mkTurno (id t2) (cliente_dni t2) (datetime_str t2)
              (servicio t2) (estado t2) (VStr (Str.strip s))
        | None => t2
        end in
      assign (fun g => set_turnos (Dict.set turno_id t3 (turnos g)) g) ;;
      dump_to_dict ;;
      dump_to_csv ;;
      ret t3
  end.

(** [t.estado = e] on the appointment stored under [turno_id]: the
    common body of [cancelar_turno] and [marcar_realizado]. *)
Definition set_estado (turno_id : string) (e : value) : M Turno :=
  g <- self ;;
  match Dict.get turno_id (turnos g) with
  | None => raise NotFound
  | Some t =>
      let t' :=
        mkTurno (id t) (cliente_dni t) (datetime_str t) (servicio t) e
          (notas t) in
      assign (fun g => set_turnos (Dict.set turno_id t' (turnos g)) g) ;;
      dump_to_dict ;;
      dump_to_csv ;;
      ret t'
  end.

Definition cancelar_turno (turno_id : string) : M Turno :=
  set_estado turno_id cancelado.

Definition marcar_realizado (turno_id : string) : M Turno :=
  set_estado turno_id realizado.

(** ** Construction *)

(** The lines [__init__] prints. *)
Inductive aviso : Type :=
| WarnDict (e : exn)   (* [WARN] Error cargando dict (...): e *)
| WarnCSV (e : exn).   (* [WARN] Error cargando CSV (...): e *)

(** [GestorTurnos()] on a disk with the two files [csv] and [dict]:
    the new manager and what was printed. *)
Definition init (csv : option csv_rows) (dict : option snapshot)
  : GestorTurnos * list aviso :=
  let g0 := mkGestor Dict.empty Dict.empty csv dict in
  match dict, csv with
  | Some _, _ =>
      match (load_from_dict ;; dump_to_csv) g0 with
      | Returned _ g => (g, [])
      | Raised e g => (g, [WarnDict e])
      end
  | None, Some _ =>
      match (load_from_csv ;; dump_to_dict) g0 with
      | Returned _ g => (g, [])
      | Raised e g => (g, [WarnCSV e])
      end
  | None, None => (g0, [])
  end.

End Operaciones.

(** ** The date library on canonical texts *)

(** [datetime.strptime] and [strftime] restricted to fixed-width fields of
    ASCII digits: four for [%Y], two for [%m], [%d], [%H] and [%M], every
    other character of the format standing for itself.  Python accepts
    more spellings (fields of one digit, runs of white space), and how
    it writes a year below 1000 depends on the platform; on the texts
    accepted here with a year of four digits both agree.  The theorems
    of this file hold for every [DateTimeLib]; this instance is for runs
    on concrete inputs, which are all of the year 2024. *)
Module Canonical.

Definition digit (c : ascii) : option nat :=
  let n := nat_of_ascii c in
  if ((48 <=? n) && (n <=? 57))%nat then Some (n - 48) else None.

(** [n] digits at the head of [data]: their number and what follows. *)
Fixpoint digits (n : nat) (acc : nat) (data : list ascii)
  : option (nat * list ascii) :=
  match n with
  | O => Some (acc, data)
  | S n' =>
      match data with
      | c :: data' =>
          match digit c with
          | Some d => digits n' (10 * acc + d) data'
          | None => None
          end
      | [] => None
      end
  end.

Definition is_leap (y : nat) : bool :=
  (((y mod 4 =? 0) && negb (y mod 100 =? 0)) || (y mod 400 =? 0))%nat.

Definition days_in_month (y m : nat) : nat :=
  match m with
  | 2 => if is_leap y then 29 else 28
  | 4 | 6 | 9 | 11 => 30
  | _ => 31
  end.

Definition valid (dt : datetime) : bool :=
  ((1 <=? year dt)
   && (1 <=? month dt) && (month dt <=? 12)
   && (1 <=? day dt) && (day dt <=? days_in_month (year dt) (month dt))
   && (hour dt <=? 23) && (minute dt <=? 59))%nat.

Fixpoint parse (fmt data : list ascii) (dt : datetime) : option datetime :=
  match fmt with
  | [] => match data with [] => Some dt | _ => None end
  | "%"%char :: d :: fmt' =>
      let field width (store : nat -> datetime) :=
        match digits width 0 data with
        | Some (n, data') => parse fmt' data' (store n)
        | None => None
        end in
      if Ascii.eqb d "Y" then
        field 4 (fun n => mkDatetime n (month dt) (day dt) (hour dt) (minute dt))
      else if Ascii.eqb d "m" then
        field 2 (fun n => mkDatetime (year dt) n (day dt) (hour dt) (minute dt))
      else if Ascii.eqb d "d" then
        field 2 (fun n => mkDatetime (year dt) (month dt) n (hour dt) (minute dt))
      else if Ascii.eqb d "H" then
        field 2 (fun n => mkDatetime (year dt) (month dt) (day dt) n (minute dt))
      else if Ascii.eqb d "M" then
        field 2 (fun n => mkDatetime (year dt) (month dt) (day dt) (hour dt) n)
      else None
  | c :: fmt' =>
      match data with
      | c' :: data' => if Ascii.eqb c c' then parse fmt' data' dt else None
      | [] => None
      end
  end.

Definition strptime (data format : string) : option datetime :=
  match parse (list_ascii_of_string format) (list_ascii_of_string data)
          (mkDatetime 1900 1 1 0 0) with
  | Some dt => if valid dt then Some dt else None
  | None => None
  end.

Definition digit_char (n : nat) : ascii := ascii_of_nat (48 + n mod 10).

Definition pad2 (n : nat) : list ascii :=
  [digit_char (n / 10); digit_char n].

Definition pad4 (n : nat) : list ascii :=
  [digit_char (n / 1000); digit_char (n / 100); digit_char (n / 10);
   digit_char n].

Fixpoint format_chars (dt : datetime) (fmt : list ascii) : list ascii :=
  match fmt with
  | [] => []
  | "%"%char :: d :: fmt' =>
      (if Ascii.eqb d "Y" then pad4 (year dt)
       else if Ascii.eqb d "m" then pad2 (month dt)
       else if Ascii.eqb d "d" then pad2 (day dt)
       else if Ascii.eqb d "H" then pad2 (hour dt)
       else if Ascii.eqb d "M" then pad2 (minute dt)
       else ["%"%char; d]) ++ format_chars dt fmt'
  | c :: fmt' => c :: format_chars dt fmt'
  end.

Definition strftime (dt : datetime) (format : string) : string :=
  string_of_list_ascii (format_chars dt (list_ascii_of_string format)).

Definition lib : DateTimeLib := Build_DateTimeLib strptime strftime.

End Canonical.

(** ** Sequences of operations *)

(** The manager built where neither file exists. *)
Definition vacio : GestorTurnos := mkGestor Dict.empty Dict.empty None None.

(** A call of one of the five mutating operations, with its arguments;
    [Book] carries the identifier [uuid.uuid4] draws for it. *)
Inductive op : Type :=
| Register (dni nombre telefono : string)
| Book (cliente_dni datetime_str servicio notas : string) (uuid4 : string)
| Reschedule (turno_id : string)
    (nuevo_datetime_str nuevo_servicio nuevas_notas : option string)
| Cancel (turno_id : string)
| Complete (turno_id : string).

Section Secuencias.

Context `{DateTimeLib}.

(** The manager after one call; the caller catches what the call raises. *)
Definition run_op (o : op) (g : GestorTurnos) : GestorTurnos :=
  match o with
  | Register d n t => state_of (registrar_cliente d n t g)
  | Book d ts s n u => state_of (solicitar_turno d ts s n u g)
  | Reschedule i ts s n => state_of (modificar_turno i ts s n g)
  | Cancel i => state_of (cancelar_turno i g)
  | Complete i => state_of (marcar_realizado i g)
  end.

Definition run_ops (ops : list op) (g : GestorTurnos) : GestorTurnos :=
  fold_left (fun g o => run_op o g) ops g.

(** The parsed [scheduledAt] of an appointment, where it has one. *)
Definition scheduledAt (t : Turno) : option datetime :=
  match datetime_str t with
  | VStr s => strptime s DATETIME_FORMAT
  | VNone => None
  end.

(** [t1] is scheduled no later than [t2]. *)
Definition no_despues (t1 t2 : Turno) : Prop :=
  match scheduledAt t1, scheduledAt t2 with
  | Some a, Some b => datetime_le a b
  | _, _ => False
  end.

(** [t1] is scheduled strictly before [t2]. *)
Definition antes (t1 t2 : Turno) : Prop :=
  match scheduledAt t1, scheduledAt t2 with
  | Some a, Some b => datetime_lt a b
  | _, _ => False
  end.

End Secuencias.

(** ** Predicates on the state *)

(** No two appointments stored under different ids are both active at the
    same [datetime_str]. *)
Definition slots_exclusivos (g : GestorTurnos) : Prop :=
  forall k1 k2 t1 t2,
    k1 <> k2 ->
    Dict.get k1 (turnos g) = Some t1 ->
    Dict.get k2 (turnos g) = Some t2 ->
    estado t1 = activo -> estado t2 = activo ->
    datetime_str t1 <> datetime_str t2.

(** Every appointment is stored under its own id. *)
Definition turnos_por_id (g : GestorTurnos) : Prop :=
  forall k t, In (k, t) (turnos g) -> id t = VStr k.

(** Every client is stored under its own dni. *)
Definition clientes_por_dni (g : GestorTurnos) : Prop :=
  forall k c, In (k, c) (clientes g) -> dni c = VStr k.

(** [s] is [core] between two runs of white space, at least one of them
    not empty. *)
Definition padded (core s : string) : Prop :=
  exists l r : list ascii,
    Forall (fun c => Str.isspace c = true) l
    /\ Forall (fun c => Str.isspace c = true) r
    /\ (l ++ r <> [])
    /\ list_ascii_of_string s = l ++ list_ascii_of_string core ++ r.

(** No carriage return in a field. *)
Definition value_sin_cr (v : value) : bool :=
  match v with
  | VStr s => Str.sin_cr s
  | VNone => true
  end.

Definition Cliente_sin_cr (c : Cliente) : bool :=
  value_sin_cr (dni c) && value_sin_cr (nombre c)
  && value_sin_cr (telefono c).

Definition Turno_sin_cr (t : Turno) : bool :=
  value_sin_cr (id t) && value_sin_cr (cliente_dni t)
  && value_sin_cr (datetime_str t) && value_sin_cr (servicio t)
  && value_sin_cr (estado t) && value_sin_cr (notas t).

(** No carriage return in any field the manager holds. *)
Definition sin_cr (g : GestorTurnos) : Prop :=
  Forall (fun c => Cliente_sin_cr c = true) (Dict.values (clientes g))
  /\ Forall (fun t => Turno_sin_cr t = true) (Dict.values (turnos g)).
(** A field holding a [str], and one holding a [str] that [strip] leaves
    alone. *)
Definition is_str (v : value) : Prop := exists s, v = VStr s.

Definition recortado (v : value) : Prop :=
  exists s, v = VStr s /\ Str.strip s = s.

(** The client [c] stored under [k] is as [registrar_cliente] builds it. *)
Definition Cliente_ok (k : string) (c : Cliente) : Prop :=
  dni c = VStr k /\ Str.strip k = k
  /\ recortado (nombre c) /\ recortado (telefono c).

(** The appointment [t] stored under [k] is as [solicitar_turno] builds it
    and as the other operations keep it. *)
Definition Turno_ok (g : GestorTurnos) (k : string) (t : Turno) : Prop :=
  id t = VStr k
  /\ (exists d, cliente_dni t = VStr d /\ Dict.mem d (clientes g) = true)
  /\ is_str (datetime_str t)
  /\ recortado (servicio t)
  /\ (estado t = activo \/ estado t = cancelado \/ estado t = realizado)
  /\ recortado (notas t).

(** What holds of every state the operations reach from [vacio]. *)
Definition consistente (g : GestorTurnos) : Prop :=
  Dict.wf (clientes g)
  /\ Dict.wf (turnos g)
  /\ (forall k c, In (k, c) (clientes g) -> Cliente_ok k c)
  /\ (forall k t, In (k, t) (turnos g) -> Turno_ok g k t)
  /\ slots_exclusivos g.

(** What [modificar_turno] stores in place of [t] when it returns. *)
Definition retocado (t1 : Turno) (nuevo_servicio nuevas_notas : option string)
  : Turno :=
  mkTurno (id t1) (cliente_dni t1) (datetime_str t1)
    (match nuevo_servicio with
     | Some s => VStr (Str.strip s)
     | None => servicio t1
     end)
    (estado t1)
    (match nuevas_notas with
     | Some s => VStr (Str.strip s)
     | None => notas t1
     end).

(** The statuses other than active that the operations store. *)
Definition terminal (e : value) : Prop := e = cancelado \/ e = realizado.

(** The call [o] does not draw the id [k] for a new appointment:
    [uuid.uuid4] gives every booking an id of its own. *)
Definition no_reusa (k : string) (o : op) : Prop :=
  match o with
  | Book _ _ _ _ u => u <> k
  | _ => True
  end.

(** Some appointment refers to the client id [d]. *)
Definition referenciado (g : GestorTurnos) (d : string) : bool :=
  existsb (fun t => value_eqb (cliente_dni t) (VStr d))
    (Dict.values (turnos g)).

(** The client stored under [d] once the appointments [ts] have been
    loaded back from their rows: the client of [g], where [d] is not
    empty and one of [ts] refers to it. *)
Definition cargado (g : GestorTurnos) (ts : list Turno) (d : string)
  : option Cliente :=
  if Str.truthy d
     && existsb (fun t => value_eqb (cliente_dni t) (VStr d)) ts
  then Dict.get d (clientes g)
  else None.

(** The appointment [t] stored under [k] and its client are written to a
    row and read back as they are: strings all, trimmed where
    [load_from_csv] trims, without carriage return. *)
Definition fila_fiel (g : GestorTurnos) (k : string) (t : Turno) : Prop :=
  exists d ds sv es no n tel,
    t = mkTurno (VStr k) (VStr d) (VStr ds) (VStr sv) (VStr es) (VStr no)
    /\ Dict.get d (clientes g) = Some (mkCliente (VStr d) (VStr n) (VStr tel))
    /\ Str.strip d = d /\ Str.strip n = n /\ Str.strip tel = tel
    /\ Forall (fun s => Str.sin_cr s = true) [k; d; ds; sv; es; no; n; tel].

(** The rows [dump_to_csv] writes. *)
Definition filas_escritas (g : GestorTurnos) : csv_rows :=
  map (fun t => writerow (fila g t)) (Dict.values (turnos g)).

(** The row export written by [dump_to_csv] and loaded by [load_from_csv]
    into a manager that holds nothing. *)
Definition recargar_csv (g : GestorTurnos) : outcome unit :=
  let g1 := state_of (dump_to_csv g) in
  load_from_csv (mkGestor Dict.empty Dict.empty (csv_file g1) (dict_file g1)).


(** The appointment passes the status filter and the client filter of
    [listar_turnos]. *)
Definition pasa (filtro_cliente_dni estado_ : option string) (t : Turno)
  : bool :=
  negb (excluye estado_ (estado t))
  && negb (excluye filtro_cliente_dni (cliente_dni t)).

(** ** What a call leaves behind *)

(** The errors that the five operations raise themselves.  An error of
    a write that fails is not one of them: it comes after the change. *)
Definition propio (e : exn) : Prop :=
  e = DuplicateClient \/ e = UnknownClient \/ e = InvalidTimestamp
  \/ e = SlotConflict \/ e = NotFound.

(** The call with outcome [o], made on [g], returned, or left the manager
    as it was if what it raised is one of those errors. *)
Definition sin_cambio {A} (o : outcome A) (g : GestorTurnos) : Prop :=
  match o with
  | Raised e g' => propio e -> g' = g
  | Returned _ _ => True
  end.

(** The snapshot on disk is the one [dump_to_dict] would write now. *)
Definition snapshot_al_dia (g : GestorTurnos) : Prop :=
  dict_file g = dict_file (state_of (dump_to_dict g)).

(** The row export on disk is the one [dump_to_csv] would write now. *)
Definition export_al_dia (g : GestorTurnos) : Prop :=
  csv_file g = csv_file (state_of (dump_to_csv g)).

(** ** Selections of a listing *)

(** [a == b] on naive datetimes. *)
Definition datetime_eqb (a b : datetime) : bool :=
  ((year a =? year b) && (month a =? month b) && (day a =? day b)
   && (hour a =? hour b) && (minute a =? minute b))%nat.

(** The key of [x] is [d]. *)
Definition con_clave {A} (d : datetime) (x : datetime * A) : bool :=
  datetime_eqb (fst x) d.

Section Seleccion.

Context `{DateTimeLib}.

(** The appointment parses to a time on the day of [d]. *)
Definition en_fecha (d : datetime) (t : Turno) : bool :=
  match scheduledAt t with
  | Some dt => date_eqb (date dt) (date d)
  | None => false
  end.

(** The appointment parses to the time [d]. *)
Definition a_las (d : datetime) (t : Turno) : bool :=
  match scheduledAt t with
  | Some dt => datetime_eqb dt d
  | None => false
  end.

End Seleccion.

(** ** Entries of a snapshot *)

(** The first of the keys [claves] that the JSON object [d] lacks. *)
Definition falta (claves : list string) (d : campos) : option string :=
  find (fun clave => negb (Dict.mem clave d)) claves.

(** The keys [Cliente.from_dict] and [Turno.from_dict] subscript, in the
    order in which they do. *)
Definition claves_cliente : list string := ["dni"; "nombre"].
Definition claves_turno : list string :=
  ["id"; "cliente_dni"; "datetime_str"; "servicio"].

(** What [Cliente.from_dict] and [Turno.from_dict] build from an object
    that has those keys: the optional members get their defaults. *)
Definition Cliente_de (d : campos) : Cliente :=
  mkCliente (get_default d "dni" VNone) (get_default d "nombre" VNone)
    (get_default d "telefono" (VStr "")).

Definition Turno_de (d : campos) : Turno :=
  mkTurno (get_default d "id" VNone) (get_default d "cliente_dni" VNone)
    (get_default d "datetime_str" VNone) (get_default d "servicio" VNone)
    (get_default d "estado" activo) (get_default d "notas" (VStr "")).

(** ** Rows of an export edited by hand *)

(** The cell of column [i] as the reader hands it over. *)
Definition celda (i : nat) (row : list string) : string :=
  Str.universal_newlines (nth i row "").

(** [row["cliente_dni"].strip()] *)
Definition dni_fila (row : list string) : string := Str.strip (celda 1 row).

(** The [Turno] and the [Cliente] that the body of the loop of
    [load_from_csv] builds from a row with a cell in every column. *)
Definition Turno_fila (row : list string) : Turno :=
  mkTurno (VStr (celda 0 row)) (VStr (dni_fila row)) (VStr (celda 4 row))
    (VStr (celda 5 row)) (VStr (celda 6 row)) (VStr (celda 7 row)).

Definition Cliente_fila (row : list string) : Cliente :=
  mkCliente (VStr (dni_fila row)) (VStr (Str.strip (celda 2 row)))
    (VStr (Str.strip (celda 3 row))).

(** ** Searching clients by name *)

Module Busqueda.

(** [str.lower] on one character (code points below 256): the letters A
    to Z, and the capital letters of Latin-1, which are 192 to 222 but
    for the multiplication sign 215. *)
Definition lower_char (c : ascii) : ascii :=
  let n := nat_of_ascii c in
  if (((65 <=? n) && (n <=? 90))
      || ((192 <=? n) && (n <=? 222) && negb (n =? 215)))%nat
  then ascii_of_nat (n + 32)
  else c.

(** [s.lower()] *)
Fixpoint lower (s : string) : string :=
  match s with
  | EmptyString => EmptyString
  | String c s' => String (lower_char c) (lower s')
  end.

(** [needle in hay] on two [str]: [needle] starts at some position of
    [hay]. *)
Fixpoint contiene (needle hay : string) : bool :=
  String.prefix needle hay
  || match hay with
     | EmptyString => false
     | String _ hay' => contiene needle hay'
     end.

End Busqueda.

(** [str.lower] applied to a field: [None] has no such method. *)
Definition lower_value (v : value) : M string :=
  match v with
  | VStr s => ret (Busqueda.lower s)
  | VNone => raise AttributeError
  end.

(** [[x for x in l if cond(x)]] where the condition may raise. *)
Fixpoint comprehension_if {A} (cond : A -> M bool) (l : list A)
  : M (list A) :=
  match l with
  | [] => ret []
  | x :: l' =>
      b <- cond x ;;
      rest <- comprehension_if cond l' ;;
      ret (if b then x :: rest else rest)
  end.

Definition buscar_cliente_por_nombre (nombre_parcial : string)
  : M (list Cliente) :=
  let nombre_parcial := Str.strip (Busqueda.lower nombre_parcial) in
  g <- self ;;
  comprehension_if
    (fun c =>
       n <- lower_value (nombre c) ;;
       ret (Busqueda.contiene nombre_parcial n))
    (Dict.values (clientes g)).

(** The name of the client [c] holds the text [q], once [q] is in lower
    case and trimmed, the case of the name left aside. *)
Definition coincide (q : string) (c : Cliente) : bool :=
  match nombre c with
  | VStr n =>
      Busqueda.contiene (Str.strip (Busqueda.lower q)) (Busqueda.lower n)
  | VNone => false
  end.

(** ** The console *)

(** What [print] shows, one constructor for each [print] statement of
    [main_menu], with the values it interpolates; the rows of
    [imprimir_turnos] are kept as text.  The prompts of [input] are not
    recorded. *)
Inductive falla : Type :=
| Excepcion (e : exn)
| EOFError.             (* [input] at the end of the input *)

Inductive salida : Type :=
| Aviso (a : aviso)               (* printed by [GestorTurnos()] *)
| Menu                            (* the title and the eleven options *)
| ClienteRegistrado (c : Cliente) (* Cliente registrado: ... *)
| Error (f : falla)               (* [ERROR] ... *)
| ClienteNoRegistrado             (* Cliente no registrado. *)
| ClientesEncontrados             (* Clientes encontrados: *)
| ClienteHallado (c : Cliente)    (* - dni | nombre | telefono *)
| NoSeEncontraron                 (* No se encontraron clientes. *)
| TurnoCreado (i : value)         (* Turno creado con ID: ... *)
| Linea (s : string)              (* a line of [imprimir_turnos] *)
| DejarEnBlanco                   (* Dejar en blanco para no cambiar ... *)
| TurnoModificado (t : Turno)     (* Turno modificado: ... *)
| TurnoCancelado                  (* Turno cancelado. *)
| TurnoRealizado                  (* Turno marcado como realizado. *)
| DatosGuardados                  (* Datos guardados correctamente. *)
| NoExisteCSV                     (* No existe el archivo CSV actual: ... *)
| DatosCargados                   (* Datos cargados desde CSV. *)
| OpcionInvalida                  (* Opcion invalida. *)
| Exportado (path : string)       (* Exportado exitosamente a ... *)
| Saliendo                        (* Saliendo. Guardando datos... *)
| Listo.                          (* Listo. Adios. *)

(** The lines still to be typed, what has been printed, how many ids
    [uuid.uuid4] has drawn, and the manager. *)
Record consola : Type := mkConsola {
  entrada : list string;
  pantalla : list salida;
  sorteos : nat;
  gestor : GestorTurnos
}.

Inductive resultado (A : Type) : Type :=
| Hecho (a : A) (c : consola)
| Escapa (f : falla) (c : consola).

Arguments Hecho {A} a c.
Arguments Escapa {A} f c.

Definition IO (A : Type) : Type := consola -> resultado A.

Definition io_ret {A} (a : A) : IO A := fun c => Hecho a c.

Definition io_raise {A} (e : exn) : IO A := fun c => Escapa (Excepcion e) c.

Definition io_bind {A B} (m : IO A) (k : A -> IO B) : IO B :=
  fun c =>
    match m c with
    | Hecho a c' => k a c'
    | Escapa f c' => Escapa f c'
    end.

Declare Scope io_scope.
Delimit Scope io_scope with io.
Notation "x <- m ;; k" := (io_bind m (fun x => k))
  (at level 61, m at next level, right associativity) : io_scope.
Notation "m ;; k" := (io_bind m (fun _ => k))
  (at level 61, right associativity) : io_scope.

(** State of the console after a step, however it ended. *)
Definition consola_de {A} (r : resultado A) : consola :=
  match r with Hecho _ c => c | Escapa _ c => c end.

(** [input(...)]: the next line typed, without its end of line. *)
Definition input : IO string :=
  fun c =>
    match entrada c with
    | [] => Escapa EOFError c
    | l :: resto => Hecho l (mkConsola resto (pantalla c) (sorteos c) (gestor c))
    end.

Definition print (m : salida) : IO unit :=
  fun c =>
    Hecho tt (mkConsola (entrada c) (pantalla c ++ [m]) (sorteos c) (gestor c)).

(** A call of a method of the manager. *)
Definition llamar {A} (m : M A) : IO A :=
  fun c =>
    match m (gestor c) with
    | Returned a g =>
        Hecho a (mkConsola (entrada c) (pantalla c) (sorteos c) g)
    | Raised e g =>
        Escapa (Excepcion e) (mkConsola (entrada c) (pantalla c) (sorteos c) g)
    end.

(** [gestor], the local variable of [main_menu]. *)
Definition el_gestor : IO GestorTurnos := fun c => Hecho (gestor c) c.

(** [try: cuerpo / except Exception as e: print(f"[ERROR] {e}")] *)
Definition intentar (cuerpo : IO unit) : IO unit :=
  fun c =>
    match cuerpo c with
    | Hecho a c' => Hecho a c'
    | Escapa f c' => print (Error f) c'
    end.

Fixpoint io_for_each {A} (l : list A) (body : A -> IO unit) : IO unit :=
  match l with
  | [] => io_ret tt
  | x :: l' => io_bind (body x) (fun _ => io_for_each l' body)
  end.

(** [input(...).strip()] *)
Definition leer : IO string :=
  io_bind input (fun s => io_ret (Str.strip s)).

(** [pausa()] waits for a line. *)
Definition pausa : IO unit := io_bind input (fun _ => io_ret tt).

(** [clear_console()] runs the command that clears the terminal; what
    had been printed is kept here. *)
Definition clear_console : IO unit := io_ret tt.

(** [s if s else None] *)
Definition no_vacio (s : string) : option string :=
  if Str.truthy s then Some s else None.

Fixpoint espacios (n : nat) : string :=
  match n with
  | O => EmptyString
  | S n' => String " " (espacios n')
  end.

Fixpoint rayas (n : nat) : string :=
  match n with
  | O => EmptyString
  | S n' => String "-" (rayas n')
  end.

(** [format(s, "n")] on a [str]: spaces are added on the right up to
    [n] characters, and nothing is cut. *)
Definition ancho (n : nat) (s : string) : string :=
  String.append s (espacios (n - String.length s)).

(** [f"{v:n}"]: [None] takes no format. *)
Definition formato (n : nat) (v : value) : IO string :=
  match v with
  | VStr s => io_ret (ancho n s)
  | VNone => io_raise TypeError
  end.

(** [f"{v[:m]:n}"]: [None] cannot be sliced. *)
Definition formato_corte (m n : nat) (v : value) : IO string :=
  match v with
  | VStr s => io_ret (ancho n (String.substring 0 m s))
  | VNone => io_raise TypeError
  end.

Definition dos : string := "  ".

(** The heading of [imprimir_turnos]. *)
Definition cabecera : string :=
  String.append (ancho 36 "ID") (String.append dos
  (String.append (ancho 10 "DNI") (String.append dos
  (String.append (ancho 20 "Nombre") (String.append dos
  (String.append (ancho 16 "Fecha y Hora") (String.append dos
  (String.append (ancho 15 "Servicio") (String.append dos
  (ancho 8 "Estado")))))))))).

Definition imprimir_turnos (lista : list Turno) : IO unit :=
  match lista with
  | [] => print (Linea "-> No hay turnos que mostrar.")
  | _ =>
      (print (Linea cabecera) ;;
       print (Linea (rayas 110)) ;;
       io_for_each lista (fun t =>
         g <- el_gestor ;;
         let cli := clientes_get g (cliente_dni t) in
         let nombre :=
           match cli with
           | Some c => nombre c
           | None => VStr "(sin cliente)"
           end in
         c1 <- formato 36 (id t) ;;
         c2 <- formato 10 (cliente_dni t) ;;
         c3 <- formato_corte 20 20 nombre ;;
         c4 <- formato 16 (datetime_str t) ;;
         c5 <- formato_corte 15 15 (servicio t) ;;
         c6 <- formato 8 (estado t) ;;
         print (Linea
           (String.append c1 (String.append dos
           (String.append c2 (String.append dos
           (String.append c3 (String.append dos
           (String.append c4 (String.append dos
           (String.append c5 (String.append dos c6)))))))))))))%io
  end.

(** The loop of [main_menu] goes on or is left by [break]. *)
Inductive paso : Type :=
| Sigue
| Termina.

Section Consola.

Context `{DateTimeLib}.

(** [uuid4 n] is the string of the id that the call number [n] of
    [uuid.uuid4] draws.  [exportar_csv_personalizado] writes under a path
    of the caller's choice and changes [csv_path] meanwhile, neither of
    which the state of the manager holds: the method is a parameter
    here. *)
Variable uuid4 : nat -> string.
Variable exportar_csv_personalizado : string -> M unit.

(** A call of [solicitar_turno], which takes the id that [uuid.uuid4]
    draws next.  The method draws once its three checks have passed, and
    from there on it returns: the draw is counted where the call
    returns. *)
Definition llamar_sorteando {A} (m : string -> M A) : IO A :=
  fun c =>
    match m (uuid4 (sorteos c)) (gestor c) with
    | Returned a g =>
        Hecho a (mkConsola (entrada c) (pantalla c) (S (sorteos c)) g)
    | Raised e g =>
        Escapa (Excepcion e) (mkConsola (entrada c) (pantalla c) (sorteos c) g)
    end.

(** The chain of [if] and [elif] on the option typed. *)
Definition opcion (opt : string) : IO paso :=
  (if String.eqb opt "1" then
     dni <- leer ;;
     nombre <- leer ;;
     tel <- leer ;;
     intentar
       (cliente <- llamar (registrar_cliente dni nombre tel) ;;
        print (ClienteRegistrado cliente)) ;;
     pausa ;;
     io_ret Sigue
   else if String.eqb opt "2" then
     dni <- leer ;;
     g <- el_gestor ;;
     if negb (Dict.mem dni (clientes g)) then
       print ClienteNoRegistrado ;;
       buscar <- leer ;;
       (if String.eqb (Busqueda.lower buscar) "s" then
          nombre_par <- leer ;;
          res <- llamar (buscar_cliente_por_nombre nombre_par) ;;
          match res with
          | [] => print NoSeEncontraron
          | _ =>
              print ClientesEncontrados ;;
              io_for_each res (fun c => print (ClienteHallado c))
          end
        else io_ret tt) ;;
       pausa ;;
       io_ret Sigue
     else
       fecha_hora <- leer ;;
       servicio <- leer ;;
       notas <- leer ;;
       intentar
         (t <- llamar_sorteando
                 (solicitar_turno dni fecha_hora servicio notas) ;;
          print (TurnoCreado (id t))) ;;
       pausa ;;
       io_ret Sigue
   else if String.eqb opt "3" then
     intentar
       (lista <- llamar (listar_turnos None None None) ;;
        imprimir_turnos lista) ;;
     pausa ;;
     io_ret Sigue
   else if String.eqb opt "4" then
     turno_id <- leer ;;
     print DejarEnBlanco ;;
     nuevo_dt <- leer ;;
     nuevo_serv <- leer ;;
     nuevas_notas <- leer ;;
     intentar
       (t <- llamar
               (modificar_turno turno_id (no_vacio nuevo_dt)
                  (no_vacio nuevo_serv) (no_vacio nuevas_notas)) ;;
        print (TurnoModificado t)) ;;
     pausa ;;
     io_ret Sigue
   else if String.eqb opt "5" then
     turno_id <- leer ;;
     intentar
       (llamar (cancelar_turno turno_id) ;;
        print TurnoCancelado) ;;
     pausa ;;
     io_ret Sigue
   else if String.eqb opt "6" then
     turno_id <- leer ;;
     intentar
       (llamar (marcar_realizado turno_id) ;;
        print TurnoRealizado) ;;
     pausa ;;
     io_ret Sigue
   else if String.eqb opt "7" then
     intentar
       (llamar dump_to_dict ;;
        llamar dump_to_csv ;;
        print DatosGuardados) ;;
     pausa ;;
     io_ret Sigue
   else if String.eqb opt "8" then
     g <- el_gestor ;;
     match csv_file g with
     | None => print NoExisteCSV
     | Some _ =>
         intentar
           (llamar load_from_csv ;;
            llamar dump_to_dict ;;
            print DatosCargados)
     end ;;
     pausa ;;
     io_ret Sigue
   else if String.eqb opt "9" then
     sub <- leer ;;
     (if String.eqb sub "1" then
        dni <- leer ;;
        intentar
          (lista <- llamar (listar_turnos (Some dni) None None) ;;
           imprimir_turnos lista)
      else if String.eqb sub "2" then
        fecha <- leer ;;
        intentar
          (lista <- llamar (listar_turnos None (Some fecha) None) ;;
           imprimir_turnos lista)
      else if String.eqb sub "3" then
        est <- leer ;;
        intentar
          (lista <- llamar (listar_turnos None None (Some est)) ;;
           imprimir_turnos lista)
      else print OpcionInvalida) ;;
     pausa ;;
     io_ret Sigue
   else if String.eqb opt "10" then
     path <- leer ;;
     intentar
       (llamar (exportar_csv_personalizado path) ;;
        print (Exportado path)) ;;
     pausa ;;
     io_ret Sigue
   else if String.eqb opt "0" then
     print Saliendo ;;
     llamar dump_to_dict ;;
     llamar dump_to_csv ;;
     print Listo ;;
     io_ret Termina
   else
     print OpcionInvalida ;;
     pausa ;;
     io_ret Sigue)%io.

(** One turn of the [while True] of [main_menu], no interrupt arriving
    from the keyboard. *)
Definition iteracion : IO paso :=
  (clear_console ;;
   print Menu ;;
   opt <- leer ;;
   opcion opt)%io.

(** [while True: ...], for at most [n] turns: [None] where the loop is
    still running after them. *)
Fixpoint bucle (n : nat) (c : consola) : option (resultado unit) :=
  match n with
  | O => None
  | S n' =>
      match iteracion c with
      | Hecho Sigue c' => bucle n' c'
      | Hecho Termina c' => Some (Hecho tt c')
      | Escapa f c' => Some (Escapa f c')
      end
  end.

(** [main_menu()] on a disk with the two files [csv] and [dict], the
    lines [lineas] being typed. *)
Definition main_menu (n : nat) (csv : option csv_rows)
  (dict : option snapshot) (lineas : list string)
  : option (resultado unit) :=
  let '(g, avisos) := init csv dict in
  bucle n (mkConsola lineas (map Aviso avisos) 0 g).

End Consola.

(** ** What a step of the console does *)

(** The step reads lines and puts none back. *)
Definition corto {A} (m : IO A) : Prop :=
  forall c,
    (List.length (entrada (consola_de (m c))) <= List.length (entrada c))%nat.

(** The step leaves the manager as it was and draws no id. *)
Definition quieto {A} (m : IO A) : Prop :=
  forall c,
    gestor (consola_de (m c)) = gestor c
    /\ sorteos (consola_de (m c)) = sorteos c.

(** No exception leaves the step but the end of the input. *)
Definition contenido {A} (m : IO A) : Prop :=
  forall c f c', m c = Escapa f c' -> f = EOFError.

(** The step does not leave the loop. *)
Definition sigue (m : IO paso) : Prop :=
  forall c a c', m c = Hecho a c' -> a = Sigue.

(** Every stored client has a [str] for a name. *)
Definition nombres_str (g : GestorTurnos) : Prop :=
  Forall (fun c => is_str (nombre c)) (Dict.values (clientes g)).

(** Where every name is a [str], the step leaves the manager as it was
    and no exception leaves it but the end of the input. *)
Definition a_salvo {A} (m : IO A) : Prop :=
  forall c,
    nombres_str (gestor c) ->
    match m c with
    | Hecho _ c' => gestor c' = gestor c
    | Escapa f _ => f = EOFError
    end.

(** ** The table of [imprimir_turnos] *)

(** The row of an appointment whose fields are the strings [i], [d],
    [f], [s] and [e], for a client named [n]. *)
Definition renglon (i d n f s e : string) : string :=
  String.append (ancho 36 i) (String.append dos
  (String.append (ancho 10 d) (String.append dos
  (String.append (ancho 20 (String.substring 0 20 n)) (String.append dos
  (String.append (ancho 16 f) (String.append dos
  (String.append (ancho 15 (String.substring 0 15 s)) (String.append dos
  (ancho 8 e)))))))))).

(** The row of the appointment [t] in the manager [g]. *)
Definition renglon_de (g : GestorTurnos) (t : Turno) : string :=
  renglon (cell_text (id t)) (cell_text (cliente_dni t))
    (match clientes_get g (cliente_dni t) with
     | Some c => cell_text (nombre c)
     | None => "(sin cliente)"
     end)
    (cell_text (datetime_str t)) (cell_text (servicio t))
    (cell_text (estado t)).

(** ** A concrete run *)

(** The scenario of the specification, on the canonical date library:
    one client, then appointments at 10:00 and at 11:00 of the same day. *)
Module Ejemplo.

#[local] Existing Instance Canonical.lib.

Definition ana : op := Register "111" "Ana Gomez" "555-0101".
Definition corte : op := Book "111" "2024-03-01 10:00" "Cut" "" "id-1".
Definition color : op := Book "111" "2024-03-01 11:00" "Color" "" "id-2".

Definition g1 : GestorTurnos := Eval vm_compute in run_ops [ana; corte] vacio.
Definition g2 : GestorTurnos := Eval vm_compute in run_ops [color] g1.

(** The first appointment cancelled. *)
Definition g1_cancelado : GestorTurnos :=
  Eval vm_compute in run_ops [Cancel "id-1"] g1.

(** Its slot booked again: two appointments at 10:00, one of them active. *)
Definition g1_otra_vez : GestorTurnos :=
  Eval vm_compute in
    run_ops [Book "111" "2024-03-01 10:00" "Shave" "" "id-3"] g1_cancelado.

(** A client registered under the empty id, and an appointment for it. *)
Definition g_sin_dni : GestorTurnos :=
  Eval vm_compute in
    run_ops [Register "  " "Ana Gomez" "555-0101";
             Book "" "2024-03-01 10:00" "Cut" "" "id-1"] vacio.

(** A snapshot written by hand whose only appointment has no id. *)
Definition g_snapshot_incompleto : GestorTurnos :=
  mkGestor Dict.empty Dict.empty None
    (Some
       [("clientes",
         [("111",
           [("dni", VStr "111"); ("nombre", VStr "Ana Gomez")])]);
        ("turnos",
         [("id-1",
           [("cliente_dni", VStr "111");
            ("datetime_str", VStr "2024-03-01 10:00");
            ("servicio", VStr "Cut")])])]).

(** An export edited by hand: the id [id-1] is on two rows, and the
    client [111] has two names. *)
Definition archivo_repetido : csv_rows :=
  [["id-1"; "111"; "Ana Gomez"; "555-0101"; "2024-03-01 10:00"; "Cut";
    "activo"; ""];
   ["id-2"; " 111 "; "Ana G."; ""; "2024-03-01 11:00"; "Color";
    "activo"; ""];
   ["id-1"; "111"; "Ana"; ""; "2024-03-02 09:00"; "Cut";
    "cancelado"; "moved"]].

(** A snapshot written by hand with [null] for a name, once loaded. *)
Definition g_sin_nombre : GestorTurnos :=
  mkGestor
    [("111", mkCliente (VStr "111") (VStr "Ana Gomez") (VStr ""));
     ("222", mkCliente (VStr "222") VNone (VStr ""))]
    Dict.empty None None.

(** An appointment whose service has a carriage return inside. *)
Definition g_con_cr : GestorTurnos :=
  Eval vm_compute in
    run_ops [ana;
             Book "111" "2024-03-01 10:00" ("wash" ++ String Str.CR "dry") ""
               "id-1"] vacio.

(** A row export of three rows, the second cut after its first cell. *)
Definition fila_1 : list string :=
  ["id-1"; "111"; "Ana Gomez"; "555-0101"; "2024-03-01 10:00"; "Cut";
   "activo"; ""].
Definition fila_rota : list string := ["id-x"].
Definition fila_2 : list string :=
  ["id-2"; "111"; "Ana Gomez"; "555-0101"; "2024-03-01 11:00"; "Color";
   "activo"; ""].
Definition archivo : csv_rows := [fila_1; fila_rota; fila_2].





(** A manager constructed on a row export edited by hand, whose only row
    has a timestamp in no format. *)
Definition g_editado : GestorTurnos :=
  Eval vm_compute in
    fst (init
           (Some [["id-1"; "111"; "Ana Gomez"; ""; "tomorrow at ten"; "Cut";
                   "activo"; ""]])
           None).

End Ejemplo.

Section CanonicalExamples.

#[local] Existing Instance Canonical.lib.

Example strptime_canonical :
  strptime "2024-03-01 10:00" DATETIME_FORMAT
  = Some (mkDatetime 2024 3 1 10 0).
Proof. reflexivity. Qed.

Example strftime_canonical :
  strftime (mkDatetime 2024 3 1 10 0) DATETIME_FORMAT = "2024-03-01 10:00".
Proof. reflexivity. Qed.

Example strptime_wrong_format : strptime "31/12/2024" DATE_FORMAT = None.
Proof. reflexivity. Qed.

Example strptime_no_such_day : strptime "2023-02-29" DATE_FORMAT = None.
Proof. reflexivity. Qed.

Example strip_both_ends : Str.strip "  a b  " = "a b".
Proof. reflexivity. Qed.

End CanonicalExamples.

(** * Properties *)

(** ** Dictionaries *)

Module DictFacts.

Import Dict.

Section WithValues.

Context {V : Type}.
Implicit Types (d : Dict.t V) (k : string) (v : V).

Lemma get_set k' k v d :
  get k' (set k v d) = if String.eqb k' k then Some v else get k' d.
Proof.
  induction d as [|[k0 v0] d IH]; simpl.
  - destruct (String.eqb_spec k' k); reflexivity.
  - destruct (String.eqb_spec k k0) as [->|Hk]; simpl.
    + destruct (String.eqb_spec k' k0); reflexivity.
    + destruct (String.eqb_spec k' k0) as [->|Hk'].
      * destruct (String.eqb_spec k0 k); congruence.
      * exact IH.
Qed.

Lemma get_set_same k v d : get k (set k v d) = Some v.
Proof. rewrite get_set, String.eqb_refl. reflexivity. Qed.

Lemma get_set_other k' k v d : k' <> k -> get k' (set k v d) = get k' d.
Proof.
  intros Hk. rewrite get_set.
  destruct (String.eqb_spec k' k); congruence.
Qed.

Lemma get_In k v d : get k d = Some v -> In (k, v) d.
Proof.
  induction d as [|[k0 v0] d IH]; simpl; [discriminate|].
  destruct (String.eqb_spec k k0) as [->|Hk]; intros E.
  - left. congruence.
  - right. auto.
Qed.

Lemma get_In_values k v d : get k d = Some v -> In v (values d).
Proof.
  intros E. apply get_In in E.
  change v with (snd (k, v)). apply in_map. exact E.
Qed.

Lemma get_None k d : get k d = None <-> ~ In k (keys d).
Proof.
  induction d as [|[k0 v0] d IH]; simpl.
  - tauto.
  - destruct (String.eqb_spec k k0) as [->|Hk].
    + split; [discriminate|]. intros Hn. exfalso. apply Hn. now left.
    + rewrite IH. split; intros Hn; [intros [E|E]|]; try tauto; congruence.
Qed.

Lemma mem_keys k d : mem k d = true <-> In k (keys d).
Proof.
  unfold mem. destruct (get k d) eqn:E.
  - split; [intros _|reflexivity].
    apply get_In in E. change k with (fst (k, v)). apply in_map. exact E.
  - split; [discriminate|]. intros Hin. apply get_None in E. contradiction.
Qed.

Lemma mem_false k d : mem k d = false <-> ~ In k (keys d).
Proof.
  rewrite <- mem_keys. destruct (mem k d); split; intros; congruence.
Qed.

Lemma In_get k v d : wf d -> In (k, v) d -> get k d = Some v.
Proof.
  unfold wf. induction d as [|[k0 v0] d IH]; simpl; [tauto|].
  intros Hnd [E|Hin]; inversion Hnd as [|? ? Hnot Hnd']; subst.
  - inversion E; subst. now rewrite String.eqb_refl.
  - destruct (String.eqb_spec k k0) as [->|Hk]; [|auto].
    exfalso. apply Hnot. change k0 with (fst (k0, v)). now apply in_map.
Qed.

Lemma set_fresh k v d : mem k d = false -> set k v d = d ++ [(k, v)].
Proof.
  unfold mem. induction d as [|[k0 v0] d IH]; simpl; [reflexivity|].
  destruct (String.eqb_spec k k0); [discriminate|].
  intros E. now rewrite IH.
Qed.

Lemma keys_set k v d :
  keys (set k v d) = if mem k d then keys d else keys d ++ [k].
Proof.
  unfold mem. induction d as [|[k0 v0] d IH]; simpl; [reflexivity|].
  destruct (String.eqb_spec k k0) as [->|Hk]; simpl; [reflexivity|].
  rewrite IH. now destruct (get k d).
Qed.

Lemma wf_set k v d : wf d -> wf (set k v d).
Proof.
  unfold wf. intros Hnd. rewrite keys_set.
  destruct (mem k d) eqn:E; [exact Hnd|].
  apply mem_false in E.
  apply NoDup_rev in Hnd. rewrite <- (rev_involutive (keys d ++ [k])).
  apply NoDup_rev. rewrite rev_app_distr. simpl.
  constructor; [|exact Hnd]. now rewrite <- in_rev.
Qed.

Lemma In_set k' v' k v d :
  In (k', v') (set k v d) -> (k' = k /\ v' = v) \/ In (k', v') d.
Proof.
  induction d as [|[k0 v0] d IH]; simpl.
  - intros [E|[]]. left. inversion E; auto.
  - destruct (String.eqb_spec k k0) as [->|Hk]; simpl.
    + intros [E|Hin]; [left; inversion E; auto | right; right; exact Hin].
    + intros [E|Hin]; [right; left; exact E|].
      destruct (IH Hin); auto.
Qed.

Lemma In_values_set v' k v d :
  In v' (values (set k v d)) -> v' = v \/ In v' (values d).
Proof.
  unfold values. rewrite in_map_iff. intros [[k0 v0] [E Hin]].
  simpl in E. subst v0. apply In_set in Hin. destruct Hin as [[_ E]|Hin].
  - now left.
  - right. change v' with (snd (k0, v')). now apply in_map.
Qed.

(** Folding the pairs of a dict into an empty dict gives it back. *)
Lemma of_items_app (l : list (string * V)) d :
  NoDup (keys d ++ map fst l) ->
  fold_left (fun d kv => set (fst kv) (snd kv) d) l d = d ++ l.
Proof.
  revert d. induction l as [|[k v] l IH]; intros d Hnd; simpl.
  - now rewrite app_nil_r.
  - simpl in Hnd. rewrite set_fresh.
    + rewrite IH.
      * now rewrite <- app_assoc.
      * unfold keys in *. rewrite map_app. simpl. now rewrite <- app_assoc.
    + apply mem_false. apply NoDup_remove_2 in Hnd.
      intros Hin. apply Hnd. apply in_or_app. now left.
Qed.

Lemma of_items_wf d : wf d -> of_items (items d) = d.
Proof.
  intros Hwf. unfold of_items, items. rewrite of_items_app; [reflexivity|].
  exact Hwf.
Qed.

End WithValues.

Lemma keys_map {V W} (f : V -> W) (d : Dict.t V) :
  keys (map (fun '(k, v) => (k, f v)) d) = keys d.
Proof.
  unfold keys. rewrite map_map. apply map_ext. now intros [k v].
Qed.

End DictFacts.

(** ** Strings *)

Module StrFacts.

Import Str.

Lemma lstrip_head l c rest :
  lstrip_chars l = c :: rest -> isspace c = false.
Proof.
  induction l as [|a l IH]; simpl; [discriminate|].
  destruct (isspace a) eqn:E; [exact IH|].
  intros Heq. inversion Heq; subst. exact E.
Qed.

Lemma lstrip_suffix l :
  exists w, l = w ++ lstrip_chars l /\ Forall (fun c => isspace c = true) w.
Proof.
  induction l as [|a l [w [Hl Hw]]]; simpl.
  - exists []. split; [reflexivity|constructor].
  - destruct (isspace a) eqn:E.
    + exists (a :: w). split; [simpl; congruence|now constructor].
    + exists []. split; [reflexivity|constructor].
Qed.

Lemma lstrip_fixed l :
  (forall c rest, l = c :: rest -> isspace c = false) -> lstrip_chars l = l.
Proof.
  destruct l as [|a l]; simpl; [reflexivity|].
  intros Hh. now rewrite (Hh a l eq_refl).
Qed.

Lemma rstrip_prefix l :
  exists w, l = rstrip_chars l ++ w /\ Forall (fun c => isspace c = true) w.
Proof.
  unfold rstrip_chars.
  destruct (lstrip_suffix (rev l)) as [w [Hl Hw]].
  exists (rev w). split.
  - rewrite <- rev_app_distr, <- Hl. now rewrite rev_involutive.
  - apply Forall_rev. exact Hw.
Qed.

Lemma rstrip_last l pre c :
  rstrip_chars l = pre ++ [c] -> isspace c = false.
Proof.
  unfold rstrip_chars. intros E.
  apply (f_equal (@rev ascii)) in E.
  rewrite rev_involutive, rev_app_distr in E. simpl in E.
  eapply lstrip_head. exact E.
Qed.

Lemma rstrip_fixed l :
  (forall pre c, l = pre ++ [c] -> isspace c = false) -> rstrip_chars l = l.
Proof.
  intros Hl. unfold rstrip_chars. rewrite lstrip_fixed.
  - apply rev_involutive.
  - intros c rest E. apply (Hl (rev rest) c).
    rewrite <- (rev_involutive l), E. reflexivity.
Qed.

(** The characters of [s.strip()] start and end outside white space. *)
Lemma strip_chars_head l c rest :
  rstrip_chars (lstrip_chars l) = c :: rest -> isspace c = false.
Proof.
  intros E. destruct (rstrip_prefix (lstrip_chars l)) as [w [Hw _]].
  rewrite E in Hw. simpl in Hw. eapply lstrip_head. exact Hw.
Qed.

Lemma strip_chars_idempotent l :
  rstrip_chars (lstrip_chars (rstrip_chars (lstrip_chars l)))
  = rstrip_chars (lstrip_chars l).
Proof.
  rewrite (@lstrip_fixed (rstrip_chars (lstrip_chars l))).
  - apply rstrip_fixed. intros pre c E. eapply rstrip_last. exact E.
  - intros c rest E. eapply strip_chars_head. exact E.
Qed.

Lemma strip_idempotent s : strip (strip s) = strip s.
Proof.
  unfold strip. rewrite list_ascii_of_string_of_list_ascii.
  now rewrite strip_chars_idempotent.
Qed.

Lemma strip_chars s :
  list_ascii_of_string (strip s)
  = rstrip_chars (lstrip_chars (list_ascii_of_string s)).
Proof. unfold strip. apply list_ascii_of_string_of_list_ascii. Qed.

(** A string that [strip] leaves alone has no white space at either end. *)
Lemma strip_fixed_head s c rest :
  strip s = s -> list_ascii_of_string s = c :: rest -> isspace c = false.
Proof.
  intros Hs E. apply (@strip_chars_head (list_ascii_of_string s) c rest).
  rewrite <- strip_chars, Hs. exact E.
Qed.

Lemma strip_fixed_last s pre c :
  strip s = s -> list_ascii_of_string s = pre ++ [c] -> isspace c = false.
Proof.
  intros Hs E.
  apply (@rstrip_last (lstrip_chars (list_ascii_of_string s)) pre c).
  rewrite <- strip_chars, Hs. exact E.
Qed.

Lemma universal_newlines_sin_cr s :
  sin_cr s = true -> universal_newlines s = s.
Proof.
  induction s as [|c s IH]; simpl; [reflexivity|].
  destruct (Ascii.eqb c CR); simpl; [discriminate|].
  intros Hs. now rewrite IH.
Qed.

End StrFacts.

(** ** The operations, case by case *)

Section Casos.

Context `{DateTimeLib}.

Lemma dump_to_dict_returns g :
  exists data, dump_to_dict g = Returned tt (set_dict_file (Some data) g).
Proof. eexists. unfold dump_to_dict, bind, self, assign. reflexivity. Qed.

Lemma dump_to_csv_returns g :
  exists f1 f2,
    dump_to_csv g = Returned tt (set_dict_file f2 (set_csv_file f1 g)).
Proof.
  do 2 eexists. unfold dump_to_csv, dump_to_dict, bind, self, assign.
  reflexivity.
Qed.

Lemma registrar_cliente_cases g d n t :
  let c := mkCliente (VStr (Str.strip d)) (VStr (Str.strip n))
             (VStr (Str.strip t)) in
  (Dict.mem (Str.strip d) (clientes g) = true
   /\ registrar_cliente d n t g = Raised DuplicateClient g)
  \/ (Dict.mem (Str.strip d) (clientes g) = false
      /\ exists g',
          registrar_cliente d n t g = Returned c g'
          /\ clientes g' = Dict.set (Str.strip d) c (clientes g)
          /\ turnos g' = turnos g
          /\ csv_file g' = csv_file g).
Proof.
  intros c. unfold registrar_cliente, bind, self.
  destruct (Dict.mem (Str.strip d) (clientes g)) eqn:E.
  - left. split; reflexivity.
  - right. split; [reflexivity|]. eexists. split; [reflexivity|].
    repeat split.
Qed.

Lemma solicitar_turno_cases g d ts s n u :
  (exists e, solicitar_turno d ts s n u g = Raised e g)
  \/ (exists dt g',
        let slot := strftime dt DATETIME_FORMAT in
        let t := mkTurno (VStr u) (VStr d) (VStr slot)
                   (VStr (Str.strip s)) activo (VStr (Str.strip n)) in
        Dict.mem d (clientes g) = true
        /\ strptime ts DATETIME_FORMAT = Some dt
        /\ existsb (activo_en slot) (Dict.values (turnos g)) = false
        /\ solicitar_turno d ts s n u g = Returned t g'
        /\ clientes g' = clientes g
        /\ turnos g' = Dict.set u t (turnos g)).
Proof.
  unfold solicitar_turno, bind, self.
  destruct (Dict.mem d (clientes g)) eqn:Em; simpl;
    [|left; eexists; reflexivity].
  destruct (strptime ts DATETIME_FORMAT) as [dt|] eqn:Ep;
    [|left; eexists; reflexivity].
  destruct (existsb _ _) eqn:Ex; [left; eexists; reflexivity|].
  right. exists dt. eexists. simpl. repeat split; try reflexivity.
  exact Ex.
Qed.

Lemma mover_cases g t nuevo :
  (exists e, mover g t nuevo g = Raised e g)
  \/ mover g t nuevo g = Returned t g
  \/ (exists s dt,
        let slot := strftime dt DATETIME_FORMAT in
        nuevo = Some s /\ Str.truthy s = true
        /\ strptime s DATETIME_FORMAT = Some dt
        /\ existsb
             (fun other =>
                negb (value_eqb (id other) (id t)) && activo_en slot other)
             (Dict.values (turnos g)) = false
        /\ mover g t nuevo g
           = Returned
               (mkTurno (id t) (cliente_dni t) (VStr slot) (servicio t)
                  (estado t) (notas t)) g).
Proof.
  unfold mover. destruct nuevo as [s|]; [|right; left; reflexivity].
  destruct (Str.truthy s) eqn:Et; [|right; left; reflexivity].
  destruct (strptime s DATETIME_FORMAT) as [dt|] eqn:Ep;
    [|left; eexists; reflexivity].
  destruct (existsb _ _) eqn:Ex; [left; eexists; reflexivity|].
  right. right. exists s, dt. simpl. repeat split; auto.
Qed.

Lemma modificar_turno_cases g k nd ns nn :
  (exists e, modificar_turno k nd ns nn g = Raised e g)
  \/ (exists t t1 g',
        Dict.get k (turnos g) = Some t
        /\ mover g t nd g = Returned t1 g
        /\ modificar_turno k nd ns nn g = Returned (retocado t1 ns nn) g'
        /\ clientes g' = clientes g
        /\ turnos g' = Dict.set k (retocado t1 ns nn) (turnos g)).
Proof.
  destruct (Dict.get k (turnos g)) as [t|] eqn:Eg.
  - assert (Hm : forall t1, mover g t nd g = Returned t1 g ->
              exists g',
                modificar_turno k nd ns nn g = Returned (retocado t1 ns nn) g'
                /\ clientes g' = clientes g
                /\ turnos g' = Dict.set k (retocado t1 ns nn) (turnos g)).
    { intros t1 E. unfold modificar_turno, bind at 1, self. rewrite Eg.
      unfold bind at 1. rewrite E.
      destruct t1, ns, nn; eexists;
        (split; [unfold bind, assign, dump_to_dict, dump_to_csv; reflexivity|]);
        split; reflexivity. }
    destruct (mover_cases g t nd) as [[e E]|[E|(s & dt & _ & _ & _ & _ & E)]].
    + left. exists e. unfold modificar_turno, bind at 1, self. rewrite Eg.
      unfold bind at 1. now rewrite E.
    + right. destruct (Hm _ E) as [g' Hg']. exists t, t, g'. auto.
    + right. destruct (Hm _ E) as [g' Hg']. eexists t, _, g'. eauto.
  - left. exists NotFound. unfold modificar_turno, bind, self.
    now rewrite Eg.
Qed.

Lemma set_estado_cases g k e :
  (Dict.get k (turnos g) = None /\ set_estado k e g = Raised NotFound g)
  \/ (exists t g',
        let t' := mkTurno (id t) (cliente_dni t) (datetime_str t)
                    (servicio t) e (notas t) in
        Dict.get k (turnos g) = Some t
        /\ set_estado k e g = Returned t' g'
        /\ clientes g' = clientes g
        /\ turnos g' = Dict.set k t' (turnos g)).
Proof.
  unfold set_estado, bind, self.
  destruct (Dict.get k (turnos g)) as [t|] eqn:Eg.
  - right. exists t. eexists. simpl. repeat split; reflexivity.
  - left. split; reflexivity.
Qed.

End Casos.

(** ** The invariant of the reachable states *)

Lemma value_eqb_eq a b : value_eqb a b = true <-> a = b.
Proof.
  destruct a as [|s], b as [|s']; simpl; split; try congruence.
  - intros E. apply String.eqb_eq in E. congruence.
  - intros E. inversion E. apply String.eqb_refl.
Qed.

Lemma value_eqb_refl a : value_eqb a a = true.
Proof. now apply value_eqb_eq. Qed.

Lemma activo_en_true slot t :
  activo_en slot t = true <-> estado t = activo /\ datetime_str t = VStr slot.
Proof.
  unfold activo_en. rewrite andb_true_iff, !value_eqb_eq. reflexivity.
Qed.

Lemma recortado_strip s : recortado (VStr (Str.strip s)).
Proof. exists (Str.strip s). split; [reflexivity|apply StrFacts.strip_idempotent]. Qed.

Lemma mem_set_mono {V} k k' (v : V) d :
  Dict.mem k d = true -> Dict.mem k (Dict.set k' v d) = true.
Proof.
  unfold Dict.mem. rewrite DictFacts.get_set.
  now destruct (String.eqb k k').
Qed.

Lemma Turno_ok_clientes g g' k t :
  (forall d, Dict.mem d (clientes g) = true -> Dict.mem d (clientes g') = true) ->
  Turno_ok g k t -> Turno_ok g' k t.
Proof.
  intros Hm (Hid & (d & Hd & Hmem) & Hrest).
  split; [exact Hid|]. split; [|exact Hrest].
  exists d. split; [exact Hd|]. now apply Hm.
Qed.

Lemma slots_exclusivos_set g g' k t' :
  turnos g' = Dict.set k t' (turnos g) ->
  slots_exclusivos g ->
  (estado t' = activo ->
   forall k2 t2, k2 <> k -> Dict.get k2 (turnos g) = Some t2 ->
     estado t2 = activo -> datetime_str t2 <> datetime_str t') ->
  slots_exclusivos g'.
Proof.
  intros Ht Hs Hnew k1 k2 t1 t2 Hk. rewrite Ht, !DictFacts.get_set.
  destruct (String.eqb_spec k1 k) as [->|Hk1];
    destruct (String.eqb_spec k2 k) as [->|Hk2]; try congruence.
  - intros E1 E2 A1 A2. inversion E1; subst t1.
    intros Heq. apply (Hnew A1 k2 t2 Hk2 E2 A2). congruence.
  - intros E1 E2 A1 A2. inversion E2; subst t2.
    apply (Hnew A2 k1 t1 Hk1 E1 A1).
  - apply Hs. exact Hk.
Qed.

Lemma consistente_set_turno g g' k t' :
  clientes g' = clientes g ->
  turnos g' = Dict.set k t' (turnos g) ->
  consistente g ->
  Turno_ok g k t' ->
  (estado t' = activo ->
   forall k2 t2, k2 <> k -> Dict.get k2 (turnos g) = Some t2 ->
     estado t2 = activo -> datetime_str t2 <> datetime_str t') ->
  consistente g'.
Proof.
  intros Hc Ht (Wc & Wt & Oc & Ot & Sl) Hok Hnew.
  unfold consistente. rewrite Hc, Ht.
  split; [exact Wc|]. split; [now apply DictFacts.wf_set|].
  split; [exact Oc|]. split.
  - intros k0 t0 Hin.
    apply Turno_ok_clientes with (g := g); [now rewrite Hc|].
    apply DictFacts.In_set in Hin. destruct Hin as [[-> ->]|Hin]; auto.
  - eapply slots_exclusivos_set; eauto.
Qed.

Section Invariante.

Context `{DateTimeLib}.

Lemma consistente_vacio : consistente vacio.
Proof.
  unfold consistente, vacio, Dict.wf, slots_exclusivos; simpl.
  repeat split; try constructor; try tauto; discriminate.
Qed.

Lemma consistente_registrar g d n t :
  consistente g -> consistente (state_of (registrar_cliente d n t g)).
Proof.
  intros Hg.
  destruct (registrar_cliente_cases g d n t)
    as [[_ E]|[_ (g' & E & Hc & Ht & _)]]; rewrite E; simpl; [exact Hg|].
  destruct Hg as (Wc & Wt & Oc & Ot & Sl).
  unfold consistente. rewrite Hc, Ht.
  split; [now apply DictFacts.wf_set|]. split; [exact Wt|]. split; [|split].
  - intros k c Hin. apply DictFacts.In_set in Hin.
    destruct Hin as [[-> ->]|Hin]; [|now apply Oc].
    repeat split; simpl; auto using recortado_strip,
      StrFacts.strip_idempotent.
  - intros k t0 Hin. apply Turno_ok_clientes with (g := g); [|now apply Ot].
    intros d0 Hd0. rewrite Hc. now apply mem_set_mono.
  - intros k1 k2 t1 t2. rewrite Ht. apply Sl.
Qed.

Lemma consistente_solicitar g d ts s n u :
  consistente g -> consistente (state_of (solicitar_turno d ts s n u g)).
Proof.
  intros Hg.
  destruct (solicitar_turno_cases g d ts s n u)
    as [[e E]|(dt & g' & Hm & Hp & Hx & E & Hc & Ht)];
    rewrite E; simpl; [exact Hg|].
  eapply consistente_set_turno; eauto.
  - repeat split; simpl; eauto using recortado_strip.
    eexists. reflexivity.
  - simpl. intros _ k2 t2 _ Hget A2 Heq.
    assert (Hin : In t2 (Dict.values (turnos g)))
      by (eapply DictFacts.get_In_values; eauto).
    assert (Ha : activo_en (strftime dt DATETIME_FORMAT) t2 = true)
      by (apply activo_en_true; auto).
    assert (Hex : existsb (activo_en (strftime dt DATETIME_FORMAT))
                    (Dict.values (turnos g)) = true)
      by (apply existsb_exists; eauto).
    congruence.
Qed.

Lemma consistente_modificar g k nd ns nn :
  consistente g -> consistente (state_of (modificar_turno k nd ns nn g)).
Proof.
  intros Hg.
  destruct (modificar_turno_cases g k nd ns nn)
    as [[e E]|(t & t1 & g' & Hget & Hmv & E & Hc & Ht)];
    rewrite E; simpl; [exact Hg|].
  pose proof Hg as (Wc & Wt & Oc & Ot & Sl).
  assert (Hok : Turno_ok g k t) by (apply Ot; now apply DictFacts.get_In).
  destruct Hok as (Hid & Hcli & Hds & Hsv & Hes & Hno).
  destruct (mover_cases g t nd)
    as [[e' E']|[E'|(s & dt & _ & _ & _ & Hx & E')]];
    rewrite E' in Hmv; inversion Hmv; subst t1; clear Hmv.
  - eapply consistente_set_turno; eauto.
    + repeat split; simpl; auto.
      * destruct ns; auto using recortado_strip.
      * destruct nn; auto using recortado_strip.
    + simpl. intros A k2 t2 Hk2 Hget2 A2. apply (Sl k2 k t2 t); auto.
  - eapply consistente_set_turno; eauto.
    + repeat split; simpl; auto.
      * eexists. reflexivity.
      * destruct ns; auto using recortado_strip.
      * destruct nn; auto using recortado_strip.
    + simpl. intros A k2 t2 Hk2 Hget2 A2 Heq.
      assert (Hid2 : id t2 = VStr k2).
      { apply (Ot k2 t2). now apply DictFacts.get_In. }
      assert (Hin : In t2 (Dict.values (turnos g)))
        by (eapply DictFacts.get_In_values; eauto).
      assert (Hex : existsb
                (fun other =>
                   negb (value_eqb (id other) (id t))
                   && activo_en (strftime dt DATETIME_FORMAT) other)
                (Dict.values (turnos g)) = true);
        [apply existsb_exists; exists t2; split; [exact Hin|]
        |congruence].
      apply andb_true_iff. split.
      * apply negb_true_iff. destruct (value_eqb (id t2) (id t)) eqn:Ev; auto.
        apply value_eqb_eq in Ev. rewrite Hid, Hid2 in Ev. congruence.
      * apply activo_en_true. auto.
Qed.

Lemma consistente_set_estado g k e :
  e = cancelado \/ e = realizado ->
  consistente g -> consistente (state_of (set_estado k e g)).
Proof.
  intros He Hg.
  destruct (set_estado_cases g k e)
    as [[_ E]|(t & g' & Hget & E & Hc & Ht)]; rewrite E; simpl; [exact Hg|].
  pose proof Hg as (Wc & Wt & Oc & Ot & Sl).
  assert (Hok : Turno_ok g k t) by (apply Ot; now apply DictFacts.get_In).
  destruct Hok as (Hid & Hcli & Hds & Hsv & Hes & Hno).
  eapply consistente_set_turno; eauto.
  - repeat split; simpl; auto; destruct He; auto.
  - simpl. intros A. destruct He; subst e; discriminate.
Qed.

Lemma consistente_run_op o g : consistente g -> consistente (run_op o g).
Proof.
  destruct o; simpl.
  - apply consistente_registrar.
  - apply consistente_solicitar.
  - apply consistente_modificar.
  - apply consistente_set_estado. now left.
  - apply consistente_set_estado. now right.
Qed.

Lemma consistente_run_ops ops g :
  consistente g -> consistente (run_ops ops g).
Proof.
  revert g. induction ops as [|o ops IH]; intros g Hg; simpl; [exact Hg|].
  apply IH. now apply consistente_run_op.
Qed.

End Invariante.

(** ** One active appointment per slot *)

Section SlotExclusivo.

Context `{DateTimeLib}.

Lemma solicitar_turno_conflict g d ts s n u dt t :
  strptime ts DATETIME_FORMAT = Some dt ->
  In t (Dict.values (turnos g)) ->
  estado t = activo ->
  datetime_str t = VStr (strftime dt DATETIME_FORMAT) ->
  solicitar_turno d ts s n u g
  = Raised (if Dict.mem d (clientes g) then SlotConflict else UnknownClient) g.
Proof.
  intros Hp Hin Ha Hs. unfold solicitar_turno, bind, self.
  destruct (Dict.mem d (clientes g)); simpl; [|reflexivity].
  rewrite Hp.
  assert (Hex : existsb (activo_en (strftime dt DATETIME_FORMAT))
                  (Dict.values (turnos g)) = true).
  { apply existsb_exists. exists t. split; [exact Hin|].
    now apply activo_en_true. }
  now rewrite Hex.
Qed.

Lemma modificar_turno_conflict g k nd ns nn t dt other :
  Dict.get k (turnos g) = Some t ->
  Str.truthy nd = true ->
  strptime nd DATETIME_FORMAT = Some dt ->
  In other (Dict.values (turnos g)) ->
  id other <> id t ->
  estado other = activo ->
  datetime_str other = VStr (strftime dt DATETIME_FORMAT) ->
  modificar_turno k (Some nd) ns nn g = Raised SlotConflict g.
Proof.
  intros Hg Ht Hp Hin Hid Ha Hs.
  unfold modificar_turno, bind at 1, self. rewrite Hg.
  unfold bind at 1, mover. rewrite Ht, Hp.
  assert (Hex : existsb
                  (fun o =>
                     negb (value_eqb (id o) (id t))
                     && activo_en (strftime dt DATETIME_FORMAT) o)
                  (Dict.values (turnos g)) = true).
  { apply existsb_exists. exists other. split; [exact Hin|].
    apply andb_true_iff. split.
    - apply negb_true_iff. destruct (value_eqb (id other) (id t)) eqn:E; auto.
      apply value_eqb_eq in E. contradiction.
    - now apply activo_en_true. }
  now rewrite Hex.
Qed.

(** C1, amended.  After any sequence of the five operations from the
    empty manager, no two appointments stored under different ids are
    both active at the same [datetime_str].  A call of [solicitar_turno]
    whose timestamp parses to the slot of an active appointment raises
    and leaves the manager as it was: with [SlotConflict] for a
    registered client, and with [UnknownClient] for a client that is not
    registered, which is checked first.  A call of [modificar_turno] on a
    stored appointment whose new timestamp parses to the slot of another
    active appointment raises [SlotConflict] and leaves the manager as it
    was. *)
Theorem slot_exclusivo :
  (forall ops,
     Dict.wf (turnos (run_ops ops vacio))
     /\ slots_exclusivos (run_ops ops vacio))
  /\ (forall g d ts s n u dt t,
        strptime ts DATETIME_FORMAT = Some dt ->
        In t (Dict.values (turnos g)) ->
        estado t = activo ->
        datetime_str t = VStr (strftime dt DATETIME_FORMAT) ->
        solicitar_turno d ts s n u g
        = Raised (if Dict.mem d (clientes g) then SlotConflict
                  else UnknownClient) g)
  /\ (forall g k nd ns nn t dt other,
        Dict.get k (turnos g) = Some t ->
        Str.truthy nd = true ->
        strptime nd DATETIME_FORMAT = Some dt ->
        In other (Dict.values (turnos g)) ->
        id other <> id t ->
        estado other = activo ->
        datetime_str other = VStr (strftime dt DATETIME_FORMAT) ->
        modificar_turno k (Some nd) ns nn g = Raised SlotConflict g).
Proof.
  split; [|split].
  - intros ops.
    destruct (consistente_run_ops ops vacio consistente_vacio)
      as (_ & Wt & _ & _ & Sl).
    split; assumption.
  - apply solicitar_turno_conflict.
  - apply modificar_turno_conflict.
Qed.

End SlotExclusivo.

Section SlotExclusivoWitness.

#[local] Existing Instance Canonical.lib.

Lemma slot_exclusivo_witness :
  solicitar_turno "111" "2024-03-01 10:00" "Shave" "" "id-9" Ejemplo.g1
  = Raised SlotConflict Ejemplo.g1
  /\ modificar_turno "id-2" (Some "2024-03-01 10:00") None None Ejemplo.g2
     = Raised SlotConflict Ejemplo.g2.
Proof.
  split.
  - refine (proj1 (proj2 (@slot_exclusivo Canonical.lib))
              Ejemplo.g1 "111" "2024-03-01 10:00" "Shave" "" "id-9"
              (mkDatetime 2024 3 1 10 0)
              (mkTurno (VStr "id-1") (VStr "111") (VStr "2024-03-01 10:00")
                 (VStr "Cut") activo (VStr "")) _ _ _ _).
    + reflexivity.
    + simpl. left. reflexivity.
    + reflexivity.
    + reflexivity.
  - refine (proj2 (proj2 (@slot_exclusivo Canonical.lib))
              Ejemplo.g2 "id-2" "2024-03-01 10:00" None None
              (mkTurno (VStr "id-2") (VStr "111") (VStr "2024-03-01 11:00")
                 (VStr "Color") activo (VStr ""))
              (mkDatetime 2024 3 1 10 0)
              (mkTurno (VStr "id-1") (VStr "111") (VStr "2024-03-01 10:00")
                 (VStr "Cut") activo (VStr "")) _ _ _ _ _ _ _).
    + reflexivity.
    + reflexivity.
    + reflexivity.
    + simpl. left. reflexivity.
    + discriminate.
    + reflexivity.
    + reflexivity.
Defined.

(** C1 as stated fails.  The slot of 10:00 is taken by the active
    appointment [id-1]; a booking of that slot for the client 999, who is
    not registered, fails with [UnknownClient], not with [SlotConflict]:
    [solicitar_turno] checks the client before it looks at the slot. *)
Lemma slot_exclusivo_counterexample :
  Ejemplo.g1 = run_ops [Ejemplo.ana; Ejemplo.corte] vacio
  /\ Dict.get "id-1" (turnos Ejemplo.g1)
     = Some (mkTurno (VStr "id-1") (VStr "111") (VStr "2024-03-01 10:00")
               (VStr "Cut") activo (VStr ""))
  /\ option_map (fun dt => strftime dt DATETIME_FORMAT)
       (strptime "2024-03-01 10:00" DATETIME_FORMAT)
     = Some "2024-03-01 10:00"
  /\ Dict.mem "999" (clientes Ejemplo.g1) = false
  /\ solicitar_turno "999" "2024-03-01 10:00" "Shave" "" "id-9" Ejemplo.g1
     = Raised UnknownClient Ejemplo.g1
  /\ solicitar_turno "999" "2024-03-01 10:00" "Shave" "" "id-9" Ejemplo.g1
     <> Raised SlotConflict Ejemplo.g1.
Proof.
  repeat split; try reflexivity. discriminate.
Qed.

End SlotExclusivoWitness.

(** ** The life of a status *)

Section Estados.

Context `{DateTimeLib}.

Lemma mover_estado g t nd t1 :
  mover g t nd g = Returned t1 g -> estado t1 = estado t.
Proof.
  destruct (mover_cases g t nd)
    as [[e E]|[E|(s & dt & _ & _ & _ & _ & E)]];
    rewrite E; intros Heq; inversion Heq; reflexivity.
Qed.

(** One call: the appointment under [k] stays, and its status is kept
    unless the call is a cancellation or a completion of [k]. *)
Lemma estado_run_op o g k t :
  no_reusa k o ->
  Dict.get k (turnos g) = Some t ->
  exists t',
    Dict.get k (turnos (run_op o g)) = Some t'
    /\ (estado t' = estado t
        \/ (o = Cancel k /\ estado t' = cancelado)
        \/ (o = Complete k /\ estado t' = realizado)).
Proof.
  intros Hfresh Hget.
  assert (Hset : forall k0 e g',
            state_of (set_estado k0 e g) = g' ->
            exists t',
              Dict.get k (turnos g') = Some t'
              /\ (estado t' = estado t \/ (k0 = k /\ estado t' = e))).
  { intros k0 e g' <-.
    destruct (set_estado_cases g k0 e)
      as [[_ E]|(t0 & g' & Hg0 & E & _ & Ht)]; rewrite E; simpl.
    - exists t. auto.
    - rewrite Ht, DictFacts.get_set.
      destruct (String.eqb_spec k k0) as [->|Hk].
      + eexists. split; [reflexivity|]. right. auto.
      + exists t. auto. }
  destruct o as [d n tl|d ts s n u|k0 nd ns nn|k0|k0]; simpl in *.
  - destruct (registrar_cliente_cases g d n tl)
      as [[_ E]|[_ (g' & E & _ & Ht & _)]]; rewrite E; simpl.
    + exists t. auto.
    + rewrite Ht. exists t. auto.
  - destruct (solicitar_turno_cases g d ts s n u)
      as [[e E]|(dt & g' & _ & _ & _ & E & _ & Ht)]; rewrite E; simpl.
    + exists t. auto.
    + rewrite Ht, DictFacts.get_set_other by congruence. exists t. auto.
  - destruct (modificar_turno_cases g k0 nd ns nn)
      as [[e E]|(t0 & t1 & g' & Hg0 & Hmv & E & _ & Ht)]; rewrite E; simpl.
    + exists t. auto.
    + rewrite Ht, DictFacts.get_set.
      destruct (String.eqb_spec k k0) as [->|Hk].
      * eexists. split; [reflexivity|]. left. simpl.
        rewrite (mover_estado _ _ _ _ Hmv). congruence.
      * exists t. auto.
  - destruct (Hset k0 cancelado _ eq_refl) as (t' & Hg' & [E|[-> E]]);
      exists t'; auto.
  - destruct (Hset k0 realizado _ eq_refl) as (t' & Hg' & [E|[-> E]]);
      exists t'; auto.
Qed.

(** C2, amended.  An appointment whose status is Cancelled or Completed
    stays stored with a status that is Cancelled or Completed through any
    sequence of operations (no booking drawing its id again): it never
    becomes active again.  The status itself is not final:
    [cancelar_turno] stores Cancelled and [marcar_realizado] stores
    Completed whatever the status was. *)
Theorem estado_terminal :
  (forall ops g k t,
     Forall (no_reusa k) ops ->
     Dict.get k (turnos g) = Some t ->
     terminal (estado t) ->
     exists t',
       Dict.get k (turnos (run_ops ops g)) = Some t'
       /\ terminal (estado t'))
  /\ (forall g k t,
        Dict.get k (turnos g) = Some t ->
        (exists t', Dict.get k (turnos (run_op (Cancel k) g)) = Some t'
                    /\ estado t' = cancelado)
        /\ (exists t', Dict.get k (turnos (run_op (Complete k) g)) = Some t'
                       /\ estado t' = realizado)).
Proof.
  split.
  - induction ops as [|o ops IH]; intros g k t Hf Hget Hterm; simpl.
    + exists t. auto.
    + inversion Hf as [|? ? Ho Hops]; subst.
      destruct (estado_run_op o g k t Ho Hget) as (t' & Hget' & Hcase).
      apply (IH _ _ t' Hops Hget').
      destruct Hcase as [E|[[_ E]|[_ E]]]; unfold terminal; rewrite E; auto.
  - intros g k t Hget. split.
    + simpl. unfold cancelar_turno.
      destruct (set_estado_cases g k cancelado)
        as [[E _]|(t0 & g' & _ & E & _ & Ht)]; [congruence|].
      rewrite E. simpl. rewrite Ht, DictFacts.get_set_same.
      eexists. split; reflexivity.
    + simpl. unfold marcar_realizado.
      destruct (set_estado_cases g k realizado)
        as [[E _]|(t0 & g' & _ & E & _ & Ht)]; [congruence|].
      rewrite E. simpl. rewrite Ht, DictFacts.get_set_same.
      eexists. split; reflexivity.
Qed.

End Estados.

Section EstadosRuns.

#[local] Existing Instance Canonical.lib.

Lemma estado_terminal_witness :
  exists t',
    Dict.get "id-1"
      (turnos (run_ops [Ejemplo.color; Complete "id-1"] Ejemplo.g1_cancelado))
    = Some t'
    /\ terminal (estado t').
Proof.
  refine (proj1 (@estado_terminal Canonical.lib)
            [Ejemplo.color; Complete "id-1"] Ejemplo.g1_cancelado "id-1"
            (mkTurno (VStr "id-1") (VStr "111") (VStr "2024-03-01 10:00")
               (VStr "Cut") cancelado (VStr "")) _ _ _).
  - repeat constructor; simpl; discriminate.
  - reflexivity.
  - left. reflexivity.
Defined.

(** C2 as stated fails: completing a cancelled appointment changes its
    status from Cancelled to Completed. *)
Lemma estado_terminal_counterexample :
  option_map estado (Dict.get "id-1" (turnos Ejemplo.g1_cancelado))
  = Some cancelado
  /\ option_map estado
       (Dict.get "id-1"
          (turnos (state_of (marcar_realizado "id-1" Ejemplo.g1_cancelado))))
     = Some realizado
  /\ realizado <> cancelado.
Proof. repeat split. discriminate. Qed.

End EstadosRuns.

(** ** Registration *)

Lemma dni_values_keys (d : Dict.t Cliente) :
  (forall k c, In (k, c) d -> dni c = VStr k) ->
  map dni (Dict.values d) = map VStr (Dict.keys d).
Proof.
  induction d as [|[k c] d IH]; intros Hd; simpl; [reflexivity|].
  rewrite (Hd k c) by now left.
  f_equal. apply IH. intros k' c' Hin. apply Hd. now right.
Qed.

Lemma NoDup_map_VStr (l : list string) : NoDup l -> NoDup (map VStr l).
Proof.
  induction 1 as [|k l Hk Hnd IH]; simpl; constructor; [|exact IH].
  rewrite in_map_iff. intros [k' [E Hin]]. inversion E; subst. contradiction.
Qed.

Section Registro.

Context `{DateTimeLib}.

(** C4.  After any sequence of operations from the empty manager, and so
    after any sequence of [registrar_cliente] calls, the keys of the
    client map are pairwise different, every client is stored under its
    own dni, and no two stored clients have the same dni.  A call whose
    trimmed dni is already a key raises [DuplicateClient] and leaves the
    manager as it was; any other call returns the client made of the
    three trimmed fields, appended to the client map under the trimmed
    dni, the appointments being untouched. *)
Theorem registrar_cliente_unico :
  (forall ops,
     Dict.wf (clientes (run_ops ops vacio))
     /\ clientes_por_dni (run_ops ops vacio)
     /\ NoDup (map dni (Dict.values (clientes (run_ops ops vacio)))))
  /\ (forall g d n t,
        Dict.mem (Str.strip d) (clientes g) = true ->
        registrar_cliente d n t g = Raised DuplicateClient g)
  /\ (forall g d n t,
        Dict.mem (Str.strip d) (clientes g) = false ->
        let c := mkCliente (VStr (Str.strip d)) (VStr (Str.strip n))
                   (VStr (Str.strip t)) in
        exists g',
          registrar_cliente d n t g = Returned c g'
          /\ clientes g' = clientes g ++ [(Str.strip d, c)]
          /\ turnos g' = turnos g).
Proof.
  split; [|split].
  - intros ops.
    destruct (consistente_run_ops ops vacio consistente_vacio)
      as (Wc & _ & Oc & _).
    assert (Hpd : clientes_por_dni (run_ops ops vacio)).
    { intros k c Hin. now destruct (Oc k c Hin). }
    split; [exact Wc|]. split; [exact Hpd|].
    rewrite dni_values_keys by exact Hpd.
    apply NoDup_map_VStr. exact Wc.
  - intros g d n t Hm.
    destruct (registrar_cliente_cases g d n t) as [[_ E]|[Hm' _]];
      [exact E|congruence].
  - intros g d n t Hm c.
    destruct (registrar_cliente_cases g d n t)
      as [[Hm' _]|[_ (g' & E & Hc & Ht & _)]]; [congruence|].
    exists g'. split; [exact E|]. split; [|exact Ht].
    rewrite Hc. now apply DictFacts.set_fresh.
Qed.

End Registro.

Section RegistroRuns.

#[local] Existing Instance Canonical.lib.

Lemma registrar_cliente_unico_witness :
  registrar_cliente " 111 " "Ana" "" Ejemplo.g1
  = Raised DuplicateClient Ejemplo.g1
  /\ exists g',
       registrar_cliente " 222 " " Luis Paz " " 555-0202" Ejemplo.g1
       = Returned (mkCliente (VStr "222") (VStr "Luis Paz") (VStr "555-0202"))
           g'
       /\ clientes g'
          = clientes Ejemplo.g1
            ++ [("222",
                 mkCliente (VStr "222") (VStr "Luis Paz") (VStr "555-0202"))]
       /\ turnos g' = turnos Ejemplo.g1.
Proof.
  split.
  - refine (proj1 (proj2 (@registrar_cliente_unico Canonical.lib))
              Ejemplo.g1 " 111 " "Ana" "" _).
    reflexivity.
  - refine (proj2 (proj2 (@registrar_cliente_unico Canonical.lib))
              Ejemplo.g1 " 222 " " Luis Paz " " 555-0202" _).
    reflexivity.
Defined.

End RegistroRuns.

(** ** Booking under an untrimmed id *)

Lemma padded_not_fixed core s : padded core s -> Str.strip s <> s.
Proof.
  intros (l & r & Hl & Hr & Hne & Hs) Hfix.
  destruct l as [|c l].
  - simpl in *. destruct (exists_last Hne) as (r' & c & ->).
    rewrite app_assoc in Hs.
    pose proof (StrFacts.strip_fixed_last s _ c Hfix Hs) as Hc.
    apply Forall_app in Hr. destruct Hr as [_ Hr].
    inversion Hr; subst. congruence.
  - simpl in Hs. pose proof (StrFacts.strip_fixed_head s c _ Hfix Hs) as Hc.
    inversion Hl; subst. congruence.
Qed.

Section IdSinRecortar.

Context `{DateTimeLib}.

(** C10.  In every state the operations reach from the empty manager,
    for every registered client id and every string that is this id
    between two runs of white space, not both empty, [solicitar_turno]
    with that string raises [UnknownClient] and leaves the manager as it
    was: it looks the string up as it is, while [registrar_cliente]
    stored the client under the trimmed id. *)
Theorem solicitar_turno_sin_recortar :
  forall ops core s ts sv n u,
    Dict.mem core (clientes (run_ops ops vacio)) = true ->
    padded core s ->
    solicitar_turno s ts sv n u (run_ops ops vacio)
    = Raised UnknownClient (run_ops ops vacio).
Proof.
  intros ops core s ts sv n u _ Hpad.
  destruct (consistente_run_ops ops vacio consistente_vacio)
    as (_ & _ & Oc & _).
  assert (Hm : Dict.mem s (clientes (run_ops ops vacio)) = false).
  { destruct (Dict.mem s (clientes (run_ops ops vacio))) eqn:E; [|reflexivity].
    exfalso. unfold Dict.mem in E.
    destruct (Dict.get s (clientes (run_ops ops vacio))) as [c|] eqn:Eg;
      [|discriminate].
    apply DictFacts.get_In in Eg. destruct (Oc s c Eg) as (_ & Hfix & _).
    exact (padded_not_fixed core s Hpad Hfix). }
  unfold solicitar_turno, bind, self. now rewrite Hm.
Qed.

End IdSinRecortar.

Section IdSinRecortarRuns.

#[local] Existing Instance Canonical.lib.

Lemma solicitar_turno_sin_recortar_witness :
  solicitar_turno " 111 " "2024-03-01 12:00" "Cut" "" "id-7"
    (run_ops [Ejemplo.ana; Ejemplo.corte] vacio)
  = Raised UnknownClient (run_ops [Ejemplo.ana; Ejemplo.corte] vacio).
Proof.
  refine (@solicitar_turno_sin_recortar Canonical.lib
            [Ejemplo.ana; Ejemplo.corte] "111" " 111 "
            "2024-03-01 12:00" "Cut" "" "id-7" _ _).
  - reflexivity.
  - exists [" "%char], [" "%char]. repeat split.
    + repeat constructor.
    + repeat constructor.
    + discriminate.
Defined.

End IdSinRecortarRuns.

(** ** The optional fields of a rescheduling *)

Section CamposOpcionales.

Context `{DateTimeLib}.

Lemma mover_sin_fecha g t nd :
  nd = None \/ nd = Some "" -> mover g t nd g = Returned t g.
Proof. intros [->| ->]; reflexivity. Qed.

(** When [modificar_turno] returns, it returns what it stored, with the
    service and the notes it was given. *)
Lemma modificar_turno_returned g k nd ns nn t t' g' :
  Dict.get k (turnos g) = Some t ->
  modificar_turno k nd ns nn g = Returned t' g' ->
  Dict.get k (turnos g') = Some t'
  /\ servicio t'
     = match ns with Some s => VStr (Str.strip s) | None => servicio t end
  /\ notas t'
     = match nn with Some s => VStr (Str.strip s) | None => notas t end.
Proof.
  intros Hget Hret.
  destruct (modificar_turno_cases g k nd ns nn)
    as [[e E]|(t0 & t1 & g0 & Hg0 & Hmv & E & _ & Ht)];
    rewrite E in Hret; [discriminate|].
  inversion Hret; subst t' g0; clear Hret.
  assert (t0 = t) by congruence. subst t0.
  rewrite Ht, DictFacts.get_set_same. split; [reflexivity|].
  destruct (mover_cases g t nd)
    as [[e' E']|[E'|(s & dt & _ & _ & _ & _ & E')]];
    rewrite E' in Hmv; inversion Hmv; subst t1; simpl; split; reflexivity.
Qed.

(** C9.  On a stored appointment, [modificar_turno] with the empty string
    as new timestamp returns and keeps [datetime_str]: empty counts as
    unset.  With the empty string as new service, or as new notes, and no
    new timestamp, it returns and stores the empty string in that field;
    with [None] there it keeps the field.  Whatever the timestamp
    argument, a call that returns has stored the empty string where it
    was given one. *)
Theorem modificar_turno_asimetrico :
  forall g k t,
    Dict.get k (turnos g) = Some t ->
    (forall ns nn,
       exists t' g',
         modificar_turno k (Some "") ns nn g = Returned t' g'
         /\ Dict.get k (turnos g') = Some t'
         /\ datetime_str t' = datetime_str t)
    /\ (forall nd ns nn,
          nd = None \/ nd = Some "" ->
          exists t' g',
            modificar_turno k nd ns nn g = Returned t' g'
            /\ Dict.get k (turnos g') = Some t'
            /\ (ns = Some "" -> servicio t' = VStr "")
            /\ (nn = Some "" -> notas t' = VStr "")
            /\ (ns = None -> servicio t' = servicio t)
            /\ (nn = None -> notas t' = notas t))
    /\ (forall nd ns nn t' g',
          modificar_turno k nd ns nn g = Returned t' g' ->
          Dict.get k (turnos g') = Some t'
          /\ (ns = Some "" -> servicio t' = VStr "")
          /\ (nn = Some "" -> notas t' = VStr "")).
Proof.
  intros g k t Hget.
  assert (Hret : forall nd ns nn,
            nd = None \/ nd = Some "" ->
            exists g',
              modificar_turno k nd ns nn g = Returned (retocado t ns nn) g').
  { intros nd ns nn Hnd.
    destruct (modificar_turno_cases g k nd ns nn)
      as [[e E]|(t0 & t1 & g' & Hg0 & Hmv & E & _)].
    - exfalso. revert E. unfold modificar_turno, bind at 1, self.
      rewrite Hget. unfold bind at 1.
      rewrite (mover_sin_fecha g t nd Hnd).
      unfold bind, assign, dump_to_dict, dump_to_csv, self. discriminate.
    - rewrite (mover_sin_fecha g t0 nd Hnd) in Hmv.
      inversion Hmv; subst t1. exists g'. congruence. }
  split; [|split].
  - intros ns nn. destruct (Hret (Some "") ns nn) as [g' E]; [now right|].
    exists (retocado t ns nn), g'. split; [exact E|].
    destruct (modificar_turno_returned g k _ ns nn t _ g' Hget E) as (Hs & _).
    split; [exact Hs|reflexivity].
  - intros nd ns nn Hnd. destruct (Hret nd ns nn Hnd) as [g' E].
    exists (retocado t ns nn), g'. split; [exact E|].
    destruct (modificar_turno_returned g k _ ns nn t _ g' Hget E)
      as (Hs & _ & _).
    split; [exact Hs|]. simpl.
    repeat split; intros ->; reflexivity.
  - intros nd ns nn t' g' E.
    destruct (modificar_turno_returned g k nd ns nn t t' g' Hget E)
      as (Hs & Hsv & Hno).
    split; [exact Hs|]. split; intros ->; assumption.
Qed.

End CamposOpcionales.

Section CamposOpcionalesRuns.

#[local] Existing Instance Canonical.lib.

Lemma modificar_turno_asimetrico_witness :
  (exists t' g',
     modificar_turno "id-1" (Some "") None None Ejemplo.g1 = Returned t' g'
     /\ Dict.get "id-1" (turnos g') = Some t'
     /\ datetime_str t' = VStr "2024-03-01 10:00")
  /\ (exists t' g',
        modificar_turno "id-1" None (Some "") (Some "") Ejemplo.g1
        = Returned t' g'
        /\ Dict.get "id-1" (turnos g') = Some t'
        /\ servicio t' = VStr "" /\ notas t' = VStr "").
Proof.
  pose proof (@modificar_turno_asimetrico Canonical.lib Ejemplo.g1 "id-1"
                (mkTurno (VStr "id-1") (VStr "111") (VStr "2024-03-01 10:00")
                   (VStr "Cut") activo (VStr "")) eq_refl)
    as (Ha & Hb & _).
  split.
  - exact (Ha None None).
  - destruct (Hb None (Some "") (Some "") (or_introl eq_refl))
      as (t' & g' & E & Hg & Hs & Hn & _).
    exists t', g'. repeat split; auto.
Defined.

End CamposOpcionalesRuns.

(** ** Round trip through the structured snapshot *)

Lemma Cliente_from_to_dict c g :
  Cliente_from_dict (Cliente_to_dict c) g = Returned c g.
Proof. destruct c. reflexivity. Qed.

Lemma Turno_from_to_dict t g :
  Turno_from_dict (Turno_to_dict t) g = Returned t g.
Proof. destruct t. reflexivity. Qed.

Lemma comprehension_map {A B C} (f : B -> M C) (p : A -> B) (q : A -> C)
  l g :
  (forall x g, f (p x) g = Returned (q x) g) ->
  comprehension f (map p l) g = Returned (map q l) g.
Proof.
  intros Hf. induction l as [|x l IH]; simpl; [reflexivity|].
  unfold bind at 1. rewrite Hf. unfold bind at 1. rewrite IH. reflexivity.
Qed.

Lemma of_items_map {V W} (f : V -> W) (d : Dict.t V) :
  Dict.wf d ->
  Dict.of_items (map (fun '(k, v) => (k, f v)) (Dict.items d))
  = map (fun '(k, v) => (k, f v)) d.
Proof.
  intros Hwf.
  apply (DictFacts.of_items_wf (map (fun '(k, v) => (k, f v)) d)).
  unfold Dict.wf. now rewrite DictFacts.keys_map.
Qed.

(** Loading the snapshot just written, whatever the manager held. *)
Lemma load_from_dict_dumped g c0 t0 :
  Dict.wf (clientes g) -> Dict.wf (turnos g) ->
  let g1 := state_of (dump_to_dict g) in
  load_from_dict (mkGestor c0 t0 (csv_file g1) (dict_file g1))
  = Returned tt
      (mkGestor (clientes g) (turnos g) (csv_file g1) (dict_file g1)).
Proof.
  intros Wc Wt. simpl.
  unfold load_from_dict, bind at 1, self. simpl.
  unfold get_default. simpl.
  rewrite (of_items_map Cliente_to_dict (clientes g) Wc).
  rewrite (of_items_map Turno_to_dict (turnos g) Wt).
  unfold bind at 1, Dict.items.
  rewrite (comprehension_map _ _ (fun kv : string * Cliente => kv)).
  2:{ intros [k c] g0. unfold bind. now rewrite Cliente_from_to_dict. }
  rewrite map_id. unfold bind at 1, assign at 1. unfold bind at 1. simpl.
  rewrite (comprehension_map _ _ (fun kv : string * Turno => kv)).
  2:{ intros [k t] g0. unfold bind. now rewrite Turno_from_to_dict. }
  rewrite map_id. unfold assign. simpl.
  pose proof (DictFacts.of_items_wf _ Wc) as Ec.
  pose proof (DictFacts.of_items_wf _ Wt) as Et.
  unfold Dict.items in Ec, Et. rewrite Ec, Et. reflexivity.
Qed.

(** Construction where the snapshot exists and loads. *)
Lemma init_dict csv data g' :
  load_from_dict (mkGestor Dict.empty Dict.empty csv (Some data))
  = Returned tt g' ->
  exists f1 f2,
    init csv (Some data) = (set_dict_file f2 (set_csv_file f1 g'), []).
Proof.
  intros Hl. unfold init, bind. rewrite Hl.
  destruct (dump_to_csv_returns g') as (f1 & f2 & E).
  exists f1, f2. now rewrite E.
Qed.

(** C5.  For every manager (a dict having no key twice), writing the
    structured snapshot with [dump_to_dict] and reading it with
    [load_from_dict] into a manager that holds nothing gives back the
    same client map and the same appointment map, every field and the
    order of the entries included; a manager constructed on the files
    left by [dump_to_dict] holds them too and prints no warning. *)
Theorem snapshot_round_trip :
  forall g,
    Dict.wf (clientes g) -> Dict.wf (turnos g) ->
    let g1 := state_of (dump_to_dict g) in
    (exists g',
       load_from_dict
         (mkGestor Dict.empty Dict.empty (csv_file g1) (dict_file g1))
       = Returned tt g'
       /\ clientes g' = clientes g
       /\ turnos g' = turnos g)
    /\ clientes (fst (init (csv_file g1) (dict_file g1))) = clientes g
    /\ turnos (fst (init (csv_file g1) (dict_file g1))) = turnos g
    /\ snd (init (csv_file g1) (dict_file g1)) = [].
Proof.
  intros g Wc Wt.
  pose proof (load_from_dict_dumped g Dict.empty Dict.empty Wc Wt) as Hl.
  cbv zeta in *.
  destruct (dump_to_dict_returns g) as [data E]. rewrite E in *.
  cbn [state_of set_dict_file csv_file dict_file] in *.
  split.
  - eexists. split; [exact Hl|]. split; reflexivity.
  - destruct (init_dict _ _ _ Hl) as (f1 & f2 & Ei).
    rewrite Ei. repeat split.
Qed.

Lemma snapshot_round_trip_witness :
  exists g',
    load_from_dict
      (mkGestor Dict.empty Dict.empty
         (csv_file (state_of (dump_to_dict Ejemplo.g2)))
         (dict_file (state_of (dump_to_dict Ejemplo.g2))))
    = Returned tt g'
    /\ clientes g' = clientes Ejemplo.g2
    /\ turnos g' = turnos Ejemplo.g2.
Proof.
  refine (proj1 (snapshot_round_trip Ejemplo.g2 _ _)).
  - repeat constructor; simpl; intuition discriminate.
  - repeat constructor; simpl; intuition discriminate.
Defined.

(** ** Listing: the date filter *)

Section FiltroFecha.

Context `{DateTimeLib}.

(** The date filter is parsed when the loop reaches an appointment that
    passes the other two filters, and only then. *)
Lemma listar_loop_fecha_invalida c f e ts g :
  Str.truthy f = true ->
  strptime f DATE_FORMAT = None ->
  listar_loop c (Some f) e ts g
  = if existsb (pasa c e) ts then Raised InvalidDate g else Returned [] g.
Proof.
  intros Hf Hp. induction ts as [|t ts IH]; simpl; [reflexivity|].
  unfold pasa at 1.
  destruct (excluye e (estado t)); simpl; [exact IH|].
  destruct (excluye c (cliente_dni t)); simpl; [exact IH|].
  now rewrite Hf, Hp.
Qed.

Lemma listar_turnos_fecha_invalida c f e g :
  Str.truthy f = true ->
  strptime f DATE_FORMAT = None ->
  listar_turnos c (Some f) e g
  = if existsb (pasa c e) (Dict.values (turnos g))
    then Raised InvalidDate g else Returned [] g.
Proof.
  intros Hf Hp. unfold listar_turnos, bind at 1, self.
  unfold bind at 1. rewrite (listar_loop_fecha_invalida c f e _ g Hf Hp).
  now destruct (existsb _ _).
Qed.

End FiltroFecha.

Section FiltroFechaRuns.

#[local] Existing Instance Canonical.lib.

(** C3 on the code: with no appointment to visit, or none passing the
    client filter, a date filter that does not parse is never parsed and
    the call returns the empty list; with an appointment passing, the
    same filter raises [InvalidDate]. *)
Theorem listar_turnos_fecha_sin_validar :
  strptime "31/12/2024" DATE_FORMAT = None
  /\ listar_turnos None (Some "31/12/2024") None vacio = Returned [] vacio
  /\ listar_turnos (Some "222") (Some "31/12/2024") None Ejemplo.g2
     = Returned [] Ejemplo.g2
  /\ listar_turnos None (Some "31/12/2024") None Ejemplo.g2
     = Raised InvalidDate Ejemplo.g2.
Proof. repeat split. Qed.

End FiltroFechaRuns.

(** ** Listing: the order of the result *)

Lemma datetime_ltb_lt a b :
  datetime_ltb a b = true <->
  (year a < year b
   \/ (year a = year b
       /\ (month a < month b
           \/ (month a = month b
               /\ (day a < day b
                   \/ (day a = day b
                       /\ (hour a < hour b
                           \/ (hour a = hour b
                               /\ minute a < minute b))))))))%nat.
Proof.
  unfold datetime_ltb.
  repeat (rewrite orb_true_iff || rewrite andb_true_iff).
  rewrite !Nat.ltb_lt, !Nat.eqb_eq. reflexivity.
Qed.

Lemma datetime_ltb_false a b :
  datetime_ltb a b = false <-> ~ datetime_ltb a b = true.
Proof. destruct (datetime_ltb a b); split; congruence. Qed.

Lemma datetime_le_trans a b c :
  datetime_le a b -> datetime_le b c -> datetime_le a c.
Proof.
  unfold datetime_le. rewrite !datetime_ltb_false, !datetime_ltb_lt. lia.
Qed.

Lemma datetime_lt_le a b : datetime_lt a b -> datetime_le a b.
Proof.
  unfold datetime_lt, datetime_le.
  rewrite datetime_ltb_false, !datetime_ltb_lt. lia.
Qed.

Lemma datetime_lt_irrefl a : ~ datetime_lt a a.
Proof. unfold datetime_lt. rewrite datetime_ltb_lt. lia. Qed.

Section Orden.

Context {A : Type}.

Lemma insert_by_key_perm (x : datetime * A) l :
  Permutation (insert_by_key x l) (x :: l).
Proof.
  induction l as [|y l IH]; simpl; [reflexivity|].
  destruct (datetime_ltb (fst x) (fst y)); [reflexivity|].
  rewrite IH. apply perm_swap.
Qed.

Lemma insert_by_key_sorted (x : datetime * A) l :
  StronglySorted key_le l -> StronglySorted key_le (insert_by_key x l).
Proof.
  induction 1 as [|y l Hs IH Hy]; simpl.
  - repeat constructor.
  - destruct (datetime_ltb (fst x) (fst y)) eqn:E.
    + constructor; [now constructor|].
      assert (Hxy : key_le x y) by (apply datetime_lt_le; exact E).
      constructor; [exact Hxy|].
      eapply Forall_impl; [|exact Hy].
      intros z Hz. eapply datetime_le_trans; eassumption.
    + constructor; [exact IH|].
      apply (Permutation_Forall (Permutation_sym (insert_by_key_perm x l))).
      constructor; [exact E|exact Hy].
Qed.

Lemma sort_by_key_from (l acc : list (datetime * A)) :
  StronglySorted key_le acc ->
  let r := fold_left (fun sorted x => insert_by_key x sorted) l acc in
  StronglySorted key_le r /\ Permutation r (acc ++ l).
Proof.
  revert acc. induction l as [|x l IH]; intros acc Hacc; simpl.
  - split; [exact Hacc|]. now rewrite app_nil_r.
  - destruct (IH (insert_by_key x acc) (insert_by_key_sorted x acc Hacc))
      as [Hs Hp].
    split; [exact Hs|]. rewrite Hp, insert_by_key_perm.
    simpl. apply Permutation_middle.
Qed.

Lemma sort_by_key_sorted (l : list (datetime * A)) :
  StronglySorted key_le (sort_by_key l).
Proof. apply (sort_by_key_from l []). constructor. Qed.

Lemma sort_by_key_perm (l : list (datetime * A)) :
  Permutation (sort_by_key l) l.
Proof. apply (sort_by_key_from l []). constructor. Qed.

End Orden.

Section ListadoOrdenado.

Context `{DateTimeLib}.

Lemma listar_loop_sin_filtro ts g :
  listar_loop None None None ts g = Returned ts g.
Proof.
  induction ts as [|t ts IH]; simpl; [reflexivity|].
  unfold bind. now rewrite IH.
Qed.

Lemma datetime_obj_scheduledAt t d g :
  scheduledAt t = Some d -> datetime_obj t g = Returned d g.
Proof.
  unfold scheduledAt, datetime_obj. destruct (datetime_str t); [discriminate|].
  now intros ->.
Qed.

Lemma datetime_obj_raises t g :
  scheduledAt t = None -> exists e, datetime_obj t g = Raised e g.
Proof.
  unfold scheduledAt, datetime_obj. destruct (datetime_str t).
  - intros _. now exists TypeError.
  - intros ->. now exists ValueError.
Qed.

(** The keys [list.sort] computes, one per appointment that parses. *)
Lemma keys_computed ts g :
  Forall (fun t => scheduledAt t <> None) ts ->
  exists keyed,
    comprehension (fun x => k <- datetime_obj x ;; ret (k, x)) ts g
    = Returned keyed g
    /\ map snd keyed = ts
    /\ Forall (fun kt => scheduledAt (snd kt) = Some (fst kt)) keyed.
Proof.
  induction 1 as [|t ts Ht Hts (keyed & E & Hm & Hk)]; simpl.
  - exists []. repeat split. constructor.
  - destruct (scheduledAt t) as [d|] eqn:Ed; [|congruence].
    exists ((d, t) :: keyed). unfold bind at 1, bind at 1.
    rewrite (datetime_obj_scheduledAt t d g Ed). unfold ret at 1.
    unfold bind at 1. rewrite E. simpl. repeat split.
    + now rewrite Hm.
    + constructor; [exact Ed|exact Hk].
Qed.

Lemma sorted_no_despues (keyed : list (datetime * Turno)) :
  Forall (fun kt => scheduledAt (snd kt) = Some (fst kt)) keyed ->
  StronglySorted key_le keyed ->
  StronglySorted no_despues (map snd keyed).
Proof.
  intros Hk Hs. induction Hs as [|kt l Hs IH Hhd]; simpl; [constructor|].
  inversion Hk as [|? ? Hkt Hl]; subst.
  constructor; [now apply IH|].
  rewrite Forall_map. rewrite Forall_forall in *.
  intros kt' Hin. unfold no_despues.
  rewrite Hkt, (Hl kt' Hin). exact (Hhd kt' Hin).
Qed.

(** C7, amended.  For every manager whose stored timestamps all parse,
    [listar_turnos] without filter returns a list holding every stored
    appointment, as many times as it is stored, in ascending order of
    [scheduledAt]: each appointment is scheduled no later than those
    after it.  The order is not strict. *)
Theorem listar_turnos_ordenado :
  forall g,
    Forall (fun t => scheduledAt t <> None) (Dict.values (turnos g)) ->
    exists l,
      listar_turnos None None None g = Returned l g
      /\ Permutation l (Dict.values (turnos g))
      /\ StronglySorted no_despues l.
Proof.
  intros g Hparse.
  destruct (keys_computed (Dict.values (turnos g)) g Hparse)
    as (keyed & E & Hm & Hk).
  exists (map snd (sort_by_key keyed)).
  split; [|split].
  - unfold listar_turnos, bind at 1, self. unfold bind at 1.
    rewrite listar_loop_sin_filtro. unfold bind at 1. now rewrite E.
  - rewrite <- Hm. apply Permutation_map. apply sort_by_key_perm.
  - apply sorted_no_despues; [|apply sort_by_key_sorted].
    apply (Permutation_Forall (Permutation_sym (sort_by_key_perm keyed))).
    exact Hk.
Qed.

(** A stored timestamp that does not parse makes the call raise. *)
Lemma listar_turnos_raises g :
  Exists (fun t => scheduledAt t = None) (Dict.values (turnos g)) ->
  exists e, listar_turnos None None None g = Raised e g.
Proof.
  intros Hex. unfold listar_turnos, bind at 1, self. unfold bind at 1.
  rewrite listar_loop_sin_filtro. unfold bind at 1.
  induction Hex as [t ts Ht|t ts Hex (e & IH)]; simpl.
  - destruct (datetime_obj_raises t g Ht) as [e E].
    exists e. unfold bind at 1, bind at 1. now rewrite E.
  - destruct (scheduledAt t) as [d|] eqn:Ed.
    + unfold bind at 1, bind at 1.
      rewrite (datetime_obj_scheduledAt t d g Ed). unfold ret at 1.
      unfold bind at 1.
      destruct (comprehension _ ts g) as [keyed g'|e' g'] eqn:Ec.
      * simpl in IH. discriminate.
      * exists e'. simpl in IH. now inversion IH.
    + destruct (datetime_obj_raises t g Ed) as [e' E].
      exists e'. unfold bind at 1, bind at 1. now rewrite E.
Qed.

End ListadoOrdenado.

Section ListadoOrdenadoRuns.

#[local] Existing Instance Canonical.lib.

Lemma listar_turnos_ordenado_witness :
  exists l,
    listar_turnos None None None Ejemplo.g1_otra_vez
    = Returned l Ejemplo.g1_otra_vez
    /\ Permutation l (Dict.values (turnos Ejemplo.g1_otra_vez))
    /\ StronglySorted no_despues l.
Proof.
  refine (@listar_turnos_ordenado Canonical.lib Ejemplo.g1_otra_vez _).
  repeat constructor; discriminate.
Defined.

(** C7 as stated fails.  After a cancellation and a new booking of the
    same slot the list holds two appointments with one [scheduledAt], so
    it is not strictly ascending; and where a stored timestamp does not
    parse (a row export edited by hand), the call raises. *)
Lemma listar_turnos_ordenado_counterexample :
  (exists ta tb,
     listar_turnos None None None Ejemplo.g1_otra_vez
     = Returned [ta; tb] Ejemplo.g1_otra_vez
     /\ datetime_str ta = datetime_str tb
     /\ ~ antes ta tb)
  /\ listar_turnos None None None Ejemplo.g_editado
     = Raised ValueError Ejemplo.g_editado.
Proof.
  split; [|reflexivity].
  do 2 eexists. split; [reflexivity|]. split; [reflexivity|].
  apply datetime_lt_irrefl.
Qed.

End ListadoOrdenadoRuns.

(** ** Loading the row export *)

Lemma for_each_app {A} (l1 l2 : list A) (body : A -> M unit) g :
  for_each (l1 ++ l2) body g
  = match for_each l1 body g with
    | Returned _ g' => for_each l2 body g'
    | Raised e g' => Raised e g'
    end.
Proof.
  revert g. induction l1 as [|x l1 IH]; intros g; simpl; [reflexivity|].
  unfold bind. destruct (body x g) as [[] g'|e g']; [apply IH|reflexivity].
Qed.

Lemma for_each_app_returns {A} (l1 l2 : list A) (body : A -> M unit) g g' :
  for_each l1 body g = Returned tt g' ->
  for_each (l1 ++ l2) body g = for_each l2 body g'.
Proof. intros E. now rewrite for_each_app, E. Qed.




Lemma leidas_app a b : leidas (a ++ b) = leidas a ++ leidas b.
Proof. unfold leidas. now rewrite filter_app, map_app. Qed.

Lemma en_limite_app a b : en_limite (a ++ b) <-> en_limite a /\ en_limite b.
Proof. apply Forall_app. Qed.

Lemma en_limite_forallb rows :
  forallb (forallb cabe) rows = true -> en_limite rows.
Proof.
  intros Hf. apply Forall_forall. intros row Hin.
  rewrite forallb_forall in Hf. now apply Hf.
Qed.

(** Where every cell is within the limit the reader raises nothing, and
    the loop runs over the dicts of the rows. *)
Lemma for_each_next_en_limite rows (body : Dict.t value -> M unit) g :
  en_limite rows ->
  for_each_next (DictReader rows) body g = for_each (leidas rows) body g.
Proof.
  intros Hl. revert g. induction Hl as [|row rows Hrow _ IH]; intros g.
  - reflexivity.
  - unfold DictReader, leidas. cbn [filter].
    destruct (con_celdas row); [|apply IH].
    cbn [map for_each_next for_each]. unfold bind, DictReader_next.
    rewrite Hrow. unfold ret.
    destruct (body (DictReader_row row) g) as [[] g'|e g'];
      [apply IH|reflexivity].
Qed.


(** A row with a cell for every field name. *)
Lemma DictReader_row_full c0 c1 c2 c3 c4 c5 c6 c7 rest :
  DictReader_row (c0 :: c1 :: c2 :: c3 :: c4 :: c5 :: c6 :: c7 :: rest)
  = [("turno_id", VStr (Str.universal_newlines c0));
     ("cliente_dni", VStr (Str.universal_newlines c1));
     ("cliente_nombre", VStr (Str.universal_newlines c2));
     ("cliente_telefono", VStr (Str.universal_newlines c3));
     ("datetime_str", VStr (Str.universal_newlines c4));
     ("servicio", VStr (Str.universal_newlines c5));
     ("estado", VStr (Str.universal_newlines c6));
     ("notas", VStr (Str.universal_newlines c7))].
Proof.
  unfold DictReader_row. simpl. now rewrite skipn_nil.
Qed.

(** A yielded row has a [str] under [turno_id]. *)
Lemma DictReader_row_turno_id c row :
  Dict.get "turno_id" (DictReader_row (c :: row))
  = Some (VStr (Str.universal_newlines c)).
Proof.
  destruct row as [|c1 [|c2 [|c3 [|c4 [|c5 [|c6 [|c7 rest]]]]]]];
    try reflexivity.
  now rewrite DictReader_row_full.
Qed.





Lemma load_from_csv_rows c0 t0 rows dict :
  load_from_csv (mkGestor c0 t0 (Some rows) dict)
  = for_each_next (DictReader rows) load_row
      (mkGestor Dict.empty Dict.empty (Some rows) dict).
Proof. reflexivity. Qed.

Lemma load_from_csv_leidas c0 t0 rows dict :
  en_limite rows ->
  load_from_csv (mkGestor c0 t0 (Some rows) dict)
  = for_each (leidas rows) load_row
      (mkGestor Dict.empty Dict.empty (Some rows) dict).
Proof.
  intros Hl. rewrite load_from_csv_rows. now apply for_each_next_en_limite.
Qed.







(** ** Round trip through the row export *)

Lemma leidas_written {A} (f : A -> Dict.t value) (l : list A) :
  leidas (map (fun x => writerow (f x)) l)
  = map (fun x => DictReader_row (writerow (f x))) l.
Proof.
  unfold leidas. induction l as [|x l IH]; simpl; [reflexivity|].
  now rewrite IH.
Qed.

(** The body of the loop on the row of a faithful appointment: its client
    goes in if the id is not empty and not yet there, the appointment
    goes under its id. *)
Lemma load_row_fiel g k t acc :
  fila_fiel g k t ->
  exists d c,
    cliente_dni t = VStr d
    /\ Dict.get d (clientes g) = Some c
    /\ load_row (DictReader_row (writerow (fila g t))) acc
       = Returned tt
           (mkGestor
              (if Str.truthy d && negb (Dict.mem d (clientes acc))
               then Dict.set d c (clientes acc) else clientes acc)
              (Dict.set k t (turnos acc)) (csv_file acc) (dict_file acc)).
Proof.
  intros (d & ds & sv & es & no & n & tel & -> & Hc & Hd & Hn & Htel & Hcr).
  exists d, (mkCliente (VStr d) (VStr n) (VStr tel)).
  split; [reflexivity|]. split; [exact Hc|].
  unfold fila, clientes_get.
  cbn [cliente_dni id datetime_str servicio estado notas]. rewrite Hc.
  cbn [nombre telefono].
  unfold writerow, fieldnames, get_default. simpl map.
  rewrite DictReader_row_full.
  repeat match goal with
         | H : Forall _ (_ :: _) |- _ => inversion H; subst; clear H
         end.
  rewrite !StrFacts.universal_newlines_sin_cr by assumption.
  unfold load_row, bind, subscript, self, strip_value, get_default. simpl.
  rewrite Hd, Hn, Htel.
  destruct (Str.truthy d && negb (Dict.mem d (clientes acc)));
    destruct acc; reflexivity.
Qed.

Lemma cargado_snoc g ts t d0 d :
  cliente_dni t = VStr d0 ->
  cargado g (ts ++ [t]) d
  = if String.eqb d0 d then
      (if Str.truthy d then Dict.get d (clientes g) else None)
    else cargado g ts d.
Proof.
  intros Ht. unfold cargado. rewrite existsb_app. simpl. rewrite Ht. simpl.
  rewrite orb_false_r.
  destruct (String.eqb d0 d); [|now rewrite orb_false_r].
  rewrite orb_true_r. now rewrite andb_true_r.
Qed.

Lemma load_rows_fieles g todo :
  forall done acc,
    (forall k t, In (k, t) todo -> fila_fiel g k t) ->
    NoDup (map fst (done ++ todo)) ->
    turnos acc = done ->
    Dict.wf (clientes acc) ->
    (forall d, Dict.get d (clientes acc) = cargado g (map snd done) d) ->
    exists acc',
      for_each
        (map (fun kt => DictReader_row (writerow (fila g (snd kt)))) todo)
        load_row acc
      = Returned tt acc'
      /\ turnos acc' = done ++ todo
      /\ Dict.wf (clientes acc')
      /\ (forall d,
            Dict.get d (clientes acc') = cargado g (map snd (done ++ todo)) d)
      /\ csv_file acc' = csv_file acc
      /\ dict_file acc' = dict_file acc.
Proof.
  induction todo as [|[k t] todo IH]; intros done acc Hf Hnd Ht Hw Hc.
  - exists acc. rewrite app_nil_r. repeat split; auto.
  - destruct (load_row_fiel g k t acc) as (d0 & c0 & Hd0 & Hg0 & E);
      [apply Hf; now left|].
    simpl. unfold bind. rewrite E.
    match goal with
    | |- context [for_each _ load_row ?a] => set (acc1 := a)
    end.
    destruct (IH (done ++ [(k, t)]) acc1) as (acc' & E' & Ht' & Hw' & Hc' & Hf1 & Hf2).
    + intros k' t' Hin. apply Hf. now right.
    + now rewrite <- app_assoc.
    + unfold acc1. simpl. rewrite Ht. apply DictFacts.set_fresh.
      apply DictFacts.mem_false. unfold Dict.keys.
      rewrite map_app in Hnd. apply NoDup_remove_2 in Hnd.
      intros Hin. apply Hnd. apply in_or_app. now left.
    + unfold acc1. simpl.
      destruct (Str.truthy d0 && negb (Dict.mem d0 (clientes acc)));
        [now apply DictFacts.wf_set|exact Hw].
    + intros d. rewrite map_app. simpl map.
      rewrite (cargado_snoc g (map snd done) t d0 d Hd0).
      unfold acc1. simpl.
      destruct (String.eqb_spec d0 d) as [<-|Hne].
      * destruct (Str.truthy d0) eqn:Etr; simpl.
        -- unfold Dict.mem.
           destruct (Dict.get d0 (clientes acc)) as [c|] eqn:Eg; simpl.
           ++ rewrite Eg. rewrite Hc in Eg. unfold cargado in Eg.
              rewrite Etr in Eg. simpl in Eg.
              destruct (existsb _ _); [congruence|discriminate].
           ++ rewrite DictFacts.get_set_same. congruence.
        -- rewrite Hc. unfold cargado. now rewrite Etr.
      * destruct (Str.truthy d0 && negb (Dict.mem d0 (clientes acc)));
          [rewrite DictFacts.get_set_other by congruence|]; apply Hc.
    + exists acc'. rewrite <- app_assoc in Ht', Hc'. simpl in Ht', Hc'.
      repeat split; auto.
Qed.

(** In a reachable state without carriage return every appointment is
    faithful to its row. *)
Lemma fila_fiel_consistente g :
  consistente g -> sin_cr g ->
  forall k t, In (k, t) (turnos g) -> fila_fiel g k t.
Proof.
  intros (_ & _ & Oc & Ot & _) (Hcc & Hct) k t Hin.
  destruct (Ot k t Hin)
    as (Hid & (d & Hd & Hmem) & [ds Hds] & (sv & Hsv & _) & Hes
        & (no & Hno & _)).
  assert (Hes' : exists es, estado t = VStr es).
  { destruct Hes as [-> |[-> | ->]]; eexists; reflexivity. }
  destruct Hes' as [es Hes'].
  unfold Dict.mem in Hmem.
  destruct (Dict.get d (clientes g)) as [c|] eqn:Eg; [|discriminate].
  destruct (Oc d c (DictFacts.get_In d c _ Eg))
    as (Hdni & Hfix & (n & Hn & Hns) & (tel & Htel & Htels)).
  assert (Hct' : Turno_sin_cr t = true).
  { rewrite Forall_forall in Hct. apply Hct.
    change t with (snd (k, t)). now apply in_map. }
  assert (Hcc' : Cliente_sin_cr c = true).
  { rewrite Forall_forall in Hcc. apply Hcc.
    eapply DictFacts.get_In_values. exact Eg. }
  destruct t as [i cd dstr s e nt], c as [cdni cn ctel]. simpl in *. subst.
  unfold Turno_sin_cr, Cliente_sin_cr in *. simpl in *.
  repeat (apply andb_true_iff in Hct'; destruct Hct' as [Hct' ?]).
  repeat (apply andb_true_iff in Hcc'; destruct Hcc' as [Hcc' ?]).
  exists d, ds, sv, es, no, n, tel.
  repeat split; auto. repeat constructor; assumption.
Qed.

Section IdaYVuelta.

Context `{DateTimeLib}.

(** C6, amended.  For every state the operations reach from the empty
    manager in which no field holds a carriage return and no cell of the
    row export has more than 131072 characters, the limit of the reader,
    the row export written by [dump_to_csv] loads back into an empty
    manager without raising, with the same appointment map, and with a
    client map that holds, under each non-empty client id some
    appointment refers to, the client of the original manager, whose name
    and phone are those written in the third and fourth columns, and
    holds nothing else. *)
Theorem csv_round_trip :
  forall ops,
    sin_cr (run_ops ops vacio) ->
    en_limite (filas_escritas (run_ops ops vacio)) ->
    exists g',
      recargar_csv (run_ops ops vacio) = Returned tt g'
      /\ turnos g' = turnos (run_ops ops vacio)
      /\ Dict.wf (clientes g')
      /\ (forall d,
            Dict.get d (clientes g')
            = if Str.truthy d && referenciado (run_ops ops vacio) d
              then Dict.get d (clientes (run_ops ops vacio))
              else None)
      /\ (forall t d,
            In t (Dict.values (turnos (run_ops ops vacio))) ->
            cliente_dni t = VStr d ->
            d <> "" ->
            exists c,
              Dict.get d (clientes g') = Some c
              /\ nth 2 (writerow (fila (run_ops ops vacio) t)) ""
                 = cell_text (nombre c)
              /\ nth 3 (writerow (fila (run_ops ops vacio) t)) ""
                 = cell_text (telefono c)).
Proof.
  intros ops Hcr Hlim.
  pose proof (consistente_run_ops ops vacio consistente_vacio) as Hg.
  set (g := run_ops ops vacio) in *.
  pose proof (fila_fiel_consistente g Hg Hcr) as Hfiel.
  destruct Hg as (_ & Wt & _).
  assert (Hnone : forall d,
            Dict.get d (@Dict.empty Cliente)
            = cargado g (map snd (@nil (string * Turno))) d).
  { intros d. unfold cargado. simpl. now rewrite andb_false_r. }
  destruct (load_rows_fieles g (turnos g) []
              (mkGestor Dict.empty Dict.empty
                 (Some (map (fun t => writerow (fila g t))
                          (Dict.values (turnos g))))
                 (dict_file (state_of (dump_to_csv g))))
              Hfiel Wt eq_refl (NoDup_nil _) Hnone)
    as (g' & E & Ht & Hw & Hc & _).
  exists g'. simpl in Ht, Hc.
  assert (Hget : forall d,
            Dict.get d (clientes g')
            = if Str.truthy d && referenciado g d
              then Dict.get d (clientes g) else None).
  { intros d. rewrite Hc. reflexivity. }
  split; [|split; [exact Ht|split; [exact Hw|split; [exact Hget|]]]].
  - unfold recargar_csv.
    change (csv_file (state_of (dump_to_csv g)))
      with (Some (map (fun t => writerow (fila g t))
                    (Dict.values (turnos g)))).
    rewrite load_from_csv_leidas by exact Hlim. rewrite leidas_written.
    unfold Dict.values. rewrite map_map. exact E.
  - intros t d Hin Hd Hne.
    unfold Dict.values in Hin. apply in_map_iff in Hin.
    destruct Hin as ([k t'] & Heq & Hin). simpl in Heq. subst t'.
    destruct (Hfiel k t Hin)
      as (d' & ds & sv & es & no & n & tel & -> & Hcl & _).
    simpl in Hd. inversion Hd; subst d'.
    exists (mkCliente (VStr d) (VStr n) (VStr tel)).
    split.
    + rewrite Hget, <- Hcl.
      assert (Htr : Str.truthy d = true) by (destruct d; simpl; congruence).
      assert (Href : referenciado g d = true).
      { apply existsb_exists.
        exists (mkTurno (VStr k) (VStr d) (VStr ds) (VStr sv) (VStr es)
                  (VStr no)).
        split; [exact (in_map snd _ _ Hin)|].
        simpl. apply String.eqb_refl. }
      now rewrite Htr, Href.
    + unfold fila, clientes_get. simpl cliente_dni. cbv iota.
      rewrite Hcl. split; reflexivity.
Qed.

End IdaYVuelta.

Section IdaYVueltaRuns.

#[local] Existing Instance Canonical.lib.

Lemma csv_round_trip_witness :
  exists g',
    recargar_csv Ejemplo.g2 = Returned tt g'
    /\ turnos g' = turnos Ejemplo.g2
    /\ Dict.get "111" (clientes g') = Dict.get "111" (clientes Ejemplo.g2).
Proof.
  destruct (@csv_round_trip Canonical.lib
              [Ejemplo.ana; Ejemplo.corte; Ejemplo.color])
    as (g' & E & Ht & _ & Hc & _).
  - vm_compute. split; repeat constructor.
  - apply en_limite_forallb. vm_compute. reflexivity.
  - exists g'. split; [exact E|]. split; [exact Ht|]. exact (Hc "111").
Defined.

(** C6 as stated fails, twice.  A client registered under the empty id
    and referred to by an appointment is not in the client map loaded
    back, which is empty; and a service with a carriage return inside
    comes back with a line feed in its place, so the appointment map
    loaded back is not the one written. *)
Lemma csv_round_trip_counterexample :
  (Ejemplo.g_sin_dni
   = run_ops [Register "  " "Ana Gomez" "555-0101";
              Book "" "2024-03-01 10:00" "Cut" "" "id-1"] vacio
   /\ referenciado Ejemplo.g_sin_dni "" = true
   /\ Dict.get "" (clientes Ejemplo.g_sin_dni) <> None
   /\ exists g',
        recargar_csv Ejemplo.g_sin_dni = Returned tt g'
        /\ clientes g' = [])
  /\ (Ejemplo.g_con_cr
      = run_ops [Ejemplo.ana;
                 Book "111" "2024-03-01 10:00"
                   ("wash" ++ String Str.CR "dry") "" "id-1"] vacio
      /\ exists g',
           recargar_csv Ejemplo.g_con_cr = Returned tt g'
           /\ turnos g' <> turnos Ejemplo.g_con_cr).
Proof.
  split; (split; [reflexivity|]).
  - split; [reflexivity|]. split; [discriminate|].
    eexists. split; reflexivity.
  - eexists. split; [reflexivity|]. discriminate.
Qed.

End IdaYVueltaRuns.

(** * Further properties of the manager *)

(** ** A call that raises changes nothing *)

Section Atomicidad.

Context `{DateTimeLib}.

Lemma datetime_obj_state t g o :
  datetime_obj t g = o -> state_of o = g.
Proof.
  intros <-. unfold datetime_obj.
  destruct (datetime_str t); [reflexivity|].
  now destruct (strptime s DATETIME_FORMAT).
Qed.

Lemma listar_loop_state c f e ts g :
  state_of (listar_loop c f e ts g) = g.
Proof.
  induction ts as [|t ts IH]; simpl; [reflexivity|].
  assert (Happ : state_of
                   ((results <- listar_loop c f e ts ;; ret (t :: results)) g)
                 = g).
  { unfold bind. destruct (listar_loop c f e ts g) eqn:E; simpl in *; auto. }
  destruct (excluye e (estado t)); [exact IH|].
  destruct (excluye c (cliente_dni t)); [exact IH|].
  destruct f as [f|]; [|exact Happ].
  destruct (Str.truthy f); [|exact Happ].
  destruct (strptime f DATE_FORMAT) as [d|]; [|reflexivity].
  unfold bind at 1.
  pose proof (datetime_obj_state t g _ eq_refl) as Hd.
  destruct (datetime_obj t g) as [dt g'|e' g']; simpl in Hd; subst g';
    [|reflexivity].
  match goal with
  | |- context [if ?b then _ else _] => destruct b
  end; [exact IH|exact Happ].
Qed.

Lemma comprehension_keys_state ts g :
  state_of (comprehension (fun x => k <- datetime_obj x ;; ret (k, x)) ts g)
  = g.
Proof.
  induction ts as [|t ts IH]; simpl; [reflexivity|].
  unfold bind at 1, bind at 1.
  pose proof (datetime_obj_state t g _ eq_refl) as Hd.
  destruct (datetime_obj t g) as [dt g'|e' g']; simpl in Hd; subst g';
    [|reflexivity].
  unfold ret at 1. unfold bind at 1.
  destruct (comprehension _ ts g) as [keyed g'|e' g']; simpl in *; auto.
Qed.

(** [listar_turnos] reads the manager and never writes it, whether it
    returns or raises. *)
Lemma listar_turnos_state c f e g : state_of (listar_turnos c f e g) = g.
Proof.
  unfold listar_turnos, bind at 1, self. unfold bind at 1.
  pose proof (listar_loop_state c f e (Dict.values (turnos g)) g) as Hl.
  destruct (listar_loop c f e (Dict.values (turnos g)) g)
    as [results g'|e' g']; simpl in Hl; subst g'; [|reflexivity].
  unfold bind at 1.
  pose proof (comprehension_keys_state results g) as Hc.
  destruct (comprehension _ results g) as [keyed g'|e' g']; simpl in *; auto.
Qed.

(** The five operations make their checks before their first change:
    where one of them raises an error of its own (a duplicate client, an
    unknown client, a timestamp that does not parse, a slot that is
    taken, an appointment that is not found), the manager, its maps and
    its two files, is exactly as it was.  A listing leaves it so whether
    it returns or raises. *)
Theorem operacion_fallida_no_cambia :
  forall g,
    (forall d n t, sin_cambio (registrar_cliente d n t g) g)
    /\ (forall d ts s n u, sin_cambio (solicitar_turno d ts s n u g) g)
    /\ (forall k nd ns nn, sin_cambio (modificar_turno k nd ns nn g) g)
    /\ (forall k, sin_cambio (cancelar_turno k g) g)
    /\ (forall k, sin_cambio (marcar_realizado k g) g)
    /\ (forall c f es, state_of (listar_turnos c f es g) = g).
Proof.
  intros g.
  split; [|split; [|split; [|split; [|split]]]].
  - intros d n t.
    destruct (registrar_cliente_cases g d n t)
      as [[_ E']|[_ (g1 & E' & _)]]; rewrite E'; cbn; auto.
  - intros d ts s n u.
    destruct (solicitar_turno_cases g d ts s n u)
      as [[e' E']|(dt & g1 & _ & _ & _ & E' & _)]; rewrite E'; cbn; auto.
  - intros k nd ns nn.
    destruct (modificar_turno_cases g k nd ns nn)
      as [[e' E']|(t & t1 & g1 & _ & _ & E' & _)]; rewrite E'; cbn; auto.
  - intros k. unfold cancelar_turno.
    destruct (set_estado_cases g k cancelado)
      as [[_ E']|(t & g1 & _ & E' & _)]; rewrite E'; cbn; auto.
  - intros k. unfold marcar_realizado.
    destruct (set_estado_cases g k realizado)
      as [[_ E']|(t & g1 & _ & E' & _)]; rewrite E'; cbn; auto.
  - intros c f es. apply listar_turnos_state.
Qed.

End Atomicidad.

Section AtomicidadRuns.

#[local] Existing Instance Canonical.lib.

Lemma operacion_fallida_no_cambia_witness :
  registrar_cliente " 111 " "Ana" "" Ejemplo.g1
  = Raised DuplicateClient Ejemplo.g1
  /\ propio DuplicateClient
  /\ state_of (registrar_cliente " 111 " "Ana" "" Ejemplo.g1) = Ejemplo.g1.
Proof.
  split; [reflexivity|]. split; [now left|].
  exact (proj1 (@operacion_fallida_no_cambia Canonical.lib Ejemplo.g1)
           " 111 " "Ana" "" (or_introl eq_refl)).
Defined.

End AtomicidadRuns.

(** ** The files after a call that returns *)

Section Archivos.

Context `{DateTimeLib}.

(** The snapshot on disk is the one [dump_to_dict] would write now. *)
Lemma registrar_cliente_archivos g d n t c g' :
  registrar_cliente d n t g = Returned c g' ->
  dict_file g' = dict_file (state_of (dump_to_dict g'))
  /\ csv_file g' = csv_file g.
Proof.
  unfold registrar_cliente, bind, self.
  destruct (Dict.mem (Str.strip d) (clientes g)); [discriminate|].
  intros E. inversion E; subst. split; reflexivity.
Qed.

(** Both files on disk are the ones the two dumps would write now. *)
Lemma solicitar_turno_archivos g d ts s n u t g' :
  solicitar_turno d ts s n u g = Returned t g' ->
  dict_file g' = dict_file (state_of (dump_to_dict g'))
  /\ csv_file g' = csv_file (state_of (dump_to_csv g')).
Proof.
  unfold solicitar_turno, bind, self.
  destruct (negb (Dict.mem d (clientes g))); [discriminate|].
  destruct (strptime ts DATETIME_FORMAT); [|discriminate].
  destruct (existsb _ _); [discriminate|].
  intros E. inversion E; subst. split; reflexivity.
Qed.

Lemma modificar_turno_archivos g k nd ns nn t g' :
  modificar_turno k nd ns nn g = Returned t g' ->
  dict_file g' = dict_file (state_of (dump_to_dict g'))
  /\ csv_file g' = csv_file (state_of (dump_to_csv g')).
Proof.
  unfold modificar_turno, bind at 1, self.
  destruct (Dict.get k (turnos g)) as [t0|]; [|discriminate].
  unfold bind at 1.
  destruct (mover_cases g t0 nd)
    as [[e E]|[E|(s & dt & _ & _ & _ & _ & E)]]; rewrite E;
    [discriminate| |];
    unfold bind, assign, dump_to_dict, dump_to_csv, self;
    intros Hr; inversion Hr; subst; split; reflexivity.
Qed.

Lemma set_estado_archivos g k e t g' :
  set_estado k e g = Returned t g' ->
  dict_file g' = dict_file (state_of (dump_to_dict g'))
  /\ csv_file g' = csv_file (state_of (dump_to_csv g')).
Proof.
  unfold set_estado, bind, self.
  destruct (Dict.get k (turnos g)) as [t0|]; [|discriminate].
  intros E. inversion E; subst. split; reflexivity.
Qed.

End Archivos.

(** ** The files follow the memory *)

Lemma dump_to_csv_rows g :
  csv_file (state_of (dump_to_csv g))
  = Some (map (fun t => writerow (fila g t)) (Dict.values (turnos g))).
Proof. reflexivity. Qed.

Lemma dump_to_dict_csv_file g :
  csv_file (state_of (dump_to_dict g)) = csv_file g.
Proof. reflexivity. Qed.

(** Registering a new client changes no row of the export: every
    appointment refers to a client that was there before. *)
Lemma fila_registrar g g' d c :
  consistente g ->
  Dict.mem d (clientes g) = false ->
  clientes g' = Dict.set d c (clientes g) ->
  turnos g' = turnos g ->
  map (fun t => writerow (fila g' t)) (Dict.values (turnos g'))
  = map (fun t => writerow (fila g t)) (Dict.values (turnos g)).
Proof.
  intros (_ & _ & _ & Ot & _) Hm Hc Ht. rewrite Ht.
  apply map_ext_in. intros t Hin.
  unfold Dict.values in Hin. apply in_map_iff in Hin.
  destruct Hin as ([k t'] & Heq & Hin). simpl in Heq. subst t'.
  destruct (Ot k t Hin) as (_ & (d0 & Hd0 & Hm0) & _).
  unfold fila, clientes_get. rewrite Hd0, Hc.
  rewrite DictFacts.get_set_other; [reflexivity|].
  intros ->. congruence.
Qed.

Section AlDia.

Context `{DateTimeLib}.

Lemma al_dia_run_op o g :
  consistente g ->
  (g = vacio \/ snapshot_al_dia g) ->
  ((csv_file g = None /\ turnos g = []) \/ export_al_dia g) ->
  (run_op o g = vacio \/ snapshot_al_dia (run_op o g))
  /\ ((csv_file (run_op o g) = None /\ turnos (run_op o g) = [])
      \/ export_al_dia (run_op o g)).
Proof.
  intros Hg Hs Hx.
  assert (Hset : forall k e,
            (state_of (set_estado k e g) = vacio
             \/ snapshot_al_dia (state_of (set_estado k e g)))
            /\ ((csv_file (state_of (set_estado k e g)) = None
                 /\ turnos (state_of (set_estado k e g)) = [])
                \/ export_al_dia (state_of (set_estado k e g)))).
  { intros k e. destruct (set_estado k e g) as [t g'|e' g'] eqn:E.
    - destruct (set_estado_archivos g k e t g' E). simpl. auto.
    - destruct (set_estado_cases g k e)
        as [[_ E']|(t & g1 & _ & E' & _)]; rewrite E' in E;
        inversion E; subst. simpl. auto. }
  destruct o as [d n t|d ts s n u|k nd ns nn|k|k]; simpl.
  - destruct (registrar_cliente_cases g d n t)
      as [[_ E]|[Hm (g' & E & Hc & Ht & Hcsv)]]; rewrite E; simpl; [auto|].
    destruct (registrar_cliente_archivos g d n t _ g' E) as [Hd _].
    split; [now right|].
    destruct Hx as [[Hn He]|Hx].
    + left. split; congruence.
    + right. unfold export_al_dia in *.
      rewrite dump_to_csv_rows in *. rewrite Hcsv, Hx. f_equal.
      symmetry. eapply fila_registrar; eauto.
  - destruct (solicitar_turno d ts s n u g) as [t g'|e g'] eqn:E.
    + destruct (solicitar_turno_archivos g d ts s n u t g' E). simpl. auto.
    + destruct (solicitar_turno_cases g d ts s n u)
        as [[e' E']|(dt & g1 & _ & _ & _ & E' & _)]; rewrite E' in E;
        inversion E; subst. simpl. auto.
  - destruct (modificar_turno k nd ns nn g) as [t g'|e g'] eqn:E.
    + destruct (modificar_turno_archivos g k nd ns nn t g' E). simpl. auto.
    + destruct (modificar_turno_cases g k nd ns nn)
        as [[e' E']|(t & t1 & g1 & _ & _ & E' & _)]; rewrite E' in E;
        inversion E; subst. simpl. auto.
  - apply Hset.
  - apply Hset.
Qed.

Lemma al_dia_run_ops ops g :
  consistente g ->
  (g = vacio \/ snapshot_al_dia g) ->
  ((csv_file g = None /\ turnos g = []) \/ export_al_dia g) ->
  (run_ops ops g = vacio \/ snapshot_al_dia (run_ops ops g))
  /\ ((csv_file (run_ops ops g) = None /\ turnos (run_ops ops g) = [])
      \/ export_al_dia (run_ops ops g)).
Proof.
  revert g. induction ops as [|o ops IH]; intros g Hg Hs Hx; simpl; [auto|].
  destruct (al_dia_run_op o g Hg Hs Hx) as [Hs' Hx'].
  apply IH; auto. now apply consistente_run_op.
Qed.

(** After any sequence of operations from the empty manager the two
    files on disk are the ones the dumps would write from the memory now:
    the snapshot always (or nothing was ever written), and the row export
    too, or it does not exist yet and no appointment is stored.
    [registrar_cliente] does not rewrite the row export and does not need
    to. *)
Theorem archivos_al_dia :
  forall ops,
    (run_ops ops vacio = vacio \/ snapshot_al_dia (run_ops ops vacio))
    /\ ((csv_file (run_ops ops vacio) = None
         /\ turnos (run_ops ops vacio) = [])
        \/ export_al_dia (run_ops ops vacio)).
Proof.
  intros ops. apply al_dia_run_ops.
  - apply consistente_vacio.
  - now left.
  - left. split; reflexivity.
Qed.

(** A manager constructed on the files that any sequence of operations
    from the empty manager has left holds the same client map and the
    same appointment map, and the construction prints no warning. *)
Theorem reinicio_conserva :
  forall ops,
    let g := run_ops ops vacio in
    clientes (fst (init (csv_file g) (dict_file g))) = clientes g
    /\ turnos (fst (init (csv_file g) (dict_file g))) = turnos g
    /\ snd (init (csv_file g) (dict_file g)) = [].
Proof.
  intros ops g.
  destruct (consistente_run_ops ops vacio consistente_vacio)
    as (Wc & Wt & _).
  destruct (al_dia_run_ops ops vacio consistente_vacio (or_introl eq_refl)
              (or_introl (conj eq_refl eq_refl))) as [[E|Hs] _].
  - unfold g. rewrite E. repeat split.
  - fold g in Wc, Wt, Hs.
    pose proof (load_from_dict_dumped g Dict.empty Dict.empty Wc Wt) as Hl.
    cbv zeta in Hl. rewrite dump_to_dict_csv_file in Hl.
    unfold snapshot_al_dia in Hs. rewrite <- Hs in Hl.
    destruct (dump_to_dict_returns g) as [data E].
    assert (Hd : dict_file g = Some data) by (rewrite Hs, E; reflexivity).
    rewrite Hd in *.
    destruct (init_dict _ _ _ Hl) as (f1 & f2 & Ei).
    rewrite Ei. repeat split.
Qed.

End AlDia.

(** ** What every reachable state satisfies, and what is never lost *)

Section Permanencia.

Context `{DateTimeLib}.

(** In every state the operations reach from the empty manager, an
    appointment is stored under its own id, refers to a client that is
    registered, has one of the three statuses, and has its service and
    its notes trimmed. *)
Theorem integridad_referencial :
  forall ops k t,
    In (k, t) (turnos (run_ops ops vacio)) ->
    id t = VStr k
    /\ (exists d c,
          cliente_dni t = VStr d
          /\ Dict.get d (clientes (run_ops ops vacio)) = Some c
          /\ dni c = VStr d)
    /\ (estado t = activo \/ estado t = cancelado \/ estado t = realizado)
    /\ recortado (servicio t)
    /\ recortado (notas t).
Proof.
  intros ops k t Hin.
  destruct (consistente_run_ops ops vacio consistente_vacio)
    as (_ & _ & Oc & Ot & _).
  destruct (Ot k t Hin) as (Hid & (d & Hd & Hm) & _ & Hsv & Hes & Hno).
  split; [exact Hid|]. split; [|auto].
  unfold Dict.mem in Hm.
  destruct (Dict.get d (clientes (run_ops ops vacio))) as [c|] eqn:Eg;
    [|discriminate].
  exists d, c. repeat split; auto.
  apply DictFacts.get_In in Eg. now destruct (Oc d c Eg).
Qed.

Lemma clientes_run_op o g d c :
  Dict.get d (clientes g) = Some c ->
  Dict.get d (clientes (run_op o g)) = Some c.
Proof.
  intros Hget.
  destruct o as [d' n t|d' ts s n u|k nd ns nn|k|k]; simpl.
  - destruct (registrar_cliente_cases g d' n t)
      as [[_ E]|[Hm (g' & E & Hc & _)]]; rewrite E; simpl; [exact Hget|].
    rewrite Hc, DictFacts.get_set_other; [exact Hget|].
    intros ->. unfold Dict.mem in Hm. now rewrite Hget in Hm.
  - destruct (solicitar_turno_cases g d' ts s n u)
      as [[e E]|(dt & g' & _ & _ & _ & E & Hc & _)]; rewrite E; simpl;
      [|rewrite Hc]; exact Hget.
  - destruct (modificar_turno_cases g k nd ns nn)
      as [[e E]|(t & t1 & g' & _ & _ & E & Hc & _)]; rewrite E; simpl;
      [|rewrite Hc]; exact Hget.
  - unfold cancelar_turno. destruct (set_estado_cases g k cancelado)
      as [[_ E]|(t & g' & _ & E & Hc & _)]; rewrite E; simpl;
      [|rewrite Hc]; exact Hget.
  - unfold marcar_realizado. destruct (set_estado_cases g k realizado)
      as [[_ E]|(t & g' & _ & E & Hc & _)]; rewrite E; simpl;
      [|rewrite Hc]; exact Hget.
Qed.

Lemma mover_identidad g t nd t1 :
  mover g t nd g = Returned t1 g ->
  id t1 = id t /\ cliente_dni t1 = cliente_dni t.
Proof.
  destruct (mover_cases g t nd)
    as [[e E]|[E|(s & dt & _ & _ & _ & _ & E)]];
    rewrite E; intros Heq; inversion Heq; split; reflexivity.
Qed.

Lemma turnos_run_op o g k t :
  no_reusa k o ->
  Dict.get k (turnos g) = Some t ->
  exists t',
    Dict.get k (turnos (run_op o g)) = Some t'
    /\ id t' = id t /\ cliente_dni t' = cliente_dni t.
Proof.
  intros Hfresh Hget.
  assert (Hset : forall k0 e,
            exists t',
              Dict.get k (turnos (state_of (set_estado k0 e g))) = Some t'
              /\ id t' = id t /\ cliente_dni t' = cliente_dni t).
  { intros k0 e.
    destruct (set_estado_cases g k0 e)
      as [[_ E]|(t0 & g' & Hg0 & E & _ & Ht)]; rewrite E; simpl.
    - exists t. auto.
    - rewrite Ht, DictFacts.get_set.
      destruct (String.eqb_spec k k0) as [->|Hk].
      + eexists. split; [reflexivity|].
        assert (t0 = t) by congruence. subst. auto.
      + exists t. auto. }
  destruct o as [d n tl|d ts s n u|k0 nd ns nn|k0|k0]; simpl in *.
  - destruct (registrar_cliente_cases g d n tl)
      as [[_ E]|[_ (g' & E & _ & Ht & _)]]; rewrite E; simpl.
    + exists t. auto.
    + rewrite Ht. exists t. auto.
  - destruct (solicitar_turno_cases g d ts s n u)
      as [[e E]|(dt & g' & _ & _ & _ & E & _ & Ht)]; rewrite E; simpl.
    + exists t. auto.
    + rewrite Ht, DictFacts.get_set_other by congruence. exists t. auto.
  - destruct (modificar_turno_cases g k0 nd ns nn)
      as [[e E]|(t0 & t1 & g' & Hg0 & Hmv & E & _ & Ht)]; rewrite E; simpl.
    + exists t. auto.
    + rewrite Ht, DictFacts.get_set.
      destruct (String.eqb_spec k k0) as [->|Hk].
      * eexists. split; [reflexivity|]. simpl.
        assert (t0 = t) by congruence. subst.
        now apply mover_identidad in Hmv.
      * exists t. auto.
  - apply Hset.
  - apply Hset.
Qed.

(** No operation deletes or alters a client, and none deletes an
    appointment or changes its id or its client: through any sequence of
    operations a stored client stays stored as it is, and a stored
    appointment (no booking drawing its id again) stays stored under its
    id with the id and the client id it had. *)
Theorem nada_se_borra :
  forall ops g,
    (forall d c,
       Dict.get d (clientes g) = Some c ->
       Dict.get d (clientes (run_ops ops g)) = Some c)
    /\ (forall k t,
          Forall (no_reusa k) ops ->
          Dict.get k (turnos g) = Some t ->
          exists t',
            Dict.get k (turnos (run_ops ops g)) = Some t'
            /\ id t' = id t /\ cliente_dni t' = cliente_dni t).
Proof.
  induction ops as [|o ops IH]; intros g; simpl.
  - split; [auto|]. intros k t _ Hget. exists t. auto.
  - destruct (IH (run_op o g)) as [IHc IHt]. split.
    + intros d c Hget. apply IHc. now apply clientes_run_op.
    + intros k t Hf Hget. inversion Hf as [|? ? Ho Hops]; subst.
      destruct (turnos_run_op o g k t Ho Hget) as (t1 & Hg1 & Hi1 & Hc1).
      destruct (IHt k t1 Hops Hg1) as (t' & Hg' & Hi' & Hc').
      exists t'. repeat split; congruence.
Qed.

End Permanencia.

Section PermanenciaRuns.

#[local] Existing Instance Canonical.lib.

Lemma integridad_referencial_witness :
  id (mkTurno (VStr "id-2") (VStr "111") (VStr "2024-03-01 11:00")
        (VStr "Color") activo (VStr "")) = VStr "id-2"
  /\ exists d c,
       VStr "111" = VStr d
       /\ Dict.get d (clientes Ejemplo.g2) = Some c
       /\ dni c = VStr d.
Proof.
  destruct (@integridad_referencial Canonical.lib
              [Ejemplo.ana; Ejemplo.corte; Ejemplo.color] "id-2"
              (mkTurno (VStr "id-2") (VStr "111") (VStr "2024-03-01 11:00")
                 (VStr "Color") activo (VStr "")))
    as (Hid & Hc & _).
  - vm_compute. right. left. reflexivity.
  - split; [exact Hid|exact Hc].
Defined.

Lemma nada_se_borra_witness :
  Dict.get "111"
    (clientes (run_ops [Cancel "id-1"; Ejemplo.color] Ejemplo.g1))
  = Dict.get "111" (clientes Ejemplo.g1)
  /\ exists t',
       Dict.get "id-1"
         (turnos (run_ops [Cancel "id-1"; Ejemplo.color] Ejemplo.g1))
       = Some t'
       /\ id t' = VStr "id-1" /\ cliente_dni t' = VStr "111".
Proof.
  destruct (@nada_se_borra Canonical.lib [Cancel "id-1"; Ejemplo.color]
              Ejemplo.g1) as [Hc Ht].
  split.
  - exact (Hc "111" (mkCliente (VStr "111") (VStr "Ana Gomez")
                       (VStr "555-0101")) eq_refl).
  - refine (Ht "id-1"
              (mkTurno (VStr "id-1") (VStr "111") (VStr "2024-03-01 10:00")
                 (VStr "Cut") activo (VStr "")) _ eq_refl).
    repeat constructor; simpl; discriminate.
Defined.

End PermanenciaRuns.

(** ** Freed slots, own slots, repeated status changes *)

Lemma Dict_set_same {V} k (v : V) d :
  Dict.get k d = Some v -> Dict.set k v d = d.
Proof.
  induction d as [|[k0 v0] d IH]; simpl; [discriminate|].
  destruct (String.eqb_spec k k0) as [->|Hk].
  - intros E. inversion E. reflexivity.
  - intros E. now rewrite IH.
Qed.

Lemma Dict_set_set {V} k (v v' : V) d :
  Dict.set k v (Dict.set k v' d) = Dict.set k v d.
Proof.
  induction d as [|[k0 v0] d IH]; simpl.
  - now rewrite String.eqb_refl.
  - destruct (String.eqb_spec k k0) as [->|Hk]; simpl.
    + now rewrite String.eqb_refl.
    + destruct (String.eqb_spec k k0); [contradiction|]. now rewrite IH.
Qed.

Lemma Dict_keys_set_present {V} k (v v0 : V) d :
  Dict.get k d = Some v0 -> Dict.keys (Dict.set k v d) = Dict.keys d.
Proof.
  intros E. rewrite DictFacts.keys_set. unfold Dict.mem. now rewrite E.
Qed.

(** An appointment found among the values is stored under some key. *)
Lemma In_values_get {V} (v : V) d :
  Dict.wf d -> In v (Dict.values d) -> exists k, Dict.get k d = Some v.
Proof.
  intros Hwf Hin. unfold Dict.values in Hin. apply in_map_iff in Hin.
  destruct Hin as ([k v'] & E & Hin). simpl in E. subst v'.
  exists k. now apply DictFacts.In_get.
Qed.

Section Horarios.

Context `{DateTimeLib}.

Lemma solicitar_turno_returns g d ts s n u dt :
  Dict.mem d (clientes g) = true ->
  strptime ts DATETIME_FORMAT = Some dt ->
  existsb (activo_en (strftime dt DATETIME_FORMAT)) (Dict.values (turnos g))
  = false ->
  exists g',
    solicitar_turno d ts s n u g
    = Returned
        (mkTurno (VStr u) (VStr d) (VStr (strftime dt DATETIME_FORMAT))
           (VStr (Str.strip s)) activo (VStr (Str.strip n))) g'
    /\ clientes g' = clientes g
    /\ turnos g'
       = Dict.set u
           (mkTurno (VStr u) (VStr d) (VStr (strftime dt DATETIME_FORMAT))
              (VStr (Str.strip s)) activo (VStr (Str.strip n)))
           (turnos g).
Proof.
  intros Hm Hp Hx.
  destruct (solicitar_turno_cases g d ts s n u)
    as [[e E]|(dt' & g' & _ & Hp' & _ & E & Hc & Ht)].
  - exfalso. revert E. unfold solicitar_turno, bind, self.
    rewrite Hm, Hp. simpl. rewrite Hx. discriminate.
  - assert (dt' = dt) by congruence. subst dt'.
    exists g'. simpl in *. auto.
Qed.

(** Once the appointment under [k] is no longer active, no active
    appointment holds the slot it held. *)
Lemma slot_libre_tras_estado g k t e slot g1 t1 :
  consistente g ->
  Dict.get k (turnos g) = Some t ->
  estado t = activo ->
  datetime_str t = VStr slot ->
  e <> activo ->
  set_estado k e g = Returned t1 g1 ->
  existsb (activo_en slot) (Dict.values (turnos g1)) = false.
Proof.
  intros (Wc & Wt & _ & _ & Sl) Hget Ha Hs He E.
  destruct (set_estado_cases g k e)
    as [[_ E']|(t0 & g' & Hg0 & E' & _ & Ht)]; rewrite E' in E;
    inversion E; subst; clear E.
  destruct (existsb (activo_en slot) (Dict.values (turnos g1))) eqn:Ex;
    [exfalso|reflexivity].
  apply existsb_exists in Ex. destruct Ex as (t2 & Hin & Hact).
  apply activo_en_true in Hact. destruct Hact as [Ha2 Hs2].
  assert (Wt1 : Dict.wf (turnos g1))
    by (rewrite Ht; now apply DictFacts.wf_set).
  destruct (In_values_get t2 (turnos g1) Wt1 Hin) as [k2 Hg2].
  rewrite Ht, DictFacts.get_set in Hg2.
  destruct (String.eqb_spec k2 k) as [Heq|Hk].
  - inversion Hg2; subst. simpl in Ha2. contradiction.
  - apply (Sl k2 k t2 t Hk Hg2 Hget Ha2 Ha). congruence.
Qed.

(** In a reachable state, once an active appointment is cancelled or
    marked as done, its slot can be booked again: [solicitar_turno] for a
    registered client and a timestamp that parses to that slot returns a
    new active appointment at the slot. *)
Theorem slot_liberado :
  forall ops k t d ts s n u dt,
    let g := run_ops ops vacio in
    Dict.get k (turnos g) = Some t ->
    estado t = activo ->
    strptime ts DATETIME_FORMAT = Some dt ->
    datetime_str t = VStr (strftime dt DATETIME_FORMAT) ->
    Dict.mem d (clientes g) = true ->
    (exists tn g',
       solicitar_turno d ts s n u (state_of (cancelar_turno k g))
       = Returned tn g'
       /\ estado tn = activo /\ datetime_str tn = datetime_str t)
    /\ (exists tn g',
          solicitar_turno d ts s n u (state_of (marcar_realizado k g))
          = Returned tn g'
          /\ estado tn = activo /\ datetime_str tn = datetime_str t).
Proof.
  intros ops k t d ts s n u dt g Hget Ha Hp Hs Hm.
  pose proof (consistente_run_ops ops vacio consistente_vacio) as Hg.
  fold g in Hg.
  assert (Hboth : forall e,
            e <> activo ->
            exists tn g',
              solicitar_turno d ts s n u (state_of (set_estado k e g))
              = Returned tn g'
              /\ estado tn = activo /\ datetime_str tn = datetime_str t).
  { intros e He.
    destruct (set_estado_cases g k e)
      as [[E _]|(t0 & g1 & _ & E & Hc & Ht)]; [congruence|].
    pose proof (slot_libre_tras_estado g k t e _ g1 _ Hg Hget Ha Hs He E)
      as Hx.
    rewrite E. simpl state_of.
    destruct (solicitar_turno_returns g1 d ts s n u dt) as (g' & E' & _);
      [now rewrite Hc|exact Hp|exact Hx|].
    eexists. exists g'. split; [exact E'|]. simpl. now rewrite Hs. }
  split; [apply (Hboth cancelado)|apply (Hboth realizado)]; discriminate.
Qed.

(** In a reachable state, rescheduling an active appointment to the
    timestamp it already has is accepted (the conflict check leaves the
    appointment itself out) and leaves both maps as they were. *)
Theorem reprogramar_mismo_horario :
  forall ops k t ts dt,
    let g := run_ops ops vacio in
    Dict.get k (turnos g) = Some t ->
    estado t = activo ->
    Str.truthy ts = true ->
    strptime ts DATETIME_FORMAT = Some dt ->
    datetime_str t = VStr (strftime dt DATETIME_FORMAT) ->
    exists g',
      modificar_turno k (Some ts) None None g = Returned t g'
      /\ clientes g' = clientes g
      /\ turnos g' = turnos g.
Proof.
  intros ops k t ts dt g Hget Ha Htr Hp Hs.
  pose proof (consistente_run_ops ops vacio consistente_vacio) as Hg.
  fold g in Hg. destruct Hg as (Wc & Wt & _ & Ot & Sl).
  assert (Hx : existsb
                 (fun other =>
                    negb (value_eqb (id other) (id t))
                    && activo_en (strftime dt DATETIME_FORMAT) other)
                 (Dict.values (turnos g)) = false).
  { destruct (existsb _ _) eqn:Ex; [exfalso|reflexivity].
    apply existsb_exists in Ex. destruct Ex as (t2 & Hin & Hb).
    apply andb_true_iff in Hb. destruct Hb as [Hne Hact].
    apply activo_en_true in Hact. destruct Hact as [Ha2 Hs2].
    destruct (In_values_get t2 (turnos g) Wt Hin) as [k2 Hg2].
    destruct (String.eqb_spec k2 k) as [->|Hk].
    - assert (t2 = t) by congruence. subst.
      now rewrite value_eqb_refl in Hne.
    - apply (Sl k2 k t2 t Hk Hg2 Hget Ha2 Ha). congruence. }
  assert (Hmv : mover g t (Some ts) g = Returned t g).
  { unfold mover. rewrite Htr, Hp, Hx. destruct t. simpl in *. now subst. }
  destruct (modificar_turno_cases g k (Some ts) None None)
    as [[e E]|(t0 & t1 & g' & Hg0 & Hmv' & E & Hc & Ht)].
  - exfalso. revert E. unfold modificar_turno, bind at 1, self.
    rewrite Hget. unfold bind at 1. rewrite Hmv.
    unfold bind, assign, dump_to_dict, dump_to_csv, self. discriminate.
  - assert (t0 = t) by congruence. subst t0.
    rewrite Hmv in Hmv'. inversion Hmv'; subst t1.
    assert (Hr : retocado t None None = t) by (destruct t; reflexivity).
    rewrite Hr in *. exists g'. split; [exact E|]. split; [exact Hc|].
    rewrite Ht. now apply Dict_set_same.
Qed.

(** Changing the status twice is changing it once, the second status
    winning: cancelling a cancelled appointment, or cancelling one marked
    as done, leaves the manager and its files exactly as one
    cancellation does; and so for [marcar_realizado].  On an id that is
    not stored both raise [NotFound]. *)
Theorem estado_ultimo_gana :
  forall g k,
    state_of (cancelar_turno k (state_of (cancelar_turno k g)))
    = state_of (cancelar_turno k g)
    /\ state_of (cancelar_turno k (state_of (marcar_realizado k g)))
       = state_of (cancelar_turno k g)
    /\ state_of (marcar_realizado k (state_of (marcar_realizado k g)))
       = state_of (marcar_realizado k g)
    /\ state_of (marcar_realizado k (state_of (cancelar_turno k g)))
       = state_of (marcar_realizado k g)
    /\ (Dict.get k (turnos g) = None ->
        cancelar_turno k g = Raised NotFound g
        /\ marcar_realizado k g = Raised NotFound g).
Proof.
  intros g k.
  assert (Htwice : forall e1 e2,
            state_of (set_estado k e2 (state_of (set_estado k e1 g)))
            = state_of (set_estado k e2 g)).
  { intros e1 e2. unfold set_estado, bind, self.
    destruct (Dict.get k (turnos g)) as [t|] eqn:Eg; simpl.
    - rewrite DictFacts.get_set_same. simpl.
      unfold set_turnos, set_dict_file, set_csv_file. simpl.
      rewrite !Dict_set_set. reflexivity.
    - now rewrite Eg. }
  split; [apply Htwice|]. split; [apply Htwice|].
  split; [apply Htwice|]. split; [apply Htwice|].
  intros Hnone. split.
  - unfold cancelar_turno, set_estado, bind, self. now rewrite Hnone.
  - unfold marcar_realizado, set_estado, bind, self. now rewrite Hnone.
Qed.

End Horarios.

Section HorariosRuns.

#[local] Existing Instance Canonical.lib.

Lemma slot_liberado_witness :
  exists tn g',
    solicitar_turno "111" "2024-03-01 10:00" "Shave" "" "id-3"
      (state_of (cancelar_turno "id-1"
                   (run_ops [Ejemplo.ana; Ejemplo.corte] vacio)))
    = Returned tn g'
    /\ estado tn = activo
    /\ datetime_str tn = VStr "2024-03-01 10:00".
Proof.
  refine (proj1 (@slot_liberado Canonical.lib [Ejemplo.ana; Ejemplo.corte]
                   "id-1"
                   (mkTurno (VStr "id-1") (VStr "111")
                      (VStr "2024-03-01 10:00") (VStr "Cut") activo (VStr ""))
                   "111" "2024-03-01 10:00" "Shave" "" "id-3"
                   (mkDatetime 2024 3 1 10 0) _ _ _ _ _)); reflexivity.
Defined.

Lemma reprogramar_mismo_horario_witness :
  exists g',
    modificar_turno "id-1" (Some "2024-03-01 10:00") None None
      (run_ops [Ejemplo.ana; Ejemplo.corte] vacio)
    = Returned
        (mkTurno (VStr "id-1") (VStr "111") (VStr "2024-03-01 10:00")
           (VStr "Cut") activo (VStr "")) g'
    /\ clientes g' = clientes (run_ops [Ejemplo.ana; Ejemplo.corte] vacio)
    /\ turnos g' = turnos (run_ops [Ejemplo.ana; Ejemplo.corte] vacio).
Proof.
  refine (@reprogramar_mismo_horario Canonical.lib
            [Ejemplo.ana; Ejemplo.corte] "id-1"
            (mkTurno (VStr "id-1") (VStr "111") (VStr "2024-03-01 10:00")
               (VStr "Cut") activo (VStr ""))
            "2024-03-01 10:00" (mkDatetime 2024 3 1 10 0) _ _ _ _ _);
    reflexivity.
Defined.

Lemma estado_ultimo_gana_witness :
  cancelar_turno "id-7" Ejemplo.g1 = Raised NotFound Ejemplo.g1
  /\ marcar_realizado "id-7" Ejemplo.g1 = Raised NotFound Ejemplo.g1.
Proof.
  refine (proj2 (proj2 (proj2 (proj2
            (estado_ultimo_gana Ejemplo.g1 "id-7")))) _).
  reflexivity.
Defined.

End HorariosRuns.

(** ** Listing with filters *)

Section ListadoFiltrado.

Context `{DateTimeLib}.

Lemma listar_loop_sin_fecha c f e ts g :
  f = None \/ f = Some "" ->
  listar_loop c f e ts g = Returned (filter (pasa c e) ts) g.
Proof.
  intros Hf. induction ts as [|t ts IH]; simpl; [reflexivity|].
  unfold pasa at 1.
  destruct (excluye e (estado t)); simpl; [exact IH|].
  destruct (excluye c (cliente_dni t)); simpl; [exact IH|].
  destruct Hf as [-> | ->]; simpl; unfold bind; now rewrite IH.
Qed.

Lemma listar_loop_con_fecha c s d e ts g :
  Str.truthy s = true ->
  strptime s DATE_FORMAT = Some d ->
  Forall (fun t => pasa c e t = true -> scheduledAt t <> None) ts ->
  listar_loop c (Some s) e ts g
  = Returned (filter (fun t => pasa c e t && en_fecha d t) ts) g.
Proof.
  intros Hs Hp Hts. induction Hts as [|t ts Ht _ IH]; [reflexivity|].
  cbn [listar_loop filter]. unfold pasa at 1 in Ht. unfold pasa at 1.
  destruct (excluye e (estado t)); cbn [negb andb]; [exact IH|].
  destruct (excluye c (cliente_dni t)); cbn [negb andb]; [exact IH|].
  rewrite Hs, Hp. cbn [negb andb] in Ht. unfold en_fecha at 1.
  destruct (scheduledAt t) as [dt|] eqn:Ed; [|now destruct Ht].
  unfold bind at 1. rewrite (datetime_obj_scheduledAt t dt g Ed).
  destruct (date_eqb (date dt) (date d)); cbn [negb]; [|exact IH].
  unfold bind. now rewrite IH.
Qed.

(** What [listar_turnos] returns once its loop has selected [sel]. *)
Lemma listar_turnos_seleccion c f e g sel :
  listar_loop c f e (Dict.values (turnos g)) g = Returned sel g ->
  Forall (fun t => scheduledAt t <> None) sel ->
  exists l,
    listar_turnos c f e g = Returned l g
    /\ Permutation l sel
    /\ StronglySorted no_despues l.
Proof.
  intros Hloop Hparse.
  destruct (keys_computed sel g Hparse) as (keyed & E & Hm & Hk).
  exists (map snd (sort_by_key keyed)).
  split; [|split].
  - unfold listar_turnos, bind at 1, self. unfold bind at 1.
    rewrite Hloop. unfold bind at 1. now rewrite E.
  - rewrite <- Hm. apply Permutation_map. apply sort_by_key_perm.
  - apply sorted_no_despues; [|apply sort_by_key_sorted].
    apply (Permutation_Forall (Permutation_sym (sort_by_key_perm keyed))).
    exact Hk.
Qed.

(** [listar_turnos] returns exactly the stored appointments that pass
    its filters, each once, in ascending order of timestamp; nothing
    that matches is an empty list and no error.  Without date filter
    ([None] or the empty string) these are the appointments whose status
    and client equal the filters given; with a date that parses, those
    among them scheduled on that day.  Only the timestamps of the
    appointments that pass the status and client filters need to
    parse. *)
Theorem listar_turnos_filtra :
  forall g c e,
    Forall (fun t => pasa c e t = true -> scheduledAt t <> None)
      (Dict.values (turnos g)) ->
    (forall f,
       f = None \/ f = Some "" ->
       exists l,
         listar_turnos c f e g = Returned l g
         /\ Permutation l (filter (pasa c e) (Dict.values (turnos g)))
         /\ StronglySorted no_despues l)
    /\ (forall s d,
          Str.truthy s = true ->
          strptime s DATE_FORMAT = Some d ->
          exists l,
            listar_turnos c (Some s) e g = Returned l g
            /\ Permutation l
                 (filter (fun t => pasa c e t && en_fecha d t)
                    (Dict.values (turnos g)))
            /\ StronglySorted no_despues l).
Proof.
  intros g c e Hparse. split.
  - intros f Hf. apply listar_turnos_seleccion.
    + now apply listar_loop_sin_fecha.
    + rewrite Forall_forall in *. intros t Hin.
      apply filter_In in Hin. destruct Hin as [Hin Hp]. now apply Hparse.
  - intros s d Hs Hp. apply listar_turnos_seleccion.
    + now apply listar_loop_con_fecha.
    + rewrite Forall_forall in *. intros t Hin.
      apply filter_In in Hin. destruct Hin as [Hin Hb].
      apply andb_true_iff in Hb. destruct Hb as [Hb _]. now apply Hparse.
Qed.

End ListadoFiltrado.

Section ListadoFiltradoRuns.

#[local] Existing Instance Canonical.lib.

Lemma listar_turnos_filtra_witness :
  (exists l,
     listar_turnos (Some "111") None (Some "cancelado") Ejemplo.g1_otra_vez
     = Returned l Ejemplo.g1_otra_vez
     /\ Permutation l
          [mkTurno (VStr "id-1") (VStr "111") (VStr "2024-03-01 10:00")
             (VStr "Cut") cancelado (VStr "")]
     /\ StronglySorted no_despues l)
  /\ (exists l,
        listar_turnos (Some "111") (Some "2024-03-02") (Some "cancelado")
          Ejemplo.g1_otra_vez
        = Returned l Ejemplo.g1_otra_vez
        /\ Permutation l []
        /\ StronglySorted no_despues l).
Proof.
  destruct (@listar_turnos_filtra Canonical.lib Ejemplo.g1_otra_vez
              (Some "111") (Some "cancelado")) as [Ha Hb].
  - repeat constructor; discriminate.
  - split.
    + exact (Ha None (or_introl eq_refl)).
    + exact (Hb "2024-03-02" (mkDatetime 2024 3 2 0 0) eq_refl eq_refl).
Defined.

End ListadoFiltradoRuns.

(** ** Listing: ties keep the stored order *)

Lemma datetime_eqb_eq a b :
  datetime_eqb a b = true <->
  (year a = year b /\ month a = month b /\ day a = day b
   /\ hour a = hour b /\ minute a = minute b).
Proof.
  unfold datetime_eqb. rewrite !andb_true_iff, !Nat.eqb_eq. tauto.
Qed.

(** A key before [y] is not the key of anything that [y] does not
    follow. *)
Lemma datetime_eqb_after x y z d :
  datetime_ltb x y = true ->
  datetime_le y z ->
  datetime_eqb x d = true ->
  datetime_eqb z d = false.
Proof.
  unfold datetime_le. intros Hxy Hyz Hxd.
  destruct (datetime_eqb z d) eqn:Hzd; [exfalso|reflexivity].
  apply datetime_ltb_false in Hyz.
  rewrite datetime_ltb_lt in Hxy, Hyz. rewrite datetime_eqb_eq in Hxd, Hzd.
  lia.
Qed.

Section Estable.

Context {A : Type}.

Lemma insert_by_key_filter d (x : datetime * A) l :
  StronglySorted key_le l ->
  filter (con_clave d) (insert_by_key x l)
  = filter (con_clave d) l ++ filter (con_clave d) [x].
Proof.
  induction 1 as [|y l Hs IH Hy]; [reflexivity|].
  cbn [insert_by_key].
  destruct (datetime_ltb (fst x) (fst y)) eqn:E.
  - cbn [filter]. destruct (con_clave d x) eqn:Px.
    + assert (Hnone : filter (con_clave d) (y :: l) = []).
      { assert (Hall : Forall (fun z => con_clave d z = false) (y :: l)).
        { constructor.
          - apply (datetime_eqb_after (fst x) (fst y)); auto.
            unfold datetime_le. rewrite datetime_ltb_false, datetime_ltb_lt.
            lia.
          - eapply Forall_impl; [|exact Hy]. intros z Hz.
            apply (datetime_eqb_after (fst x) (fst y)); auto. }
        clear -Hall. induction Hall as [|z l' Hz _ IH']; [reflexivity|].
        cbn [filter]. now rewrite Hz. }
      cbn [filter] in Hnone. now rewrite Hnone.
    + now rewrite app_nil_r.
  - cbn [filter]. rewrite IH. cbn [filter].
    destruct (con_clave d y); reflexivity.
Qed.

Lemma sort_by_key_filter_from d (l acc : list (datetime * A)) :
  StronglySorted key_le acc ->
  filter (con_clave d)
    (fold_left (fun sorted x => insert_by_key x sorted) l acc)
  = filter (con_clave d) acc ++ filter (con_clave d) l.
Proof.
  revert acc. induction l as [|x l IH]; intros acc Hacc.
  - simpl. now rewrite app_nil_r.
  - cbn [fold_left]. rewrite IH by now apply insert_by_key_sorted.
    rewrite insert_by_key_filter by exact Hacc.
    rewrite <- app_assoc. f_equal.
    cbn [filter]. destruct (con_clave d x); reflexivity.
Qed.

Lemma sort_by_key_filter d (l : list (datetime * A)) :
  filter (con_clave d) (sort_by_key l) = filter (con_clave d) l.
Proof. apply (sort_by_key_filter_from d l []). constructor. Qed.

End Estable.

Section ListadoEstable.

Context `{DateTimeLib}.

Lemma filter_keyed d (keyed : list (datetime * Turno)) :
  Forall (fun kt => scheduledAt (snd kt) = Some (fst kt)) keyed ->
  filter (a_las d) (map snd keyed) = map snd (filter (con_clave d) keyed).
Proof.
  induction 1 as [|kt l Hkt _ IH]; [reflexivity|].
  cbn [map filter]. unfold a_las at 1, con_clave at 1. rewrite Hkt, IH.
  destruct (datetime_eqb (fst kt) d); reflexivity.
Qed.

(** Appointments with the same timestamp come out of [listar_turnos] in
    the order in which the manager stores them: where every stored
    timestamp parses, the call without filter returns a list in which,
    for every time [d], the appointments scheduled at [d] are, in this
    order, the stored appointments scheduled at [d]. *)
Theorem listar_turnos_estable :
  forall g,
    Forall (fun t => scheduledAt t <> None) (Dict.values (turnos g)) ->
    exists l,
      listar_turnos None None None g = Returned l g
      /\ forall d,
           filter (a_las d) l = filter (a_las d) (Dict.values (turnos g)).
Proof.
  intros g Hparse.
  destruct (keys_computed (Dict.values (turnos g)) g Hparse)
    as (keyed & E & Hm & Hk).
  exists (map snd (sort_by_key keyed)). split.
  - unfold listar_turnos, bind at 1, self. unfold bind at 1.
    rewrite listar_loop_sin_filtro. unfold bind at 1. now rewrite E.
  - intros d. rewrite <- Hm.
    rewrite !filter_keyed; [|exact Hk|].
    + now rewrite sort_by_key_filter.
    + apply (Permutation_Forall (Permutation_sym (sort_by_key_perm keyed))).
      exact Hk.
Qed.

End ListadoEstable.

Section ListadoEstableRuns.

#[local] Existing Instance Canonical.lib.

Lemma listar_turnos_estable_witness :
  exists l,
    listar_turnos None None None Ejemplo.g1_otra_vez
    = Returned l Ejemplo.g1_otra_vez
    /\ forall d,
         filter (a_las d) l
         = filter (a_las d) (Dict.values (turnos Ejemplo.g1_otra_vez)).
Proof.
  refine (@listar_turnos_estable Canonical.lib Ejemplo.g1_otra_vez _).
  repeat constructor; discriminate.
Defined.

End ListadoEstableRuns.

(** ** Loading a snapshot written by hand *)

Lemma Cliente_from_dict_falta d g :
  Cliente_from_dict d g
  = match falta claves_cliente d with
    | Some clave => Raised (KeyError clave) g
    | None => Returned (Cliente_de d) g
    end.
Proof.
  unfold Cliente_from_dict, Cliente_de, falta, claves_cliente, bind,
    subscript, get_default, Dict.mem. cbn [find].
  destruct (Dict.get "dni" d); cbn [negb]; [|reflexivity].
  destruct (Dict.get "nombre" d); reflexivity.
Qed.

Lemma Turno_from_dict_falta d g :
  Turno_from_dict d g
  = match falta claves_turno d with
    | Some clave => Raised (KeyError clave) g
    | None => Returned (Turno_de d) g
    end.
Proof.
  unfold Turno_from_dict, Turno_de, falta, claves_turno, bind,
    subscript, get_default, Dict.mem. cbn [find].
  destruct (Dict.get "id" d); cbn [negb]; [|reflexivity].
  destruct (Dict.get "cliente_dni" d); cbn [negb]; [|reflexivity].
  destruct (Dict.get "datetime_str" d); cbn [negb]; [|reflexivity].
  destruct (Dict.get "servicio" d); reflexivity.
Qed.

(** A comprehension over entries that are complete up to the first
    incomplete one, if any. *)
Lemma comprehension_entradas {B} (from_dict : campos -> M B)
  (claves : list string) (de : campos -> B) :
  (forall d g,
     from_dict d g
     = match falta claves d with
       | Some clave => Raised (KeyError clave) g
       | None => Returned (de d) g
       end) ->
  forall pre g,
    Forall (fun kd => falta claves (snd kd) = None) pre ->
    (comprehension
       (fun '((k, d) : string * campos) => x <- from_dict d ;; ret (k, x))
       pre g
     = Returned (map (fun kd => (fst kd, de (snd kd))) pre) g)
    /\ (forall k d post clave,
          falta claves d = Some clave ->
          comprehension
            (fun '((k, d) : string * campos) => x <- from_dict d ;; ret (k, x))
            (pre ++ (k, d) :: post) g
          = Raised (KeyError clave) g).
Proof.
  intros Hfd pre g Hpre. induction Hpre as [|[k0 d0] pre Hd0 _ [IH1 IH2]].
  - split; [reflexivity|]. intros k d post clave Hf. cbn [app comprehension].
    unfold bind at 1, bind at 1. now rewrite Hfd, Hf.
  - simpl in Hd0. split.
    + cbn [comprehension map fst snd]. unfold bind at 1, bind at 1.
      rewrite Hfd, Hd0. unfold ret at 1. unfold bind at 1. now rewrite IH1.
    + intros k d post clave Hf. cbn [app comprehension].
      unfold bind at 1, bind at 1. rewrite Hfd, Hd0. unfold ret at 1.
      unfold bind at 1. now rewrite (IH2 k d post clave Hf).
Qed.

(** [load_from_dict] stops at the first entry that lacks a key it
    subscripts, with [KeyError] on that key, and it is not all or
    nothing: an incomplete client entry leaves both maps as they were,
    while an incomplete appointment entry, found after the clients have
    loaded, leaves the new client map in place beside the old
    appointment map.  [telefono], [estado] and [notas] are optional. *)
Theorem load_from_dict_parcial :
  forall g data cs ts,
    dict_file g = Some data ->
    get_default data "clientes" Dict.empty = cs ->
    get_default data "turnos" Dict.empty = ts ->
    (forall pre d cd post clave,
       cs = pre ++ (d, cd) :: post ->
       Forall (fun kd => falta claves_cliente (snd kd) = None) pre ->
       falta claves_cliente cd = Some clave ->
       load_from_dict g = Raised (KeyError clave) g)
    /\ (forall pre k td post clave,
          Forall (fun kd => falta claves_cliente (snd kd) = None) cs ->
          ts = pre ++ (k, td) :: post ->
          Forall (fun kd => falta claves_turno (snd kd) = None) pre ->
          falta claves_turno td = Some clave ->
          load_from_dict g
          = Raised (KeyError clave)
              (set_clientes
                 (Dict.of_items
                    (map (fun kd => (fst kd, Cliente_de (snd kd))) cs))
                 g)).
Proof.
  intros g data cs ts Hd Hcs Hts. split.
  - intros pre d cd post clave -> Hpre Hf.
    unfold load_from_dict, bind at 1, self. rewrite Hd.
    unfold bind at 1, Dict.items. rewrite Hcs.
    destruct (comprehension_entradas Cliente_from_dict claves_cliente
                Cliente_de Cliente_from_dict_falta pre g Hpre) as [_ Hr].
    now rewrite (Hr d cd post clave Hf).
  - intros pre k td post clave Hall -> Hpre Hf.
    unfold load_from_dict, bind at 1, self. rewrite Hd.
    unfold bind at 1, Dict.items. rewrite Hcs.
    destruct (comprehension_entradas Cliente_from_dict claves_cliente
                Cliente_de Cliente_from_dict_falta cs g Hall) as [Hr _].
    rewrite Hr. unfold bind at 1, assign at 1. unfold bind at 1.
    rewrite Hts.
    destruct (comprehension_entradas Turno_from_dict claves_turno
                Turno_de Turno_from_dict_falta pre
                (set_clientes
                   (Dict.of_items
                      (map (fun kd => (fst kd, Cliente_de (snd kd))) cs)) g)
                Hpre) as [_ Hr'].
    now rewrite (Hr' k td post clave Hf).
Qed.

Lemma load_from_dict_parcial_witness :
  load_from_dict Ejemplo.g_snapshot_incompleto
  = Raised (KeyError "id")
      (set_clientes
         [("111", mkCliente (VStr "111") (VStr "Ana Gomez") (VStr ""))]
         Ejemplo.g_snapshot_incompleto).
Proof.
  refine (proj2 (load_from_dict_parcial Ejemplo.g_snapshot_incompleto
                   _ _ _ eq_refl eq_refl eq_refl)
            [] "id-1" _ [] "id" _ eq_refl _ eq_refl).
  - repeat constructor.
  - constructor.
Defined.

(** ** Construction: the snapshot comes first *)

(** A comprehension over snapshot entries does not depend on the
    manager: it returns or raises the same in every state. *)
Lemma comprehension_entradas_puro {B} (from_dict : campos -> M B)
  (claves : list string) (de : campos -> B) :
  (forall d g,
     from_dict d g
     = match falta claves d with
       | Some clave => Raised (KeyError clave) g
       | None => Returned (de d) g
       end) ->
  forall l,
    exists r : exn + list (string * B),
      forall g,
        comprehension
          (fun '((k, d) : string * campos) => x <- from_dict d ;; ret (k, x))
          l g
        = match r with
          | inl e => Raised e g
          | inr v => Returned v g
          end.
Proof.
  intros Hfd l. induction l as [|[k d] l [r IH]].
  - exists (inr []). reflexivity.
  - destruct (falta claves d) as [clave|] eqn:Ef.
    + exists (inl (KeyError clave)). intros g. cbn [comprehension].
      unfold bind at 1, bind at 1. now rewrite Hfd, Ef.
    + destruct r as [e|v].
      * exists (inl e). intros g. cbn [comprehension].
        unfold bind at 1, bind at 1. rewrite Hfd, Ef. unfold ret at 1.
        unfold bind at 1. now rewrite IH.
      * exists (inr ((k, de d) :: v)). intros g. cbn [comprehension].
        unfold bind at 1, bind at 1. rewrite Hfd, Ef. unfold ret at 1.
        unfold bind at 1. now rewrite IH.
Qed.

(** The outcome of [load_from_dict] in closed form: what the two
    comprehensions give depends on the snapshot alone. *)
Lemma load_from_dict_forma data :
  exists (rc : exn + list (string * Cliente))
         (rt : exn + list (string * Turno)),
    forall g,
      dict_file g = Some data ->
      load_from_dict g
      = match rc with
        | inl e => Raised e g
        | inr cs =>
            match rt with
            | inl e => Raised e (set_clientes (Dict.of_items cs) g)
            | inr ts =>
                Returned tt
                  (set_turnos (Dict.of_items ts)
                     (set_clientes (Dict.of_items cs) g))
            end
        end.
Proof.
  destruct (comprehension_entradas_puro Cliente_from_dict claves_cliente
              Cliente_de Cliente_from_dict_falta
              (get_default data "clientes" Dict.empty)) as [rc Hc].
  destruct (comprehension_entradas_puro Turno_from_dict claves_turno
              Turno_de Turno_from_dict_falta
              (get_default data "turnos" Dict.empty)) as [rt Ht].
  exists rc, rt. intros g Hd.
  unfold load_from_dict, bind at 1, self. rewrite Hd.
  unfold bind at 1, Dict.items. rewrite Hc.
  destruct rc as [e|cs]; [reflexivity|].
  unfold bind at 1, assign at 1. unfold bind at 1. rewrite Ht.
  destruct rt as [e|ts]; reflexivity.
Qed.

(** [load_from_dict] does not read the row export and does not write
    it. *)
Lemma load_from_dict_csv c t csv data :
  load_from_dict (mkGestor c t csv (Some data))
  = match load_from_dict (mkGestor c t None (Some data)) with
    | Returned x g => Returned x (set_csv_file csv g)
    | Raised e g => Raised e (set_csv_file csv g)
    end.
Proof.
  destruct (load_from_dict_forma data) as (rc & rt & H).
  rewrite !H by reflexivity.
  destruct rc as [e|cs]; [reflexivity|].
  destruct rt as [e|ts]; reflexivity.
Qed.

(** Where the snapshot file exists, [__init__] never reads the row
    export: the maps it ends with and the warnings it prints are the same
    whatever the row export holds, or whether it exists.  If the
    snapshot loads, the row export is rewritten from it; if it does not,
    the row export is left as it was and is not used as a fallback. *)
Theorem init_prefiere_snapshot :
  forall csv data,
    clientes (fst (init csv (Some data)))
    = clientes (fst (init None (Some data)))
    /\ turnos (fst (init csv (Some data)))
       = turnos (fst (init None (Some data)))
    /\ snd (init csv (Some data)) = snd (init None (Some data))
    /\ (snd (init csv (Some data)) = [] ->
        export_al_dia (fst (init csv (Some data))))
    /\ (snd (init csv (Some data)) <> [] ->
        csv_file (fst (init csv (Some data))) = csv).
Proof.
  intros csv data. unfold init, bind.
  rewrite (load_from_dict_csv Dict.empty Dict.empty csv data).
  destruct (load_from_dict (mkGestor Dict.empty Dict.empty None (Some data)))
    as [[] g|e g].
  - destruct (dump_to_csv_returns (set_csv_file csv g)) as (f1 & f2 & E).
    destruct (dump_to_csv_returns g) as (f1' & f2' & E').
    rewrite E, E'. cbn [fst snd].
    repeat split; try (intros Hne; now elim Hne).
    intros _. unfold export_al_dia.
    assert (Hst : set_dict_file f2 (set_csv_file f1 (set_csv_file csv g))
                  = state_of (dump_to_csv (set_csv_file csv g)))
      by now rewrite E.
    rewrite Hst. reflexivity.
  - cbn [fst snd]. repeat split. discriminate.
Qed.

(** ** Loading an export edited by hand *)

Lemma find_app {A} (p : A -> bool) (l1 l2 : list A) :
  find p (l1 ++ l2)
  = match find p l1 with
    | Some x => Some x
    | None => find p l2
    end.
Proof.
  induction l1 as [|x l1 IH]; simpl; [reflexivity|].
  destruct (p x); [reflexivity|exact IH].
Qed.

(** The body of the loop on a row with a cell in every column. *)
Lemma load_row_completa row acc :
  (8 <= List.length row)%nat ->
  load_row (DictReader_row row) acc
  = Returned tt
      (mkGestor
         (if Str.truthy (dni_fila row)
             && negb (Dict.mem (dni_fila row) (clientes acc))
          then Dict.set (dni_fila row) (Cliente_fila row) (clientes acc)
          else clientes acc)
         (Dict.set (celda 0 row) (Turno_fila row) (turnos acc))
         (csv_file acc) (dict_file acc)).
Proof.
  destruct row as [|c0 [|c1 [|c2 [|c3 [|c4 [|c5 [|c6 [|c7 rest]]]]]]]];
    simpl; try lia.
  intros _. rewrite DictReader_row_full.
  unfold Turno_fila, Cliente_fila, dni_fila, celda. cbn [nth].
  unfold load_row, bind, subscript, self, strip_value, get_default. simpl.
  destruct (Str.truthy (Str.strip (Str.universal_newlines c1))
            && negb (Dict.mem (Str.strip (Str.universal_newlines c1))
                       (clientes acc)));
    destruct acc; reflexivity.
Qed.

Lemma load_rows_completas rows :
  Forall (fun row => (8 <= List.length row)%nat) rows ->
  forall acc,
    exists g',
      for_each (leidas rows) load_row acc = Returned tt g'
      /\ (forall k,
            Dict.get k (turnos g')
            = match find (fun row => String.eqb (celda 0 row) k) (rev rows)
              with
              | Some row => Some (Turno_fila row)
              | None => Dict.get k (turnos acc)
              end)
      /\ (forall d,
            Dict.get d (clientes g')
            = match Dict.get d (clientes acc) with
              | Some c => Some c
              | None =>
                  if Str.truthy d
                  then option_map Cliente_fila
                         (find (fun row => String.eqb (dni_fila row) d) rows)
                  else None
              end)
      /\ csv_file g' = csv_file acc
      /\ dict_file g' = dict_file acc.
Proof.
  induction 1 as [|row rows Hrow _ IH]; intros acc.
  - exists acc. repeat split.
    intros d. destruct (Dict.get d (clientes acc)); [reflexivity|].
    now destruct (Str.truthy d).
  - assert (Hne : row <> []) by (destruct row; simpl in Hrow; [lia|congruence]).
    destruct row as [|c row]; [congruence|].
    set (r := c :: row) in *.
    destruct (IH (mkGestor
         (if Str.truthy (dni_fila r)
             && negb (Dict.mem (dni_fila r) (clientes acc))
          then Dict.set (dni_fila r) (Cliente_fila r) (clientes acc)
          else clientes acc)
         (Dict.set (celda 0 r) (Turno_fila r) (turnos acc))
         (csv_file acc) (dict_file acc)))
      as (g' & E & Ht & Hc & Hf1 & Hf2).
    exists g'. split.
    { unfold leidas. subst r. cbn [filter con_celdas map for_each].
      unfold bind at 1.
      rewrite (load_row_completa (c :: row) acc Hrow). exact E. }
    cbn [clientes turnos csv_file dict_file] in *.
    split; [|split; [|split; assumption]].
    + intros k. rewrite Ht. cbn [rev]. rewrite find_app.
      destruct (find (fun row0 => String.eqb (celda 0 row0) k) (rev rows));
        [reflexivity|].
      cbn [find]. rewrite DictFacts.get_set.
      rewrite (String.eqb_sym (celda 0 r) k).
      now destruct (String.eqb k (celda 0 r)).
    + intros d. rewrite Hc. cbn [find].
      rewrite (String.eqb_sym (dni_fila r) d).
      unfold Dict.mem.
      destruct (String.eqb_spec d (dni_fila r)) as [->|Hd].
      * destruct (Dict.get (dni_fila r) (clientes acc)) as [c0|] eqn:Eg.
        { rewrite andb_false_r. now rewrite Eg. }
        rewrite andb_true_r.
        destruct (Str.truthy (dni_fila r)) eqn:Et.
        { now rewrite DictFacts.get_set_same. }
        now rewrite Eg.
      * destruct (Str.truthy (dni_fila r)
                  && negb match Dict.get (dni_fila r) (clientes acc) with
                          | Some _ => true
                          | None => false
                          end);
          [rewrite DictFacts.get_set_other by exact Hd|]; reflexivity.
Qed.

(** [load_from_csv] on an export whose rows all have a cell in every
    column, none of more than 131072 characters, returns, whatever the
    manager held before, and leaves both files as they were.  Where an
    appointment id is on several rows, the last of them is the
    appointment loaded; where a client id (trimmed, not empty) is on
    several rows, the name and the phone of the first of them are the
    client loaded.  A row with an empty client id gives no client. *)
Theorem load_from_csv_repetidos :
  forall rows c0 t0 dict,
    Forall (fun row => (8 <= List.length row)%nat) rows ->
    en_limite rows ->
    exists g',
      load_from_csv (mkGestor c0 t0 (Some rows) dict) = Returned tt g'
      /\ (forall k,
            Dict.get k (turnos g')
            = option_map Turno_fila
                (find (fun row => String.eqb (celda 0 row) k) (rev rows)))
      /\ (forall d,
            Dict.get d (clientes g')
            = if Str.truthy d
              then option_map Cliente_fila
                     (find (fun row => String.eqb (dni_fila row) d) rows)
              else None)
      /\ csv_file g' = Some rows
      /\ dict_file g' = dict.
Proof.
  intros rows c0 t0 dict Hrows Hlim.
  destruct (load_rows_completas rows Hrows
              (mkGestor Dict.empty Dict.empty (Some rows) dict))
    as (g' & E & Ht & Hc & Hf1 & Hf2).
  exists g'. rewrite load_from_csv_leidas by exact Hlim.
  split; [exact E|].
  split; [|split; [|split; assumption]].
  - intros k. rewrite Ht.
    now destruct (find (fun row => String.eqb (celda 0 row) k) (rev rows)).
  - intros d. now rewrite Hc.
Qed.

Lemma load_from_csv_repetidos_witness :
  exists g',
    load_from_csv
      (mkGestor (clientes Ejemplo.g2) (turnos Ejemplo.g2)
         (Some Ejemplo.archivo_repetido) None)
    = Returned tt g'
    /\ Dict.get "id-1" (turnos g')
       = Some (mkTurno (VStr "id-1") (VStr "111") (VStr "2024-03-02 09:00")
                 (VStr "Cut") (VStr "cancelado") (VStr "moved"))
    /\ Dict.get "111" (clientes g')
       = Some (mkCliente (VStr "111") (VStr "Ana Gomez") (VStr "555-0101")).
Proof.
  destruct (load_from_csv_repetidos Ejemplo.archivo_repetido
              (clientes Ejemplo.g2) (turnos Ejemplo.g2) None)
    as (g' & E & Ht & Hc & _).
  - unfold Ejemplo.archivo_repetido. repeat constructor; simpl; lia.
  - apply en_limite_forallb. vm_compute. reflexivity.
  - exists g'. split; [exact E|]. split.
    + rewrite Ht. reflexivity.
    + rewrite Hc. reflexivity.
Defined.

(** ** Searching clients by name *)

Module BusquedaFacts.

Import Busqueda.

Lemma isspace_lower_char c : Str.isspace (lower_char c) = Str.isspace c.
Proof. destruct c as [[] [] [] [] [] [] [] []]; reflexivity. Qed.

Lemma lower_chars s :
  list_ascii_of_string (lower s) = map lower_char (list_ascii_of_string s).
Proof. induction s as [|c s IH]; simpl; [reflexivity|now rewrite IH]. Qed.

Lemma lower_of_list l :
  lower (string_of_list_ascii l) = string_of_list_ascii (map lower_char l).
Proof. induction l as [|c l IH]; simpl; [reflexivity|now rewrite IH]. Qed.

Lemma lstrip_map l :
  Str.lstrip_chars (map lower_char l) = map lower_char (Str.lstrip_chars l).
Proof.
  induction l as [|c l IH]; simpl; [reflexivity|].
  rewrite isspace_lower_char. destruct (Str.isspace c); [exact IH|reflexivity].
Qed.

Lemma rstrip_map l :
  Str.rstrip_chars (map lower_char l) = map lower_char (Str.rstrip_chars l).
Proof.
  unfold Str.rstrip_chars. now rewrite <- map_rev, lstrip_map, map_rev.
Qed.

(** Trimming and lowering commute: no letter is white space. *)
Lemma strip_lower s : Str.strip (lower s) = lower (Str.strip s).
Proof.
  unfold Str.strip.
  now rewrite lower_chars, lstrip_map, rstrip_map, lower_of_list.
Qed.




Lemma contiene_empty h : contiene "" h = true.
Proof. destruct h; reflexivity. Qed.


End BusquedaFacts.

Lemma comprehension_if_filter {A} (cond : A -> M bool) (p : A -> bool) l g :
  (forall x, In x l -> cond x g = Returned (p x) g) ->
  comprehension_if cond l g = Returned (filter p l) g.
Proof.
  induction l as [|x l IH]; intros Hc; [reflexivity|].
  cbn [comprehension_if filter]. unfold bind at 1.
  rewrite (Hc x (or_introl eq_refl)). unfold bind at 1.
  rewrite IH by (intros y Hy; apply Hc; now right).
  unfold ret. now destruct (p x).
Qed.

Lemma buscar_cliente_por_nombre_str g q :
  Forall (fun c => is_str (nombre c)) (Dict.values (clientes g)) ->
  buscar_cliente_por_nombre q g
  = Returned (filter (coincide q) (Dict.values (clientes g))) g.
Proof.
  intros Hstr. unfold buscar_cliente_por_nombre, bind at 1, self.
  apply comprehension_if_filter. intros c Hin.
  rewrite Forall_forall in Hstr. destruct (Hstr c Hin) as [n Hn].
  unfold coincide, bind, lower_value. now rewrite Hn.
Qed.

Lemma consistente_nombres g :
  consistente g ->
  Forall (fun c => is_str (nombre c)) (Dict.values (clientes g)).
Proof.
  intros (_ & _ & Hc & _). apply Forall_forall. intros c Hin.
  unfold Dict.values in Hin. apply in_map_iff in Hin.
  destruct Hin as ([k c'] & <- & Hin).
  destruct (Hc k c' Hin) as (_ & _ & (n & Hn & _) & _). now exists n.
Qed.

Lemma buscar_cliente_por_nombre_None g q :
  Exists (fun c => nombre c = VNone) (Dict.values (clientes g)) ->
  buscar_cliente_por_nombre q g = Raised AttributeError g.
Proof.
  unfold buscar_cliente_por_nombre, bind at 1, self.
  induction 1 as [c l Hc|c l _ IH]; cbn [comprehension_if].
  - unfold bind, lower_value. now rewrite Hc.
  - unfold bind at 1. cbv beta.
    destruct ((n <- lower_value (nombre c) ;;
               ret (Busqueda.contiene (Str.strip (Busqueda.lower q)) n)) g)
      as [b g'|e g'] eqn:E.
    + unfold bind, lower_value, ret in E.
      destruct (nombre c); inversion E; subst.
      unfold bind at 1. now rewrite IH.
    + unfold bind, lower_value, ret, raise in E.
      destruct (nombre c); inversion E; subst. reflexivity.
Qed.

Section Buscar.

Context `{DateTimeLib}.

(** [buscar_cliente_por_nombre], on every state the operations reach
    from the empty manager, returns without raising and leaves the
    manager as it was: the result is the registered clients, in the order
    of registration, whose name in lower case holds the query in lower
    case and trimmed.  A blank query returns every client.  Where a
    stored client has [None] for a name (a snapshot written by hand), the
    search raises [AttributeError] whatever the query. *)
Theorem buscar_cliente_por_nombre_filtra :
  (forall ops q,
     buscar_cliente_por_nombre q (run_ops ops vacio)
     = Returned
         (filter (coincide q) (Dict.values (clientes (run_ops ops vacio))))
         (run_ops ops vacio))
  /\ (forall ops q,
        Str.strip q = "" ->
        buscar_cliente_por_nombre q (run_ops ops vacio)
        = Returned (Dict.values (clientes (run_ops ops vacio)))
            (run_ops ops vacio))
  /\ (forall g q c,
        In c (Dict.values (clientes g)) ->
        nombre c = VNone ->
        buscar_cliente_por_nombre q g = Raised AttributeError g).
Proof.
  split; [|split].
  - intros ops q. apply buscar_cliente_por_nombre_str, consistente_nombres.
    apply consistente_run_ops, consistente_vacio.
  - intros ops q Hq.
    pose proof (consistente_nombres _
                  (consistente_run_ops ops vacio consistente_vacio)) as Hs.
    rewrite (buscar_cliente_por_nombre_str _ q Hs). f_equal.
    rewrite Forall_forall in Hs.
    induction (Dict.values (clientes (run_ops ops vacio))) as [|c l IH];
      [reflexivity|].
    cbn [filter]. destruct (Hs c (or_introl eq_refl)) as [n Hn].
    unfold coincide at 1. rewrite Hn, BusquedaFacts.strip_lower, Hq.
    cbn [Busqueda.lower]. rewrite BusquedaFacts.contiene_empty.
    f_equal. apply IH. intros x Hx. apply Hs. now right.
  - intros g q c Hin Hc. apply buscar_cliente_por_nombre_None.
    apply Exists_exists. now exists c.
Qed.


End Buscar.

Section BuscarRuns.

#[local] Existing Instance Canonical.lib.

Lemma buscar_cliente_por_nombre_filtra_witness :
  buscar_cliente_por_nombre "  " (run_ops [Ejemplo.ana] vacio)
  = Returned (Dict.values (clientes (run_ops [Ejemplo.ana] vacio)))
      (run_ops [Ejemplo.ana] vacio)
  /\ buscar_cliente_por_nombre "ana" Ejemplo.g_sin_nombre
     = Raised AttributeError Ejemplo.g_sin_nombre.
Proof.
  destruct (@buscar_cliente_por_nombre_filtra Canonical.lib)
    as (_ & Hblank & Hnone).
  split.
  - apply (Hblank [Ejemplo.ana] "  "). reflexivity.
  - apply (Hnone Ejemplo.g_sin_nombre "ana"
             (mkCliente (VStr "222") VNone (VStr ""))).
    + simpl. right. left. reflexivity.
    + reflexivity.
Defined.


End BuscarRuns.

(** ** Construction from the row export alone *)

Section SinSnapshot.

Context `{DateTimeLib}.

(** A manager constructed on the row export that any sequence of
    operations left, the snapshot being lost, loads without warning
    where no field holds a carriage return and no cell of the export has
    more than 131072 characters.  It has every appointment,
    and of the clients those with a non-empty id some appointment refers
    to: a client without appointment is gone.  Where there was a row
    export the snapshot is written again from what was loaded, and so
    lacks those clients too. *)
Theorem reinicio_sin_snapshot :
  forall ops,
    sin_cr (run_ops ops vacio) ->
    en_limite (filas_escritas (run_ops ops vacio)) ->
    exists g',
      init (csv_file (run_ops ops vacio)) None = (g', [])
      /\ turnos g' = turnos (run_ops ops vacio)
      /\ (forall d,
            Dict.get d (clientes g')
            = if Str.truthy d && referenciado (run_ops ops vacio) d
              then Dict.get d (clientes (run_ops ops vacio))
              else None)
      /\ csv_file g' = csv_file (run_ops ops vacio)
      /\ (csv_file (run_ops ops vacio) = None \/ snapshot_al_dia g').
Proof.
  intros ops Hcr Hlim.
  pose proof (consistente_run_ops ops vacio consistente_vacio) as Hg.
  destruct (al_dia_run_ops ops vacio consistente_vacio (or_introl eq_refl)
              (or_introl (conj eq_refl eq_refl))) as [_ [[Hn Ht0]|Hexp]].
  - rewrite Hn. exists vacio.
    split; [reflexivity|]. split; [now rewrite Ht0|].
    split; [|split; [reflexivity|now left]].
    intros d. unfold referenciado. rewrite Ht0. simpl.
    now rewrite andb_false_r.
  - set (g := run_ops ops vacio) in *.
    pose proof (fila_fiel_consistente g Hg Hcr) as Hfiel.
    destruct Hg as (_ & Wt & _).
    assert (Hnone : forall d,
              Dict.get d (@Dict.empty Cliente)
              = cargado g (map snd (@nil (string * Turno))) d).
    { intros d. unfold cargado. simpl. now rewrite andb_false_r. }
    unfold export_al_dia in Hexp. rewrite dump_to_csv_rows in Hexp.
    destruct (load_rows_fieles g (turnos g) []
                (mkGestor Dict.empty Dict.empty (csv_file g) None)
                Hfiel Wt eq_refl (NoDup_nil _) Hnone)
      as (g1 & E & Ht & _ & Hc & Hf1 & Hf2).
    simpl in Ht, Hc, Hf1, Hf2.
    destruct (dump_to_dict_returns g1) as [data Ed].
    exists (set_dict_file (Some data) g1).
    assert (Hl : load_from_csv
                   (mkGestor Dict.empty Dict.empty (csv_file g) None)
                 = Returned tt g1).
    { rewrite <- E. rewrite Hexp.
      rewrite load_from_csv_leidas by exact Hlim. rewrite leidas_written.
      unfold Dict.values. now rewrite !map_map. }
    split.
    { rewrite Hexp in Hl |- *. unfold init, bind. now rewrite Hl, Ed. }
    split; [exact Ht|].
    split.
    { intros d.
      change (clientes (set_dict_file (Some data) g1)) with (clientes g1).
      rewrite Hc. reflexivity. }
    split; [exact Hf1|]. right.
    unfold snapshot_al_dia.
    assert (Hs : state_of (dump_to_dict g1) = set_dict_file (Some data) g1)
      by now rewrite Ed.
    change (dict_file (state_of (dump_to_dict (set_dict_file (Some data) g1))))
      with (dict_file (state_of (dump_to_dict g1))).
    now rewrite Hs.
Qed.

End SinSnapshot.

Section SinSnapshotRuns.

#[local] Existing Instance Canonical.lib.

Lemma reinicio_sin_snapshot_witness :
  exists g',
    init (csv_file (run_ops [Register "222" "Luis" ""; Ejemplo.ana;
                             Ejemplo.corte] vacio)) None
    = (g', [])
    /\ Dict.get "222" (clientes g') = None
    /\ Dict.get "111" (clientes g')
       = Some (mkCliente (VStr "111") (VStr "Ana Gomez") (VStr "555-0101")).
Proof.
  destruct (@reinicio_sin_snapshot Canonical.lib
              [Register "222" "Luis" ""; Ejemplo.ana; Ejemplo.corte])
    as (g' & E & _ & Hc & _).
  - vm_compute. split; repeat constructor.
  - apply en_limite_forallb. vm_compute. reflexivity.
  - exists g'. split; [exact E|]. split; rewrite Hc; reflexivity.
Defined.

End SinSnapshotRuns.

(** * The console menu *)

Lemma mover_otros_campos `{DateTimeLib} g t nd t1 g1 :
  mover g t nd g = Returned t1 g1 ->
  id t1 = id t /\ cliente_dni t1 = cliente_dni t
  /\ servicio t1 = servicio t /\ estado t1 = estado t /\ notas t1 = notas t.
Proof.
  unfold mover, ret, raise. intros E.
  destruct nd as [s|]; [|inversion E; subst; repeat split].
  destruct (Str.truthy s); [|inversion E; subst; repeat split].
  destruct (strptime s DATETIME_FORMAT) as [dt|]; [|discriminate].
  destruct (existsb _ _); [discriminate|].
  inversion E; subst. repeat split.
Qed.

(** The timestamp [modificar_turno] stores is the old one, or the new
    text parsed and written again by [strftime]. *)
Lemma mover_datetime_str `{DateTimeLib} g t nd t1 g1 :
  mover g t nd g = Returned t1 g1 ->
  datetime_str t1 = datetime_str t
  \/ exists s dt,
       nd = Some s /\ s <> ""
       /\ strptime s DATETIME_FORMAT = Some dt
       /\ datetime_str t1 = VStr (strftime dt DATETIME_FORMAT).
Proof.
  unfold mover, ret, raise. intros E.
  destruct nd as [s|]; [|inversion E; subst; now left].
  destruct (Str.truthy s) eqn:Es; [|inversion E; subst; now left].
  destruct (strptime s DATETIME_FORMAT) as [dt|] eqn:Ep; [|discriminate].
  destruct (existsb _ _); [discriminate|].
  inversion E; subst. right. exists s, dt.
  split; [reflexivity|]. split; [intros ->; discriminate|].
  split; [exact Ep|reflexivity].
Qed.

Lemma no_vacio_blanco s : s = "" -> no_vacio s = None.
Proof. now intros ->. Qed.

Lemma no_vacio_cases s :
  (s = "" /\ no_vacio s = None) \/ (s <> "" /\ no_vacio s = Some s).
Proof. destruct s; [now left|right]. split; [discriminate|reflexivity]. Qed.

Section MenuPasos.

Context `{DateTimeLib}.
Variable uuid4 : nat -> string.
Variable exportar_csv_personalizado : string -> M unit.

Lemma iteracion_linea o resto p n g :
  iteracion uuid4 exportar_csv_personalizado (mkConsola (o :: resto) p n g)
  = opcion uuid4 exportar_csv_personalizado (Str.strip o)
      (mkConsola resto (p ++ [Menu]) n g).
Proof. reflexivity. Qed.

(** Option 4 asks for the three fields and passes [None] for each one
    left blank, so that a blank answer keeps the field.  Of the
    appointment the manager holds afterwards, the timestamp is the old
    one, or the trimmed text typed, not empty, as [strftime] writes what
    [strptime] read in it; the service and the notes are the old ones or
    the trimmed text typed, not empty.  So through the menu the service
    and the notes are never emptied, though [modificar_turno] itself
    stores an empty string it is given.  The iteration reads six lines
    and goes on, whether the call raised or not. *)
Theorem menu_modificar_en_blanco :
  forall c o i dt sv no enter resto t,
    entrada c = o :: i :: dt :: sv :: no :: enter :: resto ->
    Str.strip o = "4" ->
    Dict.get (Str.strip i) (turnos (gestor c)) = Some t ->
    exists c' t',
      iteracion uuid4 exportar_csv_personalizado c = Hecho Sigue c'
      /\ entrada c' = resto
      /\ Dict.get (Str.strip i) (turnos (gestor c')) = Some t'
      /\ (datetime_str t' = datetime_str t
          \/ (Str.strip dt <> ""
              /\ exists d,
                   strptime (Str.strip dt) DATETIME_FORMAT = Some d
                   /\ datetime_str t' = VStr (strftime d DATETIME_FORMAT)))
      /\ (servicio t' = servicio t
          \/ (Str.strip sv <> "" /\ servicio t' = VStr (Str.strip sv)))
      /\ (notas t' = notas t
          \/ (Str.strip no <> "" /\ notas t' = VStr (Str.strip no)))
      /\ id t' = id t /\ cliente_dni t' = cliente_dni t
      /\ estado t' = estado t.
Proof.
  intros [ent p n g] o i dt sv no enter resto t Hent Ho Hget.
  cbn [entrada gestor] in *. subst ent.
  rewrite iteracion_linea, Ho.
  change (opcion uuid4 exportar_csv_personalizado "4")
    with (turno_id <- leer ;;
          print DejarEnBlanco ;;
          nuevo_dt <- leer ;;
          nuevo_serv <- leer ;;
          nuevas_notas <- leer ;;
          intentar
            (t <- llamar
                    (modificar_turno turno_id (no_vacio nuevo_dt)
                       (no_vacio nuevo_serv) (no_vacio nuevas_notas)) ;;
             print (TurnoModificado t)) ;;
          pausa ;;
          io_ret Sigue)%io.
  cbv [io_bind leer input print pausa intentar llamar io_ret
       entrada pantalla sorteos gestor].
  destruct (modificar_turno_cases g (Str.strip i) (no_vacio (Str.strip dt))
              (no_vacio (Str.strip sv)) (no_vacio (Str.strip no)))
    as [[e E]|(t0 & t1 & g' & Hg0 & Hm & E & Hc & Ht)]; rewrite E.
  - cbn [entrada pantalla sorteos gestor]. eexists; exists t.
    split; [reflexivity|]. cbn [entrada gestor].
    repeat split; auto.
  - cbn [entrada pantalla sorteos gestor]. eexists; eexists.
    split; [reflexivity|]. cbn [entrada gestor].
    rewrite Hget in Hg0. inversion Hg0; subst t0. clear Hg0.
    destruct (mover_otros_campos g t _ t1 g Hm)
      as (Hid & Hcd & Hsv & Hes & Hno).
    split; [reflexivity|].
    split; [rewrite Ht; apply DictFacts.get_set_same|].
    split.
    { assert (Hr : datetime_str
                     (retocado t1 (no_vacio (Str.strip sv))
                        (no_vacio (Str.strip no)))
                   = datetime_str t1) by reflexivity.
      rewrite Hr.
      destruct (mover_datetime_str g t _ t1 g Hm)
        as [Hk|(s & d0 & Hs & Hne & Hp & Hd)]; [now left|].
      right.
      destruct (no_vacio_cases (Str.strip dt)) as [[Hb Hn]|[Hb Hn]];
        rewrite Hn in Hs; [discriminate|].
      inversion Hs; subst s. split; [exact Hb|]. now exists d0. }
    unfold retocado. cbn [servicio notas id cliente_dni estado].
    split.
    { destruct (no_vacio_cases (Str.strip sv)) as [[Hb ->]|[Hb ->]].
      - now left.
      - right. split; [exact Hb|]. now rewrite StrFacts.strip_idempotent. }
    split.
    { destruct (no_vacio_cases (Str.strip no)) as [[Hb ->]|[Hb ->]].
      - now left.
      - right. split; [exact Hb|]. now rewrite StrFacts.strip_idempotent. }
    repeat split; assumption.
Qed.

End MenuPasos.

(** ** Steps that read and do not put back *)

Lemma corto_ret {A} (a : A) : corto (io_ret a).
Proof. intros c. reflexivity. Qed.

Lemma corto_raise {A} e : corto (@io_raise A e).
Proof. intros c. reflexivity. Qed.

Lemma corto_bind {A B} (m : IO A) (k : A -> IO B) :
  corto m -> (forall a, corto (k a)) -> corto (io_bind m k).
Proof.
  intros Hm Hk c. unfold io_bind. specialize (Hm c).
  destruct (m c) as [a c1|f c1]; [|exact Hm].
  specialize (Hk a c1). cbn [consola_de] in Hm. lia.
Qed.

Lemma corto_input : corto input.
Proof.
  intros [ent p n g]. unfold input. cbn [entrada].
  destruct ent; cbn; lia.
Qed.

Lemma corto_print m : corto (print m).
Proof. intros c. reflexivity. Qed.

Lemma corto_llamar {A} (m : M A) : corto (llamar m).
Proof. intros c. unfold llamar. now destruct (m (gestor c)). Qed.

Lemma corto_el_gestor : corto el_gestor.
Proof. intros c. reflexivity. Qed.

Lemma corto_llamar_sorteando {A} uuid4 (m : string -> M A) :
  corto (llamar_sorteando uuid4 m).
Proof.
  intros c. unfold llamar_sorteando.
  now destruct (m (uuid4 (sorteos c)) (gestor c)).
Qed.

Lemma corto_intentar m : corto m -> corto (intentar m).
Proof.
  intros Hm c. unfold intentar. specialize (Hm c).
  destruct (m c); exact Hm.
Qed.

Lemma corto_for_each {A} (l : list A) body :
  (forall x, corto (body x)) -> corto (io_for_each l body).
Proof.
  intros Hb. induction l as [|x l IH]; cbn [io_for_each].
  - apply corto_ret.
  - apply corto_bind; [apply Hb|intros _; exact IH].
Qed.

Lemma corto_formato n v : corto (formato n v).
Proof. destruct v; [apply corto_raise|apply corto_ret]. Qed.

Lemma corto_formato_corte m n v : corto (formato_corte m n v).
Proof. destruct v; [apply corto_raise|apply corto_ret]. Qed.

Ltac corto_paso :=
  first
    [ apply corto_ret | apply corto_raise | apply corto_input
    | apply corto_print | apply corto_llamar | apply corto_el_gestor
    | apply corto_llamar_sorteando | apply corto_formato
    | apply corto_formato_corte
    | apply corto_intentar
    | apply corto_for_each; intros ?
    | apply corto_bind; [|intros ?]
    | match goal with
      | |- corto (if ?b then _ else _) => destruct b
      | |- corto (match ?x with _ => _ end) => destruct x
      end ].

Ltac corto_camina := cbv beta; repeat (corto_paso; cbv beta).

Lemma corto_leer : corto leer.
Proof. unfold leer. corto_camina. Qed.

Lemma corto_pausa : corto pausa.
Proof. unfold pausa. corto_camina. Qed.

Lemma corto_imprimir_turnos lista : corto (imprimir_turnos lista).
Proof. unfold imprimir_turnos. corto_camina. Qed.

Section MenuCorto.

Context `{DateTimeLib}.
Variable uuid4 : nat -> string.
Variable exportar_csv_personalizado : string -> M unit.

Lemma corto_opcion opt :
  corto (opcion uuid4 exportar_csv_personalizado opt).
Proof.
  unfold opcion.
  repeat first
    [ apply corto_leer | apply corto_pausa | apply corto_imprimir_turnos
    | corto_paso ]; cbv beta.
Qed.

End MenuCorto.

(** ** Steps of the console on a given input *)

Lemma bind_leer_cons {A} (k : string -> IO A) l r p n g :
  io_bind leer k (mkConsola (l :: r) p n g)
  = k (Str.strip l) (mkConsola r p n g).
Proof. reflexivity. Qed.

Lemma bind_leer_nil {A} (k : string -> IO A) p n g :
  io_bind leer k (mkConsola [] p n g) = Escapa EOFError (mkConsola [] p n g).
Proof. reflexivity. Qed.

Lemma bind_print {A} m (k : unit -> IO A) ent p n g :
  io_bind (print m) k (mkConsola ent p n g)
  = k tt (mkConsola ent (p ++ [m]) n g).
Proof. reflexivity. Qed.

Lemma bind_el_gestor {A} (k : GestorTurnos -> IO A) ent p n g :
  io_bind el_gestor k (mkConsola ent p n g) = k g (mkConsola ent p n g).
Proof. reflexivity. Qed.

(** ** Steps that leave the manager alone *)

Lemma quieto_ret {A} (a : A) : quieto (io_ret a).
Proof. intros c. split; reflexivity. Qed.

Lemma quieto_bind {A B} (m : IO A) (k : A -> IO B) :
  quieto m -> (forall a, quieto (k a)) -> quieto (io_bind m k).
Proof.
  intros Hm Hk c. unfold io_bind. specialize (Hm c).
  destruct (m c) as [a c1|f c1]; [|exact Hm].
  destruct (Hk a c1) as [H1 H2]. cbn [consola_de] in Hm.
  destruct Hm as [H3 H4]. split; congruence.
Qed.

Lemma quieto_input : quieto input.
Proof.
  intros [ent p n g]. unfold input. cbn [entrada].
  destruct ent; split; reflexivity.
Qed.

Lemma quieto_print m : quieto (print m).
Proof. intros c. split; reflexivity. Qed.

Lemma quieto_llamar {A} (m : M A) :
  (forall g, state_of (m g) = g) -> quieto (llamar m).
Proof.
  intros Hm c. unfold llamar. specialize (Hm (gestor c)).
  destruct (m (gestor c)); cbn in *; subst; split; reflexivity.
Qed.

Lemma quieto_for_each {A} (l : list A) body :
  (forall x, quieto (body x)) -> quieto (io_for_each l body).
Proof.
  intros Hb. induction l as [|x l IH]; cbn [io_for_each].
  - apply quieto_ret.
  - apply quieto_bind; [apply Hb|intros _; exact IH].
Qed.

Lemma quieto_leer : quieto leer.
Proof.
  unfold leer. apply quieto_bind; [apply quieto_input|].
  intros s. apply quieto_ret.
Qed.

Lemma quieto_pausa : quieto pausa.
Proof.
  unfold pausa. apply quieto_bind; [apply quieto_input|].
  intros s. apply quieto_ret.
Qed.

Lemma buscar_cliente_por_nombre_state q g :
  state_of (buscar_cliente_por_nombre q g) = g.
Proof.
  unfold buscar_cliente_por_nombre, bind at 1, self.
  induction (Dict.values (clientes g)) as [|c l IH]; [reflexivity|].
  cbn [comprehension_if]. unfold bind at 1. cbv beta.
  destruct ((n <- lower_value (nombre c) ;;
             ret (Busqueda.contiene (Str.strip (Busqueda.lower q)) n)) g)
    as [b g'|e g'] eqn:E.
  - unfold bind, lower_value, ret in E.
    destruct (nombre c); inversion E; subst.
    unfold bind at 1.
    destruct (comprehension_if _ l g') as [rest g1|e g1];
      cbn in IH |- *; exact IH.
  - unfold bind, lower_value, ret, raise in E.
    destruct (nombre c); inversion E; subst. reflexivity.
Qed.

Lemma solicitar_turno_registrado `{DateTimeLib} d ts s n u g e g' :
  Dict.mem d (clientes g) = true ->
  solicitar_turno d ts s n u g = Raised e g' ->
  (e = InvalidTimestamp \/ e = SlotConflict) /\ g' = g.
Proof.
  intros Hm. unfold solicitar_turno, bind at 1, self. rewrite Hm.
  cbn [negb]. destruct (strptime ts DATETIME_FORMAT) as [dt|].
  - destruct (existsb _ _).
    + unfold raise. intros E. inversion E. split; [now right|reflexivity].
    + cbv zeta.
      unfold bind, assign, dump_to_dict, dump_to_csv, self, ret, bind.
      discriminate.
  - unfold raise. intros E. inversion E. split; [now left|reflexivity].
Qed.

Section MenuSolicitar.

Context `{DateTimeLib}.
Variable uuid4 : nat -> string.
Variable exportar_csv_personalizado : string -> M unit.

(** Option 2 looks the trimmed id up before it asks for anything else.
    For an id that is not registered no booking is attempted: whatever
    is typed next, the manager and its files are as they were and no id
    is drawn.  For a registered id the iteration calls [solicitar_turno]
    with the trimmed id, reads six lines and goes on: the clients are as
    they were, the appointments are those the call leaves, and the error
    of an unknown client is not among what is printed. *)
Theorem menu_solicitar_turno_registrado :
  (forall c o d resto,
     entrada c = o :: d :: resto ->
     Str.strip o = "2" ->
     Dict.mem (Str.strip d) (clientes (gestor c)) = false ->
     gestor (consola_de (iteracion uuid4 exportar_csv_personalizado c))
     = gestor c
     /\ sorteos (consola_de (iteracion uuid4 exportar_csv_personalizado c))
        = sorteos c)
  /\ (forall c o d fh sv no enter resto,
        entrada c = o :: d :: fh :: sv :: no :: enter :: resto ->
        Str.strip o = "2" ->
        Dict.mem (Str.strip d) (clientes (gestor c)) = true ->
        exists c' nuevos,
          iteracion uuid4 exportar_csv_personalizado c = Hecho Sigue c'
          /\ entrada c' = resto
          /\ clientes (gestor c') = clientes (gestor c)
          /\ turnos (gestor c')
             = turnos
                 (state_of
                    (solicitar_turno (Str.strip d) (Str.strip fh)
                       (Str.strip sv) (Str.strip no) (uuid4 (sorteos c))
                       (gestor c)))
          /\ pantalla c' = pantalla c ++ nuevos
          /\ ~ In (Error (Excepcion UnknownClient)) nuevos).
Proof.
  split.
  - intros [ent p n g] o d resto Hent Ho Hm.
    cbn [entrada gestor sorteos] in *. subst ent.
    rewrite iteracion_linea, Ho.
    change (opcion uuid4 exportar_csv_personalizado "2")
      with (dni <- leer ;;
            g <- el_gestor ;;
            if negb (Dict.mem dni (clientes g)) then
              print ClienteNoRegistrado ;;
              buscar <- leer ;;
              (if String.eqb (Busqueda.lower buscar) "s" then
                 nombre_par <- leer ;;
                 res <- llamar (buscar_cliente_por_nombre nombre_par) ;;
                 match res with
                 | [] => print NoSeEncontraron
                 | _ =>
                     print ClientesEncontrados ;;
                     io_for_each res (fun c => print (ClienteHallado c))
                 end
               else io_ret tt) ;;
              pausa ;;
              io_ret Sigue
            else
              fecha_hora <- leer ;;
              servicio <- leer ;;
              notas <- leer ;;
              intentar
                (t <- llamar_sorteando uuid4
                        (solicitar_turno dni fecha_hora servicio notas) ;;
                 print (TurnoCreado (id t))) ;;
              pausa ;;
              io_ret Sigue)%io.
    rewrite bind_leer_cons, bind_el_gestor, Hm. cbn [negb].
    rewrite bind_print.
    match goal with
    | |- context [consola_de (?m ?c0)] =>
        assert (Hq : quieto m)
    end.
    { apply quieto_bind; [apply quieto_leer|]. intros s.
      apply quieto_bind.
      - destruct (String.eqb (Busqueda.lower s) "s"); [|apply quieto_ret].
        apply quieto_bind; [apply quieto_leer|]. intros q.
        apply quieto_bind.
        + apply quieto_llamar. intros g0.
          apply buscar_cliente_por_nombre_state.
        + intros [|x l]; [apply quieto_print|].
          apply quieto_bind; [apply quieto_print|]. intros _.
          apply quieto_for_each. intros y. apply quieto_print.
      - intros _. apply quieto_bind; [apply quieto_pausa|].
        intros _. apply quieto_ret. }
    apply Hq.
  - intros [ent p n g] o d fh sv no enter resto Hent Ho Hm.
    cbn [entrada gestor sorteos pantalla] in *. subst ent.
    rewrite iteracion_linea, Ho.
    change (opcion uuid4 exportar_csv_personalizado "2")
      with (dni <- leer ;;
            g <- el_gestor ;;
            if negb (Dict.mem dni (clientes g)) then
              print ClienteNoRegistrado ;;
              buscar <- leer ;;
              (if String.eqb (Busqueda.lower buscar) "s" then
                 nombre_par <- leer ;;
                 res <- llamar (buscar_cliente_por_nombre nombre_par) ;;
                 match res with
                 | [] => print NoSeEncontraron
                 | _ =>
                     print ClientesEncontrados ;;
                     io_for_each res (fun c => print (ClienteHallado c))
                 end
               else io_ret tt) ;;
              pausa ;;
              io_ret Sigue
            else
              fecha_hora <- leer ;;
              servicio <- leer ;;
              notas <- leer ;;
              intentar
                (t <- llamar_sorteando uuid4
                        (solicitar_turno dni fecha_hora servicio notas) ;;
                 print (TurnoCreado (id t))) ;;
              pausa ;;
              io_ret Sigue)%io.
    rewrite bind_leer_cons, bind_el_gestor, Hm. cbn [negb].
    rewrite !bind_leer_cons.
    cbv [io_bind intentar llamar_sorteando print pausa input io_ret
         entrada pantalla sorteos gestor].
    destruct (solicitar_turno (Str.strip d) (Str.strip fh) (Str.strip sv)
                (Str.strip no) (uuid4 n) g) as [t g'|e g'] eqn:E.
    + eexists. exists [Menu; TurnoCreado (id t)].
      split; [reflexivity|]. cbn [entrada gestor pantalla state_of].
      split; [reflexivity|].
      destruct (solicitar_turno_cases g (Str.strip d) (Str.strip fh)
                  (Str.strip sv) (Str.strip no) (uuid4 n))
        as [[e0 E0]|(dt & g1 & _ & _ & _ & E1 & Hc & _)];
        [congruence|].
      cbv zeta in E1. rewrite E in E1. inversion E1; subst g1.
      split; [exact Hc|]. split; [reflexivity|].
      split; [now rewrite <- app_assoc|].
      intros [Hx|[Hx|[]]]; discriminate.
    + destruct (solicitar_turno_registrado _ _ _ _ _ _ _ _ Hm E) as [He ->].
      eexists. exists [Menu; Error (Excepcion e)].
      split; [reflexivity|]. cbn [entrada gestor pantalla state_of].
      split; [reflexivity|]. split; [reflexivity|]. split; [reflexivity|].
      split; [now rewrite <- app_assoc|].
      intros [Hx|[Hx|[]]]; [discriminate|].
      inversion Hx; subst e. destruct He; discriminate.
Qed.

End MenuSolicitar.

(** ** Exceptions that leave the loop *)

Lemma contenido_ret {A} (a : A) : contenido (io_ret a).
Proof. intros c f c' E. discriminate. Qed.

Lemma contenido_bind {A B} (m : IO A) (k : A -> IO B) :
  contenido m -> (forall a, contenido (k a)) -> contenido (io_bind m k).
Proof.
  intros Hm Hk c f c'. unfold io_bind.
  destruct (m c) as [a c1|f1 c1] eqn:E.
  - apply Hk.
  - intros E'. inversion E'; subst. eapply Hm. exact E.
Qed.

Lemma contenido_input : contenido input.
Proof.
  intros c f c'. unfold input. destruct (entrada c); intros E; now inversion E.
Qed.

Lemma contenido_print m : contenido (print m).
Proof. intros c f c' E. discriminate. Qed.

Lemma contenido_el_gestor : contenido el_gestor.
Proof. intros c f c' E. discriminate. Qed.

(** What a [try] with [except Exception] lets out: nothing. *)
Lemma contenido_intentar m : contenido (intentar m).
Proof.
  intros c f c'. unfold intentar. destruct (m c); discriminate.
Qed.

Lemma contenido_llamar {A} (m : M A) :
  (forall g, exists a g', m g = Returned a g') -> contenido (llamar m).
Proof.
  intros Hm c f c'. unfold llamar.
  destruct (Hm (gestor c)) as (a & g' & ->). discriminate.
Qed.

Lemma contenido_dump_to_dict : contenido (llamar dump_to_dict).
Proof.
  apply contenido_llamar. intros g.
  destruct (dump_to_dict_returns g) as [data E]. rewrite E. eauto.
Qed.

Lemma contenido_dump_to_csv : contenido (llamar dump_to_csv).
Proof.
  apply contenido_llamar. intros g.
  destruct (dump_to_csv_returns g) as (f1 & f2 & E). rewrite E. eauto.
Qed.

Lemma contenido_for_each {A} (l : list A) body :
  (forall x, contenido (body x)) -> contenido (io_for_each l body).
Proof.
  intros Hb. induction l as [|x l IH]; cbn [io_for_each].
  - apply contenido_ret.
  - apply contenido_bind; [apply Hb|intros _; exact IH].
Qed.

Lemma contenido_leer : contenido leer.
Proof.
  unfold leer. apply contenido_bind; [apply contenido_input|].
  intros s. apply contenido_ret.
Qed.

Lemma contenido_pausa : contenido pausa.
Proof.
  unfold pausa. apply contenido_bind; [apply contenido_input|].
  intros s. apply contenido_ret.
Qed.

Ltac contenido_paso :=
  first
    [ apply contenido_ret | apply contenido_leer | apply contenido_pausa
    | apply contenido_print | apply contenido_el_gestor
    | apply contenido_intentar
    | apply contenido_dump_to_dict | apply contenido_dump_to_csv
    | apply contenido_for_each; intros ?
    | apply contenido_bind; [|intros ?]
    | match goal with
      | |- contenido (match ?x with _ => _ end) => destruct x
      end ].

Ltac contenido_camina := cbv beta; repeat (contenido_paso; cbv beta).

Lemma a_salvo_ret {A} (a : A) : a_salvo (io_ret a).
Proof. intros c _. reflexivity. Qed.

Lemma a_salvo_bind {A B} (m : IO A) (k : A -> IO B) :
  a_salvo m -> (forall a, a_salvo (k a)) -> a_salvo (io_bind m k).
Proof.
  intros Hm Hk c Hc. unfold io_bind. specialize (Hm c Hc).
  destruct (m c) as [a c1|f c1]; [|exact Hm].
  assert (Hc1 : nombres_str (gestor c1)) by now rewrite Hm.
  specialize (Hk a c1 Hc1).
  destruct (k a c1); [congruence|exact Hk].
Qed.

Lemma a_salvo_leer : a_salvo leer.
Proof. intros [[|l r] p n g] _; reflexivity. Qed.

Lemma a_salvo_pausa : a_salvo pausa.
Proof. intros [[|l r] p n g] _; reflexivity. Qed.

Lemma a_salvo_print m : a_salvo (print m).
Proof. intros c _. reflexivity. Qed.

Lemma a_salvo_for_each {A} (l : list A) body :
  (forall x, a_salvo (body x)) -> a_salvo (io_for_each l body).
Proof.
  intros Hb. induction l as [|x l IH]; cbn [io_for_each].
  - apply a_salvo_ret.
  - apply a_salvo_bind; [apply Hb|intros _; exact IH].
Qed.

(** The search of option 2 is outside every [try]. *)
Lemma a_salvo_buscar q : a_salvo (llamar (buscar_cliente_por_nombre q)).
Proof.
  intros c Hc. unfold llamar.
  now rewrite (buscar_cliente_por_nombre_str (gestor c) q Hc).
Qed.

Section MenuContenido.

Context `{DateTimeLib}.
Variable uuid4 : nat -> string.
Variable exportar_csv_personalizado : string -> M unit.

Lemma contenido_opcion opt :
  opt <> "2" -> contenido (opcion uuid4 exportar_csv_personalizado opt).
Proof.
  intros Hne. unfold opcion.
  repeat match goal with
         | |- contenido (if String.eqb ?a ?b then _ else _) =>
             destruct (String.eqb_spec a b)
         end;
    try contradiction; contenido_camina.
Qed.

Lemma opcion_2 :
  opcion uuid4 exportar_csv_personalizado "2"
  = (dni <- leer ;;
     g <- el_gestor ;;
     if negb (Dict.mem dni (clientes g)) then
       print ClienteNoRegistrado ;;
       buscar <- leer ;;
       (if String.eqb (Busqueda.lower buscar) "s" then
          nombre_par <- leer ;;
          res <- llamar (buscar_cliente_por_nombre nombre_par) ;;
          match res with
          | [] => print NoSeEncontraron
          | _ =>
              print ClientesEncontrados ;;
              io_for_each res (fun c => print (ClienteHallado c))
          end
        else io_ret tt) ;;
       pausa ;;
       io_ret Sigue
     else
       fecha_hora <- leer ;;
       servicio <- leer ;;
       notas <- leer ;;
       intentar
         (t <- llamar_sorteando uuid4
                 (solicitar_turno dni fecha_hora servicio notas) ;;
          print (TurnoCreado (id t))) ;;
       pausa ;;
       io_ret Sigue)%io.
Proof. reflexivity. Qed.

Lemma opcion_2_contenido c f c' :
  nombres_str (gestor c) ->
  opcion uuid4 exportar_csv_personalizado "2" c = Escapa f c' ->
  f = EOFError.
Proof.
  destruct c as [ent p n g]. cbn [gestor]. intros Hg. rewrite opcion_2.
  destruct ent as [|d r1].
  - rewrite bind_leer_nil. intros E. now inversion E.
  - rewrite bind_leer_cons, bind_el_gestor.
    destruct (negb (Dict.mem (Str.strip d) (clientes g))).
    + match goal with
      | |- ?m ?c0 = _ -> _ => assert (Hs : a_salvo m)
      end.
      { apply a_salvo_bind; [apply a_salvo_print|]. intros _.
        apply a_salvo_bind; [apply a_salvo_leer|]. intros s.
        apply a_salvo_bind.
        - destruct (String.eqb (Busqueda.lower s) "s");
            [|apply a_salvo_ret].
          apply a_salvo_bind; [apply a_salvo_leer|]. intros q.
          apply a_salvo_bind; [apply a_salvo_buscar|].
          intros [|x l]; [apply a_salvo_print|].
          apply a_salvo_bind; [apply a_salvo_print|]. intros _.
          apply a_salvo_for_each. intros y. apply a_salvo_print.
        - intros _. apply a_salvo_bind; [apply a_salvo_pausa|].
          intros _. apply a_salvo_ret. }
      intros E.
      specialize (Hs (mkConsola r1 p n g) Hg). rewrite E in Hs. exact Hs.
    + match goal with
      | |- ?m ?c0 = _ -> _ => assert (Hs : contenido m)
      end.
      { contenido_camina. }
      apply Hs.
Qed.

(** An iteration of the menu on an option other than 0 shows the errors
    of the manager and goes on: where every stored name is a [str], as
    on every state the operations reach, nothing leaves the loop but the
    end of the input.  (Option 0 writes both files outside every [try];
    what a write that fails raises there is not covered.)  The search of
    option 2 is the one call on stored data outside a [try]: where a
    stored client has [None] for a name (a snapshot written by hand) and
    the search is made, [AttributeError] leaves [main_menu]. *)
Theorem menu_contiene_excepciones :
  (forall c f c',
     (forall o resto, entrada c = o :: resto -> Str.strip o <> "0") ->
     nombres_str (gestor c) ->
     iteracion uuid4 exportar_csv_personalizado c = Escapa f c' ->
     f = EOFError)
  /\ (forall c o d s q resto cl n,
        entrada c = o :: d :: s :: q :: resto ->
        Str.strip o = "2" ->
        Dict.mem (Str.strip d) (clientes (gestor c)) = false ->
        Busqueda.lower (Str.strip s) = "s" ->
        In cl (Dict.values (clientes (gestor c))) ->
        nombre cl = VNone ->
        exists c',
          bucle uuid4 exportar_csv_personalizado (S n) c
          = Some (Escapa (Excepcion AttributeError) c')
          /\ gestor c' = gestor c).
Proof.
  split.
  - intros [[|o r] p n g] f c' _ Hg.
    + intros E. now inversion E.
    + cbn [gestor] in Hg. rewrite iteracion_linea.
      destruct (String.eqb_spec (Str.strip o) "2") as [->|Hne].
      * now apply opcion_2_contenido.
      * now apply contenido_opcion.
  - intros [ent p n0 g] o d s q resto cl n Hent Ho Hm Hs Hin Hcl.
    cbn [entrada gestor] in *. subst ent.
    cbn [bucle]. rewrite iteracion_linea, Ho, opcion_2.
    rewrite bind_leer_cons, bind_el_gestor, Hm. cbn [negb].
    rewrite bind_print, bind_leer_cons, Hs.
    change (String.eqb "s" "s") with true. cbv iota.
    cbv [io_bind leer input io_ret llamar entrada pantalla sorteos gestor].
    rewrite (buscar_cliente_por_nombre_None g (Str.strip q)).
    + eexists. split; reflexivity.
    + apply Exists_exists. now exists cl.
Qed.

End MenuContenido.

(** ** The loop ends *)

Lemma sigue_ret : sigue (io_ret Sigue).
Proof. intros c a c' E. now inversion E. Qed.

Lemma sigue_bind {A} (m : IO A) (k : A -> IO paso) :
  (forall a, sigue (k a)) -> sigue (io_bind m k).
Proof.
  intros Hk c a c'. unfold io_bind.
  destruct (m c) as [x c1|f c1]; [apply Hk|discriminate].
Qed.

Ltac sigue_camina :=
  cbv beta;
  repeat (first
            [ apply sigue_ret
            | apply sigue_bind; intros ?
            | match goal with
              | |- sigue (if ?b then _ else _) => destruct b
              | |- sigue (match ?x with _ => _ end) => destruct x
              end ]; cbv beta).

Section MenuBucle.

Context `{DateTimeLib}.
Variable uuid4 : nat -> string.
Variable exportar_csv_personalizado : string -> M unit.

Lemma sigue_opcion opt :
  opt <> "0" -> sigue (opcion uuid4 exportar_csv_personalizado opt).
Proof.
  intros Hne. unfold opcion.
  repeat match goal with
         | |- sigue (if String.eqb ?a ?b then _ else _) =>
             destruct (String.eqb_spec a b)
         end;
    try contradiction; sigue_camina.
Qed.

(** Every turn of the loop that ends reads a line at least. *)
Lemma iteracion_consume c a c' :
  iteracion uuid4 exportar_csv_personalizado c = Hecho a c' ->
  (List.length (entrada c') < List.length (entrada c))%nat.
Proof.
  destruct c as [[|o r] p n g].
  - discriminate.
  - rewrite iteracion_linea. intros E.
    pose proof (corto_opcion uuid4 exportar_csv_personalizado (Str.strip o)
                  (mkConsola r (p ++ [Menu]) n g)) as Hc.
    rewrite E in Hc. cbn [consola_de entrada] in *. cbn [List.length]. lia.
Qed.

(** The loop is left through option 0 alone, which writes both files. *)
Lemma iteracion_termina c c' :
  iteracion uuid4 exportar_csv_personalizado c = Hecho Termina c' ->
  snapshot_al_dia (gestor c') /\ export_al_dia (gestor c').
Proof.
  destruct c as [[|o r] p n g].
  - discriminate.
  - rewrite iteracion_linea.
    destruct (String.eqb_spec (Str.strip o) "0") as [->|Hne].
    + change (opcion uuid4 exportar_csv_personalizado "0")
        with (print Saliendo ;;
              llamar dump_to_dict ;;
              llamar dump_to_csv ;;
              print Listo ;;
              io_ret Termina)%io.
      cbv [io_bind print llamar io_ret dump_to_dict dump_to_csv bind self
           assign entrada pantalla sorteos gestor].
      intros E. inversion E; subst. split; reflexivity.
    + intros E. apply (sigue_opcion _ Hne) in E. discriminate.
Qed.

Lemma bucle_termina n :
  forall c,
    (List.length (entrada c) < n)%nat ->
    exists r,
      bucle uuid4 exportar_csv_personalizado n c = Some r
      /\ forall c',
           r = Hecho tt c' ->
           snapshot_al_dia (gestor c') /\ export_al_dia (gestor c').
Proof.
  induction n as [|n IH]; intros c Hn; [lia|].
  cbn [bucle].
  destruct (iteracion uuid4 exportar_csv_personalizado c) as [[|] c1|f c1]
    eqn:E.
  - apply IH. apply iteracion_consume in E. lia.
  - eexists. split; [reflexivity|]. intros c' Hc'. inversion Hc'; subst.
    now apply iteracion_termina in E.
  - eexists. split; [reflexivity|]. discriminate.
Qed.

(** [main_menu] ends on every finite input, whatever the two files
    hold: after at most one turn of the loop for each line typed it has
    been left through option 0, or the input has run out, or an exception
    has left it.  Where it is left through option 0, both files have
    just been written from what the manager holds. *)
Theorem main_menu_termina :
  forall csv dict lineas,
    exists r,
      main_menu uuid4 exportar_csv_personalizado (S (List.length lineas))
        csv dict lineas
      = Some r
      /\ forall c',
           r = Hecho tt c' ->
           snapshot_al_dia (gestor c') /\ export_al_dia (gestor c').
Proof.
  intros csv dict lineas. unfold main_menu.
  destruct (init csv dict) as [g avisos].
  apply bucle_termina. cbn [entrada]. lia.
Qed.

End MenuBucle.

Section MenuRuns.

#[local] Existing Instance Canonical.lib.

Lemma menu_modificar_en_blanco_witness :
  exists c' t',
    iteracion (fun _ => "id-9") (fun _ => ret tt)
      (mkConsola ["4"; " id-1 "; ""; "  "; "call first"; ""] [] 0
         Ejemplo.g1)
    = Hecho Sigue c'
    /\ Dict.get "id-1" (turnos (gestor c')) = Some t'
    /\ (servicio t' = VStr "Cut"
        \/ (Str.strip "  " <> "" /\ servicio t' = VStr (Str.strip "  "))).
Proof.
  destruct (@menu_modificar_en_blanco Canonical.lib (fun _ => "id-9")
              (fun _ => ret tt)
              (mkConsola ["4"; " id-1 "; ""; "  "; "call first"; ""] [] 0
                 Ejemplo.g1)
              "4" " id-1 " "" "  " "call first" "" []
              (mkTurno (VStr "id-1") (VStr "111") (VStr "2024-03-01 10:00")
                 (VStr "Cut") activo (VStr "")))
    as (c' & t' & E & _ & Hg & _ & Hs & _); try reflexivity.
  exists c', t'. split; [exact E|]. split; [exact Hg|exact Hs].
Defined.

Lemma menu_solicitar_turno_registrado_witness :
  gestor (consola_de
            (iteracion (fun _ => "id-9") (fun _ => ret tt)
               (mkConsola ["2"; "999"; "s"; "ana"; ""] [] 0 Ejemplo.g1)))
  = Ejemplo.g1
  /\ exists c',
       iteracion (fun _ => "id-9") (fun _ => ret tt)
         (mkConsola ["2"; " 111 "; "2024-03-01 12:00"; "Cut"; ""; ""] [] 0
            Ejemplo.g1)
       = Hecho Sigue c'
       /\ entrada c' = [].
Proof.
  destruct (@menu_solicitar_turno_registrado Canonical.lib
              (fun _ => "id-9") (fun _ => ret tt)) as [Ha Hb].
  split.
  - apply (Ha (mkConsola ["2"; "999"; "s"; "ana"; ""] [] 0 Ejemplo.g1)
             "2" "999" ["s"; "ana"; ""]); reflexivity.
  - destruct (Hb (mkConsola
                    ["2"; " 111 "; "2024-03-01 12:00"; "Cut"; ""; ""] [] 0
                    Ejemplo.g1)
                "2" " 111 " "2024-03-01 12:00" "Cut" "" "" [])
      as (c' & nuevos & E & He & _); try reflexivity.
    exists c'. split; [exact E|exact He].
Defined.

Lemma menu_contiene_excepciones_witness :
  iteracion (fun _ => "id-9") (fun _ => ret tt)
    (mkConsola ["5"; "id-7"] [] 0 Ejemplo.g1)
  = Escapa EOFError
      (mkConsola [] [Menu; Error (Excepcion NotFound)] 0 Ejemplo.g1)
  /\ EOFError = EOFError
  /\ exists c',
       bucle (fun _ => "id-9") (fun _ => ret tt) 1
         (mkConsola ["2"; "999"; "S"; "ana"] [] 0 Ejemplo.g_sin_nombre)
       = Some (Escapa (Excepcion AttributeError) c')
       /\ gestor c' = Ejemplo.g_sin_nombre.
Proof.
  destruct (@menu_contiene_excepciones Canonical.lib (fun _ => "id-9")
              (fun _ => ret tt)) as [Ha Hb].
  split; [reflexivity|]. split.
  - apply (Ha (mkConsola ["5"; "id-7"] [] 0 Ejemplo.g1) EOFError
             (mkConsola [] [Menu; Error (Excepcion NotFound)] 0 Ejemplo.g1)).
    + intros o resto Ho. inversion Ho. discriminate.
    + repeat constructor; eexists; reflexivity.
    + reflexivity.
  - apply (Hb (mkConsola ["2"; "999"; "S"; "ana"] [] 0 Ejemplo.g_sin_nombre)
             "2" "999" "S" "ana" []
             (mkCliente (VStr "222") VNone (VStr "")) 0);
      try reflexivity.
    simpl. right. now left.
Defined.

End MenuRuns.

(** ** The table of appointments *)

Lemma length_append a b :
  String.length (String.append a b) = (String.length a + String.length b)%nat.
Proof. induction a as [|c a IH]; simpl; [reflexivity|now rewrite IH]. Qed.

Lemma length_espacios n : String.length (espacios n) = n.
Proof. induction n as [|n IH]; simpl; [reflexivity|now rewrite IH]. Qed.

Lemma length_ancho n s : (n <= String.length (ancho n s))%nat.
Proof. unfold ancho. rewrite length_append, length_espacios. lia. Qed.

Lemma length_renglon i d n f s e :
  (115 <= String.length (renglon i d n f s e))%nat.
Proof.
  unfold renglon. rewrite !length_append.
  pose proof (length_ancho 36 i).
  pose proof (length_ancho 10 d).
  pose proof (length_ancho 20 (String.substring 0 20 n)).
  pose proof (length_ancho 16 f).
  pose proof (length_ancho 15 (String.substring 0 15 s)).
  pose proof (length_ancho 8 e).
  change (String.length dos) with 2%nat. lia.
Qed.

(** An appointment of a consistent manager has a [str] in every column
    of the table, and its client is there with a [str] for a name. *)
Lemma consistente_columnas g t :
  consistente g ->
  In t (Dict.values (turnos g)) ->
  exists i d f s e cl n,
    id t = VStr i /\ cliente_dni t = VStr d /\ datetime_str t = VStr f
    /\ servicio t = VStr s /\ estado t = VStr e
    /\ Dict.get d (clientes g) = Some cl /\ nombre cl = VStr n.
Proof.
  intros (_ & _ & Oc & Ot & _) Hin.
  unfold Dict.values in Hin. apply in_map_iff in Hin.
  destruct Hin as ([k t'] & Heq & Hin). cbn in Heq. subst t'.
  destruct (Ot k t Hin)
    as (Hid & (d & Hd & Hmem) & [f Hf] & (s & Hs & _) & He & _).
  unfold Dict.mem in Hmem.
  destruct (Dict.get d (clientes g)) as [cl|] eqn:Eg; [|discriminate].
  destruct (Oc d cl (DictFacts.get_In d cl _ Eg))
    as (_ & _ & (n & Hn & _) & _).
  assert (He' : exists e, estado t = VStr e).
  { destruct He as [-> |[-> | ->]]; eexists; reflexivity. }
  destruct He' as [e He'].
  exists k, d, f, s, e, cl, n. repeat split; assumption.
Qed.

Lemma imprimir_filas g lista :
  consistente g ->
  incl lista (Dict.values (turnos g)) ->
  forall ent p n,
    io_for_each lista
      (fun t =>
         g <- el_gestor ;;
         let cli := clientes_get g (cliente_dni t) in
         let nombre :=
           match cli with
           | Some c => nombre c
           | None => VStr "(sin cliente)"
           end in
         c1 <- formato 36 (id t) ;;
         c2 <- formato 10 (cliente_dni t) ;;
         c3 <- formato_corte 20 20 nombre ;;
         c4 <- formato 16 (datetime_str t) ;;
         c5 <- formato_corte 15 15 (servicio t) ;;
         c6 <- formato 8 (estado t) ;;
         print (Linea
           (String.append c1 (String.append dos
           (String.append c2 (String.append dos
           (String.append c3 (String.append dos
           (String.append c4 (String.append dos
           (String.append c5 (String.append dos c6))))))))))))%io
      (mkConsola ent p n g)
    = Hecho tt
        (mkConsola ent (p ++ map (fun t => Linea (renglon_de g t)) lista)
           n g).
Proof.
  intros Hg. induction lista as [|t lista IH]; intros Hin ent p n.
  - cbn [io_for_each map]. now rewrite app_nil_r.
  - destruct (consistente_columnas g t Hg (Hin t (or_introl eq_refl)))
      as (i & d & f & s & e & cl & nm & Hi & Hd & Hf & Hs & He & Hcl & Hn).
    cbn [io_for_each map]. unfold io_bind at 1.
    match goal with
    | |- match ?row ?c0 with _ => _ end = _ =>
        assert (Er : row c0
                     = Hecho tt
                         (mkConsola ent (p ++ [Linea (renglon_de g t)]) n g))
    end.
    { cbv [io_bind el_gestor gestor]. cbv zeta.
      unfold renglon_de, clientes_get.
      rewrite Hi, Hd, Hf, Hs, He, Hcl, Hn. reflexivity. }
    rewrite Er.
    rewrite IH by (intros x Hx; apply Hin; now right).
    rewrite <- app_assoc. reflexivity.
Qed.

Section Tabla.

Context `{DateTimeLib}.

(** [imprimir_turnos], on appointments taken from a manager that the
    operations have reached from the empty one, raises nothing, reads
    nothing and leaves the manager as it was.  It prints the heading, the
    rule and one row for each appointment, in the order of the list; the
    row shows the name of the registered client, never the text that
    stands for a missing one, and is at least as long as the heading,
    115 characters.  An empty list prints the one line that says so. *)
Theorem imprimir_turnos_tabla :
  forall ops lista c,
    gestor c = run_ops ops vacio ->
    incl lista (Dict.values (turnos (gestor c))) ->
    imprimir_turnos lista c
    = Hecho tt
        (mkConsola (entrada c)
           (pantalla c
            ++ match lista with
               | [] => [Linea "-> No hay turnos que mostrar."]
               | _ =>
                   Linea cabecera :: Linea (rayas 110)
                   :: map (fun t => Linea (renglon_de (gestor c) t)) lista
               end)
           (sorteos c) (gestor c))
    /\ String.length cabecera = 115%nat
    /\ Forall
         (fun t =>
            (115 <= String.length (renglon_de (gestor c) t))%nat
            /\ exists d cl,
                 cliente_dni t = VStr d
                 /\ Dict.get d (clientes (gestor c)) = Some cl)
         lista.
Proof.
  intros ops lista [ent p n g] Hg Hin. cbn [gestor entrada pantalla sorteos] in *.
  assert (Hc : consistente g).
  { rewrite Hg. apply consistente_run_ops, consistente_vacio. }
  split; [|split; [reflexivity|]].
  - destruct lista as [|t lista]; [reflexivity|].
    unfold imprimir_turnos. rewrite !bind_print.
    rewrite (imprimir_filas g (t :: lista) Hc Hin).
    now rewrite <- !app_assoc.
  - apply Forall_forall. intros t Ht.
    split; [apply length_renglon|].
    destruct (consistente_columnas g t Hc (Hin t Ht))
      as (i & d & f & s & e & cl & nm & _ & Hd & _ & _ & _ & Hcl & _).
    now exists d, cl.
Qed.

End Tabla.

Section TablaRuns.

#[local] Existing Instance Canonical.lib.

Lemma imprimir_turnos_tabla_witness :
  imprimir_turnos (Dict.values (turnos Ejemplo.g1))
    (mkConsola [] [] 0 Ejemplo.g1)
  = Hecho tt
      (mkConsola []
         [Linea cabecera; Linea (rayas 110);
          Linea (renglon "id-1" "111" "Ana Gomez" "2024-03-01 10:00" "Cut"
                   "activo")]
         0 Ejemplo.g1).
Proof.
  apply (@imprimir_turnos_tabla Canonical.lib
           [Ejemplo.ana; Ejemplo.corte]
           (Dict.values (turnos Ejemplo.g1))
           (mkConsola [] [] 0 Ejemplo.g1)).
  - reflexivity.
  - intros t Ht. exact Ht.
Defined.

End TablaRuns.

Section MasRuns.

#[local] Existing Instance Canonical.lib.

Lemma init_prefiere_snapshot_witness :
  export_al_dia
    (fst (init (Some Ejemplo.archivo)
            (Some [("clientes",
                    [("111",
                      [("dni", VStr "111"); ("nombre", VStr "Ana Gomez")])]);
                   ("turnos", [])])))
  /\ csv_file
       (fst (init (Some Ejemplo.archivo)
               (Some [("clientes", [("111", [("dni", VStr "111")])])])))
     = Some Ejemplo.archivo.
Proof.
  split.
  - apply (init_prefiere_snapshot (Some Ejemplo.archivo)
             [("clientes",
               [("111",
                 [("dni", VStr "111"); ("nombre", VStr "Ana Gomez")])]);
              ("turnos", [])]).
    reflexivity.
  - apply (init_prefiere_snapshot (Some Ejemplo.archivo)
             [("clientes", [("111", [("dni", VStr "111")])])]).
    discriminate.
Defined.

Lemma main_menu_termina_witness :
  match
    main_menu (fun _ => "id-9") (fun _ => ret tt) 2 None None ["0"]
  with
  | Some (Hecho _ c') =>
      snapshot_al_dia (gestor c') /\ export_al_dia (gestor c')
  | _ => False
  end.
Proof.
  destruct (@main_menu_termina Canonical.lib (fun _ => "id-9")
              (fun _ => ret tt) None None ["0"]) as (r & E & Hr).
  cbn [List.length] in E. rewrite E.
  destruct r as [[] c'|f c'].
  - apply (Hr c' eq_refl).
  - vm_compute in E. discriminate.
Defined.

End MasRuns.
